(** * cheribuild: project hooks of the QEMU, cross-compile and FETT targets

    Part I is the embedding, Part II the vocabulary of the statements and the
    example inputs, Part III the lemmas and theorems.

    A shallow embedding of
      - pycheribuild/projects/build_qemu.py
      - pycheribuild/projects/cross/crosscompileproject.py
      - pycheribuild/projects/cross/fett.py
      - pycheribuild/projects/cross/wayland.py
    Python methods become functions in a small state-and-exit monad; the
    instance attributes a method reads or assigns are fields of a record;
    base-class hooks reached through [super()] that live in other files are
    parameters of the hook that calls them. *)

From Stdlib Require Import String Ascii List Bool Arith Lia.
From stdpp Require Import base option list strings gmap.

Open Scope string_scope.
Open Scope list_scope.

(** ** Python strings and paths *)
Module Py.

(** [needle in hay] on [str]. *)
Fixpoint contains (needle hay : string) : bool :=
  String.prefix needle hay ||
  match hay with
  | EmptyString => false
  | String _ rest => contains needle rest
  end.

(** [s.replace(old, new)]: every non-overlapping occurrence, left to right.
    [skip] counts the characters of a matched [old] still to be dropped. *)
Fixpoint replace_from (old new : string) (skip : nat) (s : string) : string :=
  match s with
  | EmptyString =>
      match skip, old with
      | O, EmptyString => new
      | _, _ => EmptyString
      end
  | String c rest =>
      match skip with
      | S k => replace_from old new k rest
      | O =>
          if String.prefix old s
          then new +:+ match String.length old with
                       | O => String c (replace_from old new O rest)
                       | S k => replace_from old new k rest
                       end
          else String c (replace_from old new O rest)
      end
  end.

Definition replace (old new s : string) : string := replace_from old new 0 s.

(** [sep.join(l)]. *)
Fixpoint join (sep : string) (l : list string) : string :=
  match l with
  | [] => ""
  | [x] => x
  | x :: rest => x +:+ sep +:+ join sep rest
  end.

Definition lower_ascii (c : ascii) : ascii :=
  let n := nat_of_ascii c in
  if ((65 <=? n)%nat && (n <=? 90)%nat)%bool then ascii_of_nat (n + 32) else c.

(** [s.lower()], on the ASCII range. *)
Fixpoint lower (s : string) : string :=
  match s with
  | EmptyString => EmptyString
  | String c rest => String (lower_ascii c) (lower rest)
  end.

(** Truthiness of a [str]: the empty string is false. *)
Definition truthy (s : string) : bool :=
  match s with EmptyString => false | _ => true end.

(** The double-quote character, as a string. *)
Definition dquote : string := String (ascii_of_nat 34) EmptyString.

(** [a < b] on version tuples. *)
Definition version_lt (a b : nat * nat * nat) : bool :=
  let '(a1, a2, a3) := a in
  let '(b1, b2, b3) := b in
  ((a1 <? b1)%nat
   || ((a1 =? b1)%nat && ((a2 <? b2)%nat || ((a2 =? b2)%nat && (a3 <? b3)%nat))))%bool.

Definition ends_with_slash (s : string) : bool :=
  match String.get (String.length s - 1) s with
  | Some c => Ascii.eqb c "/"
  | None => false
  end.

End Py.

(** [pathlib.Path] as its string form; [p / seg] keeps [seg] alone when it is
    absolute or [p] is the empty path, and joins with one separator otherwise. *)
Definition Path := string.

Definition path_div (p : Path) (seg : string) : Path :=
  if String.prefix "/" seg then seg
  else if String.eqb p "" then seg
  else if Py.ends_with_slash p then p +:+ seg
  else p +:+ "/" +:+ seg.

Notation "p // seg" := (path_div p seg) (at level 40, left associativity).
Arguments path_div : simpl never.

(** ** Console events and the hook monad *)

Inductive Event : Type :=
| EInfo (msg : string)
| EWarning (msg : string)
| EPrint (msg : string)
| EFatal (msg : string) (fixit_hint : option string)
| ERunCmd (argv : list string) (cwd : Path)
| EWriteFile (file : Path) (contents : string)
| ECreateSymlink (src dest : Path)
| EMakedirs (dir : Path).

Inductive Exn : Type :=
| AssertionError (what : string)
| ValueError (what : string)
| AttributeError (what : string)
| IndexError (what : string).

(** How a hook ends: it returns, the process exits ([sys.exit] after a fatal
    error), or an exception propagates. *)
Inductive result (S A : Type) : Type :=
| Done (a : A) (s : S)
| Exit (code : nat) (s : S)
| Raised (e : Exn) (s : S).
Arguments Done {S A} a s.
Arguments Exit {S A} code s.
Arguments Raised {S A} e s.

Definition M (S A : Type) : Type := S -> result S A.

Definition ret {S A} (a : A) : M S A := fun s => Done a s.

Definition bind {S A B} (m : M S A) (k : A -> M S B) : M S B :=
  fun s =>
    match m s with
    | Done a s' => k a s'
    | Exit c s' => Exit c s'
    | Raised e s' => Raised e s'
    end.

Notation "x <- m ;; k" := (bind m (fun x => k))
  (at level 100, m at next level, right associativity).
Notation "m ;;; k" := (bind m (fun _ => k))
  (at level 100, right associativity).

Definition get {S} : M S S := fun s => Done s s.
Definition modify {S} (f : S -> S) : M S unit := fun s => Done tt (f s).
Definition raise {S A} (e : Exn) : M S A := fun s => Raised e s.
Definition when {S} (b : bool) (m : M S unit) : M S unit := if b then m else ret tt.

(** [assert cond, what]. *)
Definition assert {S} (cond : bool) (what : string) : M S unit :=
  if cond then ret tt else raise (AssertionError what).

(** The state in which a hook ended, whatever the way it ended. *)
Definition final {S A} (r : result S A) : S :=
  match r with Done _ s | Exit _ s | Raised _ s => s end.

(** What every project state offers to the console helpers: a log of events
    and the global [config.pretend] flag. *)
Class Console (S : Type) : Type := {
  console : S -> list Event;
  emit : Event -> S -> S;
  pretend : S -> bool;
}.

Section ConsoleHelpers.
Context {S : Type} `{Console S}.

Definition info (msg : string) : M S unit := modify (emit (EInfo msg)).
Definition warning (msg : string) : M S unit := modify (emit (EWarning msg)).
Definition print (msg : string) : M S unit := modify (emit (EPrint msg)).

(** Modelled from the spec: [fatalError] / [self.fatal] (pycheribuild/utils.py
    is not part of the sources read here).  The error and its fix-it hint
    are reported; the run then ends with exit status 3, except in pretend
    mode, where the call returns: callers follow it with [return]. *)
Definition fatalError (msg : string) (fixit_hint : option string) : M S unit :=
  fun s =>
    let s' := emit (EFatal msg fixit_hint) s in
    if pretend s then Done tt s' else Exit 3 s'.

End ConsoleHelpers.

(** The plain console: nothing but the log and the pretend flag. *)
Record Term : Type := mkTerm { term_log : list Event; term_pretend : bool }.

#[export] Instance Term_console : Console Term := {
  console := term_log;
  emit e t := mkTerm (term_log t ++ [e]) (term_pretend t);
  pretend := term_pretend;
}.

(** ** Option declarations made at class-setup time *)
Module Options.

Inductive Default : Type :=
| NoDefault
| BoolDefault (b : bool)
| StrDefault (s : string)
| ListDefault (l : list string)
| ComputedDefault (as_string : string).

Record OptionDecl : Type := mkOption {
  opt_name : string;
  opt_is_bool : bool;
  opt_default : Default;
}.

(** The options registered so far for the class being set up, oldest first. *)
Definition Registry : Type := list OptionDecl.

(** The keyword arguments handed along the [setup_config_options] chain. *)
Definition Kwargs : Type := list (string * string).

(** A step of class set-up: given the keyword arguments, it takes what class
    set-up threads (the registry, alone or with the class dictionaries a
    hook reads) to what it leaves. *)
Definition Setup (T : Type) : Type := Kwargs -> T -> T.

(** Modelled from the spec: [add_config_option] / [add_bool_option] (and the
    older [addConfigOption] / [addBoolOption]) of the project base class,
    which is not part of the sources read here: the option is entered in the
    registry of the class being set up. *)
Definition add_config_option (name : string) (d : Default) : Registry -> Registry :=
  fun r => r ++ [mkOption name false d].
Definition add_bool_option (name : string) (d : Default) : Registry -> Registry :=
  fun r => r ++ [mkOption name true d].

Definition names (r : Registry) : list string := map opt_name r.

(** A class's own [setup_config_options]: it is given the next
    implementation in method-resolution order, the class being set up and
    the keyword arguments. *)
Definition Hook (T C : Type) : Type := Setup T -> C -> Setup T.

(** [cls.setup_config_options(kwargs)]: the first override in
    method-resolution order runs; [super()] inside it is the dispatch over
    the rest of the order, and [base] is the implementation of the first
    class beyond those listed. *)
Fixpoint dispatch {T C} (mro : list (option (Hook T C))) (base : Setup T) (cls : C)
    : Setup T :=
  match mro with
  | [] => base
  | None :: rest => dispatch rest base cls
  | Some hook :: rest => hook (dispatch rest base cls) cls
  end.

End Options.

(** ** pycheribuild/projects/cross/crosscompileproject.py *)
Module CrossCompile.

Inductive CrossInstallDir : Type := NONE | CHERIBSD_ROOTFS | SDK.

(** [config.chericonfig.CrossCompileTarget]; an attribute that still holds
    Python's [None] is [None] here. *)
Inductive CrossCompileTarget : Type := NATIVE | MIPS | CHERI.

#[export] Instance CrossInstallDir_eq_dec : EqDecision CrossInstallDir.
Proof. solve_decision. Defined.
#[export] Instance CrossCompileTarget_eq_dec : EqDecision CrossCompileTarget.
Proof. solve_decision. Defined.

Inductive Generator : Type := Ninja | Makefiles.
#[export] Instance Generator_eq_dec : EqDecision Generator.
Proof. solve_decision. Defined.

(** The fields of the global configuration read in this file.
    [cheribsd_rootfsDir] stands for [BuildCHERIBSD.rootfsDir(config)]. *)
Record CheriConfig : Type := {
  sdkDir : Path;
  sdkSysrootDir : Path;
  sdkBinDir : Path;
  cheriBitsStr : string;
  clangPath : Path;
  clangPlusPlusPath : Path;
  use_sdk_clang_for_native_xbuild : bool;
  withLibstatcounters : bool;
  cheribsd_rootfsDir : Path;
}.

(** What the hooks ask of the build host. *)
Record Host : Type := {
  IS_MAC : bool;
  path_exists : Path -> bool;
  cmake_version : nat * nat * nat;
  includeLocalFile : Path -> string;
}.

(** A project instance: the attributes the hooks read and assign. *)
Record Project : Type := {
  config : CheriConfig;
  projectName : string;
  crossInstallDir : CrossInstallDir;
  crossCompileTarget : option CrossCompileTarget;
  baremetal : bool;
  forceDefaultCC : bool;
  warningFlags : list string;
  compiler_dir : Path;
  targetTriple : string;
  sdkSysroot : Path;
  installPrefix : Path;
  buildDir : Path;
  COMMON_FLAGS : list string;
  CFLAGS : list string;
  CXXFLAGS : list string;
  ASMFLAGS : list string;
  LDFLAGS : list string;
  (* options *)
  linker : string;
  newCapRelocs : bool;
  optimizationFlags : list string;
  (* CMake projects *)
  generator : Generator;
  _cmakeTemplate : string;
  toolchainFile : Path;
  cmake_options : list (string * string);
  (* Autotools projects *)
  _configure_supports_libdir : bool;
  _configure_supports_variables_on_cmdline : bool;
  configureArgs : list string;
  configureEnvironment : gmap string string;
  (* console *)
  log : list Event;
  pretending : bool;
}.

Definition set_log (f : list Event -> list Event) (p : Project) : Project :=
  {| config := config p; projectName := projectName p; crossInstallDir := crossInstallDir p;
     crossCompileTarget := crossCompileTarget p; baremetal := baremetal p;
     forceDefaultCC := forceDefaultCC p; warningFlags := warningFlags p;
     compiler_dir := compiler_dir p; targetTriple := targetTriple p; sdkSysroot := sdkSysroot p;
     installPrefix := installPrefix p; buildDir := buildDir p;
     COMMON_FLAGS := COMMON_FLAGS p; CFLAGS := CFLAGS p; CXXFLAGS := CXXFLAGS p;
     ASMFLAGS := ASMFLAGS p; LDFLAGS := LDFLAGS p; linker := linker p;
     newCapRelocs := newCapRelocs p; optimizationFlags := optimizationFlags p;
     generator := generator p; _cmakeTemplate := _cmakeTemplate p;
     toolchainFile := toolchainFile p; cmake_options := cmake_options p;
     _configure_supports_libdir := _configure_supports_libdir p;
     _configure_supports_variables_on_cmdline := _configure_supports_variables_on_cmdline p;
     configureArgs := configureArgs p; configureEnvironment := configureEnvironment p;
     log := f (log p); pretending := pretending p |}.

Definition set_COMMON_FLAGS (f : list string -> list string) (p : Project) : Project :=
  {| config := config p; projectName := projectName p; crossInstallDir := crossInstallDir p;
     crossCompileTarget := crossCompileTarget p; baremetal := baremetal p;
     forceDefaultCC := forceDefaultCC p; warningFlags := warningFlags p;
     compiler_dir := compiler_dir p; targetTriple := targetTriple p; sdkSysroot := sdkSysroot p;
     installPrefix := installPrefix p; buildDir := buildDir p;
     COMMON_FLAGS := f (COMMON_FLAGS p); CFLAGS := CFLAGS p; CXXFLAGS := CXXFLAGS p;
     ASMFLAGS := ASMFLAGS p; LDFLAGS := LDFLAGS p; linker := linker p;
     newCapRelocs := newCapRelocs p; optimizationFlags := optimizationFlags p;
     generator := generator p; _cmakeTemplate := _cmakeTemplate p;
     toolchainFile := toolchainFile p; cmake_options := cmake_options p;
     _configure_supports_libdir := _configure_supports_libdir p;
     _configure_supports_variables_on_cmdline := _configure_supports_variables_on_cmdline p;
     configureArgs := configureArgs p; configureEnvironment := configureEnvironment p;
     log := log p; pretending := pretending p |}.

Definition set_cmake (tpl : string) (file : Path) (p : Project) : Project :=
  {| config := config p; projectName := projectName p; crossInstallDir := crossInstallDir p;
     crossCompileTarget := crossCompileTarget p; baremetal := baremetal p;
     forceDefaultCC := forceDefaultCC p; warningFlags := warningFlags p;
     compiler_dir := compiler_dir p; targetTriple := targetTriple p; sdkSysroot := sdkSysroot p;
     installPrefix := installPrefix p; buildDir := buildDir p;
     COMMON_FLAGS := COMMON_FLAGS p; CFLAGS := CFLAGS p; CXXFLAGS := CXXFLAGS p;
     ASMFLAGS := ASMFLAGS p; LDFLAGS := LDFLAGS p; linker := linker p;
     newCapRelocs := newCapRelocs p; optimizationFlags := optimizationFlags p;
     generator := generator p; _cmakeTemplate := tpl;
     toolchainFile := file; cmake_options := cmake_options p;
     _configure_supports_libdir := _configure_supports_libdir p;
     _configure_supports_variables_on_cmdline := _configure_supports_variables_on_cmdline p;
     configureArgs := configureArgs p; configureEnvironment := configureEnvironment p;
     log := log p; pretending := pretending p |}.

Definition set_cmake_options (f : list (string * string) -> list (string * string))
    (p : Project) : Project :=
  {| config := config p; projectName := projectName p; crossInstallDir := crossInstallDir p;
     crossCompileTarget := crossCompileTarget p; baremetal := baremetal p;
     forceDefaultCC := forceDefaultCC p; warningFlags := warningFlags p;
     compiler_dir := compiler_dir p; targetTriple := targetTriple p; sdkSysroot := sdkSysroot p;
     installPrefix := installPrefix p; buildDir := buildDir p;
     COMMON_FLAGS := COMMON_FLAGS p; CFLAGS := CFLAGS p; CXXFLAGS := CXXFLAGS p;
     ASMFLAGS := ASMFLAGS p; LDFLAGS := LDFLAGS p; linker := linker p;
     newCapRelocs := newCapRelocs p; optimizationFlags := optimizationFlags p;
     generator := generator p; _cmakeTemplate := _cmakeTemplate p;
     toolchainFile := toolchainFile p; cmake_options := f (cmake_options p);
     _configure_supports_libdir := _configure_supports_libdir p;
     _configure_supports_variables_on_cmdline := _configure_supports_variables_on_cmdline p;
     configureArgs := configureArgs p; configureEnvironment := configureEnvironment p;
     log := log p; pretending := pretending p |}.

Definition set_configureArgs (f : list string -> list string) (p : Project) : Project :=
  {| config := config p; projectName := projectName p; crossInstallDir := crossInstallDir p;
     crossCompileTarget := crossCompileTarget p; baremetal := baremetal p;
     forceDefaultCC := forceDefaultCC p; warningFlags := warningFlags p;
     compiler_dir := compiler_dir p; targetTriple := targetTriple p; sdkSysroot := sdkSysroot p;
     installPrefix := installPrefix p; buildDir := buildDir p;
     COMMON_FLAGS := COMMON_FLAGS p; CFLAGS := CFLAGS p; CXXFLAGS := CXXFLAGS p;
     ASMFLAGS := ASMFLAGS p; LDFLAGS := LDFLAGS p; linker := linker p;
     newCapRelocs := newCapRelocs p; optimizationFlags := optimizationFlags p;
     generator := generator p; _cmakeTemplate := _cmakeTemplate p;
     toolchainFile := toolchainFile p; cmake_options := cmake_options p;
     _configure_supports_libdir := _configure_supports_libdir p;
     _configure_supports_variables_on_cmdline := _configure_supports_variables_on_cmdline p;
     configureArgs := f (configureArgs p); configureEnvironment := configureEnvironment p;
     log := log p; pretending := pretending p |}.

Definition set_configureEnvironment (f : gmap string string -> gmap string string)
    (p : Project) : Project :=
  {| config := config p; projectName := projectName p; crossInstallDir := crossInstallDir p;
     crossCompileTarget := crossCompileTarget p; baremetal := baremetal p;
     forceDefaultCC := forceDefaultCC p; warningFlags := warningFlags p;
     compiler_dir := compiler_dir p; targetTriple := targetTriple p; sdkSysroot := sdkSysroot p;
     installPrefix := installPrefix p; buildDir := buildDir p;
     COMMON_FLAGS := COMMON_FLAGS p; CFLAGS := CFLAGS p; CXXFLAGS := CXXFLAGS p;
     ASMFLAGS := ASMFLAGS p; LDFLAGS := LDFLAGS p; linker := linker p;
     newCapRelocs := newCapRelocs p; optimizationFlags := optimizationFlags p;
     generator := generator p; _cmakeTemplate := _cmakeTemplate p;
     toolchainFile := toolchainFile p; cmake_options := cmake_options p;
     _configure_supports_libdir := _configure_supports_libdir p;
     _configure_supports_variables_on_cmdline := _configure_supports_variables_on_cmdline p;
     configureArgs := configureArgs p; configureEnvironment := f (configureEnvironment p);
     log := log p; pretending := pretending p |}.

#[export] Instance Project_console : Console Project := {
  console := log;
  emit e := set_log (fun l => l ++ [e]);
  pretend := pretending;
}.

(** *** The computed default of the install directory *)

(** [_installDir(config, project)]; the result is [None] when the function
    falls off its end after [fatalError] has returned. *)
Definition _installDir {S} `{Console S} (config : CheriConfig) (project : Project)
    : M S (option Path) :=
  if decide (crossCompileTarget project = Some NATIVE) then
    ret (Some (sdkDir config))
  else if decide (crossInstallDir project = CHERIBSD_ROOTFS) then
    targetName <-
      (if decide (crossCompileTarget project = Some CHERI) then
         ret ("cheri" +:+ cheriBitsStr config)
       else
         assert (bool_decide (crossCompileTarget project = Some MIPS))
                "project.crossCompileTarget == CrossCompileTarget.MIPS" ;;;
         ret "mips") ;;
    ret (Some (cheribsd_rootfsDir config // "opt" // targetName
                 // Py.lower (projectName project)))
  else if decide (crossInstallDir project = SDK) then
    ret (Some (sdkSysrootDir config))
  else
    fatalError ("Unknown install dir for " +:+ projectName project) None ;;;
    ret None.

Definition _installDirMessage (project : Project) : string :=
  match crossInstallDir project with
  | CHERIBSD_ROOTFS =>
      "$CHERIBSD_ROOTFS/extra/" +:+ Py.lower (projectName project)
        +:+ " or $CHERI_SDK for --xhost build"
  | SDK => "$CHERI_SDK/sysroot for cross builds or $CHERI_SDK for --xhost build"
  | NONE => "UNKNOWN"
  end.

(** *** Class attributes of [CrossCompileMixin] *)

(** A class deriving from the mixin: the class attributes it may override.
    [None] is an attribute the class leaves to the mixin. *)
Record Class : Type := {
  cls_baremetal : option bool;
  cls_crossCompileTarget : option CrossCompileTarget;
  cls_defaultLinker : option string;
  cls_defaultOptimizationLevel : option (list string);
}.

(** Attribute lookup through the class hierarchy, down to the mixin's value. *)
Definition attr_baremetal (cls : Class) : bool := default false (cls_baremetal cls).
Definition attr_defaultLinker (cls : Class) : string := default "lld" (cls_defaultLinker cls).
Definition attr_defaultOptimizationLevel (cls : Class) : list string :=
  default ["-O2"] (cls_defaultOptimizationLevel cls).

(** [dependencies = lambda cls: ...]: stored unevaluated, applied to the
    class when the dependencies are asked for. *)
Definition dependencies : Class -> list string :=
  fun cls => if attr_baremetal cls then ["freestanding-sdk"] else ["cheribsd-sdk"].

(** *** Option setup *)
Import Options.

Definition defaultTarget : Default :=
  ComputedDefault "'cheri' unless -xmips/-xhost is set".

(** The classes of this family, here and in fett.py and wayland.py. *)
Inductive ClassName : Type :=
| CrossCompileMixin
| CrossCompileProject
| CrossCompileCMakeProject
| CrossCompileAutotoolsProject
| BuildFettConfig
| BuildEPollShim
| BuildExpat.

#[export] Instance ClassName_eq_dec : EqDecision ClassName.
Proof. solve_decision. Defined.

(** The first class after those of [mro] in method-resolution order. *)
Inductive BaseClass : Type := PyObject | BaseProject | CMakeProject | AutotoolsProject.

(** Method-resolution order, up to the first class defined elsewhere. *)
Definition mro (c : ClassName) : list ClassName :=
  match c with
  | CrossCompileMixin => [CrossCompileMixin]
  | CrossCompileProject => [CrossCompileProject; CrossCompileMixin]
  | CrossCompileCMakeProject => [CrossCompileCMakeProject; CrossCompileMixin]
  | CrossCompileAutotoolsProject => [CrossCompileAutotoolsProject; CrossCompileMixin]
  | BuildFettConfig => [BuildFettConfig; CrossCompileProject; CrossCompileMixin]
  | BuildEPollShim => [BuildEPollShim; CrossCompileCMakeProject; CrossCompileMixin]
  | BuildExpat => [BuildExpat; CrossCompileCMakeProject; CrossCompileMixin]
  end.

Definition base_of (c : ClassName) : BaseClass :=
  match c with
  | CrossCompileMixin => PyObject
  | CrossCompileProject | BuildFettConfig => BaseProject
  | CrossCompileCMakeProject | BuildEPollShim | BuildExpat => CMakeProject
  | CrossCompileAutotoolsProject => AutotoolsProject
  end.

(** What class set-up threads: the options registered for the class being
    set up, and the classes whose own dictionary holds the [target] option
    object, put there by [cls.crossCompileTarget = cls.addConfigOption(...)]
    when they were set up. *)
Record ClassSetup : Type := {
  registered : Registry;
  target_option_of : list ClassName;
}.

(** [inspect.getattr_static(cls, "crossCompileTarget") is None] for the class
    [c] with the attributes [cls].  The attribute is looked up, without
    evaluating it, in the dictionaries of the classes of the resolution
    order, in that order: the lookup ends at the option object of a class
    that was set up earlier or at the target a class fixes, and only
    otherwise at the [None] of the mixin. *)
Definition crossCompileTarget_is_None (c : ClassName) (cls : Class) (st : ClassSetup)
    : bool :=
  bool_decide (cls_crossCompileTarget cls = None)
  && forallb (fun ancestor => negb (bool_decide (ancestor ∈ target_option_of st))) (mro c).

(** [CrossCompileMixin.setupConfigOptions], for the class named [c] with the
    attributes [cls]. *)
Definition CrossCompileMixin_setupConfigOptions : Hook ClassSetup (ClassName * Class) :=
  fun super class kwargs st =>
    let '(c, cls) := class in
    let st := super kwargs st in
    let r := registered st in
    let r := add_bool_option "use-mxgot" NoDefault r in
    let r := add_config_option "linker" (StrDefault (attr_defaultLinker cls)) r in
    let r := add_bool_option "debug-info" (BoolDefault true) r in
    let r := add_config_option "optimization-flags"
               (ListDefault (attr_defaultOptimizationLevel cls)) r in
    let r := add_bool_option "new-cap-relocs" (BoolDefault false) r in
    if crossCompileTarget_is_None c cls st
    then {| registered := add_config_option "target" defaultTarget r;
            target_option_of := c :: target_option_of st |}
    else {| registered := r; target_option_of := target_option_of st |}.

(** [CrossCompileCMakeProject.setupConfigOptions]. *)
Definition CrossCompileCMakeProject_setupConfigOptions
    : Hook ClassSetup (ClassName * Class) :=
  fun super class kwargs st => super kwargs st.

(** The override of the option-setup hook a class defines itself, if any. *)
Definition setup_override (c : ClassName) : option (Hook ClassSetup (ClassName * Class)) :=
  match c with
  | CrossCompileMixin => Some CrossCompileMixin_setupConfigOptions
  | CrossCompileCMakeProject => Some CrossCompileCMakeProject_setupConfigOptions
  | _ => None
  end.

(** [cls.setupConfigOptions(kwargs)] for the class named [c] with the
    attributes [cls]. *)
Definition setupConfigOptions (base : BaseClass -> Setup ClassSetup) (c : ClassName)
    (cls : Class) : Setup ClassSetup :=
  dispatch (map setup_override (mro c)) (base (base_of c)) (c, cls).

(** *** Properties of an instance *)

Definition compiling_for_mips (p : Project) : bool :=
  bool_decide (crossCompileTarget p = Some MIPS).
Definition compiling_for_cheri (p : Project) : bool :=
  bool_decide (crossCompileTarget p = Some CHERI).
Definition compiling_for_host (p : Project) : bool :=
  bool_decide (crossCompileTarget p = Some NATIVE).

Definition targetTripleWithVersion (p : Project) : string :=
  if compiling_for_host p || baremetal p then targetTriple p
  else targetTriple p +:+ "12".

(** The [default_ldflags] property, from [result = [...]] on. *)
Definition ldflags_for (emulation abi : string) (p : Project) : list string :=
  let result := ["-mabi=" +:+ abi;
                 "-Wl,-m" +:+ emulation;
                 "-fuse-ld=" +:+ linker p;
                 "-Wl,-z,notext";
                 "-B" +:+ sdkBinDir (config p)] in
  let result := if negb (baremetal p)
                then result ++ ["--sysroot=" +:+ sdkSysroot p] else result in
  let result := if compiling_for_cheri p && newCapRelocs p
                then result ++ ["-no-capsizefix"; "-Wl,-process-cap-relocs"; "-Wl,-verbose"]
                else result in
  if withLibstatcounters (config p)
  then result ++ ["-Wl,--whole-archive"; "-lstatcounters"; "-Wl,--no-whole-archive"]
  else result.

(** The [default_ldflags] property. *)
Definition default_ldflags : M Project (list string) :=
  p <- get ;;
  match crossCompileTarget p with
  | Some NATIVE => ret []
  | Some CHERI =>
      ret (ldflags_for
             (if negb (baremetal p) then "elf64btsmip_cheri_fbsd" else "elf64btsmip_cheri")
             "purecap" p)
  | Some MIPS =>
      ret (ldflags_for (if negb (baremetal p) then "elf64btsmip_fbsd" else "elf64btsmip")
             "n64" p)
  | None => fatalError "Logic error!" None ;;; ret []
  end.

(** The [CC] and [CXX] properties. *)
Definition CC (h : Host) (p : Project) : Path :=
  if compiling_for_host p
     && (negb (use_sdk_clang_for_native_xbuild (config p)) || IS_MAC h)
  then (if negb (forceDefaultCC p) then clangPath (config p) else "cc")
  else
    let use_prefixed_cc := negb (compiling_for_host p) && negb (baremetal p) in
    let compiler_name := if use_prefixed_cc then targetTriple p +:+ "-clang" else "clang" in
    compiler_dir p // compiler_name.

Definition CXX (h : Host) (p : Project) : Path :=
  if compiling_for_host p && negb (use_sdk_clang_for_native_xbuild (config p))
  then (if negb (forceDefaultCC p) then clangPlusPlusPath (config p) else "c++")
  else
    let use_prefixed_cxx := negb (compiling_for_host p) && negb (baremetal p) in
    let compiler_name :=
      if use_prefixed_cxx then targetTriple p +:+ "-clang++" else "clang++" in
    compiler_dir p // compiler_name.

Definition pkgconfig_dirs (p : Project) : option string :=
  if compiling_for_mips p then
    Some ((sdkSysroot p // "usr/lib/pkgconfig") +:+ ":"
          +:+ (sdkSysroot p // "usr/local/lib/pkgconfig"))
  else if compiling_for_cheri p then
    Some ((sdkSysroot p // "usr/libcheri/pkgconfig") +:+ ":"
          +:+ (sdkSysroot p // "usr/local/libcheri/pkgconfig"))
  else None.

(** [CrossCompileMixin.configure]: the environment it prepares is not handed
    to [setEnv], which is entered without variables; the next [configure] in
    method-resolution order, [base_configure], then runs. *)
Definition CrossCompileMixin_configure (base_configure : M Project unit) : M Project unit :=
  p <- get ;;
  let env : list (string * option string) :=
    if negb (compiling_for_host p)
    then [("PKG_CONFIG_LIBDIR", pkgconfig_dirs p);
          ("PKG_CONFIG_SYSROOT_DIR", Some (sdkSysrootDir (config p)))]
    else [] in
  base_configure.

(** *** CMake projects *)

(** Modelled from the spec: [add_cmake_options], [writeFile], [createSymlink],
    [makedirs] and [warningMessage] of the project base classes and utils,
    which are not part of the sources read here: an option is appended to
    the CMake options, the file-system helpers are recorded as events. *)
Definition add_cmake_options (name value : string) : M Project unit :=
  modify (set_cmake_options (fun l => l ++ [(name, value)])).
Definition writeFile (contents : string) (file : Path) : M Project unit :=
  modify (emit (EWriteFile file contents)).
Definition createSymlink (src dest : Path) : M Project unit :=
  modify (emit (ECreateSymlink src dest)).
Definition makedirs (dir : Path) : M Project unit := modify (emit (EMakedirs dir)).

(** [CrossCompileCMakeProject.__init__], after [super().__init__] has run.
    ([set_minimum_cmake_version(3, 6)] records a requirement no hook here reads.) *)
Definition CrossCompileCMakeProject_init (h : Host) : M Project unit :=
  p <- get ;;
  (if decide (crossCompileTarget p = Some NATIVE) then
     modify (set_cmake (includeLocalFile h "files/NativeToolchain.cmake.in")
                       (buildDir p // "NativeToolchain.cmake"))
   else
     modify (set_cmake (includeLocalFile h "files/CheriBSDToolchain.cmake.in")
                       (buildDir p // "CheriBSDToolchain.cmake"))) ;;;
  p <- get ;;
  add_cmake_options "CMAKE_TOOLCHAIN_FILE" (toolchainFile p).

(** A keyword argument of [_prepareToolchainFile]: a list or anything
    [str()] applies to. *)
Inductive TplValue : Type := VStr (s : string) | VList (l : list string).

Definition strval (v : TplValue) : string :=
  match v with
  | VList l => Py.join " " l
  | VStr s => s
  end.

Definition placeholder (key : string) : string := "@" +:+ key +:+ "@".

(** The loop of [_prepareToolchainFile]: [inl key] when the assertion on
    [key] fails. *)
Fixpoint substitute (kwargs : list (string * option TplValue)) (configuredTemplate : string)
    : string + string :=
  match kwargs with
  | [] => inr configuredTemplate
  | (key, None) :: rest => substitute rest configuredTemplate
  | (key, Some value) :: rest =>
      if Py.contains (placeholder key) configuredTemplate
      then substitute rest (Py.replace (placeholder key) (strval value) configuredTemplate)
      else inl key
  end.

Definition _prepareToolchainFile (kwargs : list (string * option TplValue))
    : M Project unit :=
  p <- get ;;
  match substitute kwargs (_cmakeTemplate p) with
  | inl key => raise (AssertionError key)
  | inr configuredTemplate =>
      assert (negb (Py.contains "@" configuredTemplate)) configuredTemplate ;;;
      writeFile configuredTemplate (toolchainFile p)
  end.

Definition cheri_lib_suffix : string :=
  "
# cheri libraries are found in /usr/libcheri:
if(" +:+ Py.dquote +:+ "${CMAKE_VERSION}" +:+ Py.dquote +:+ " VERSION_LESS 3.9)
  # message(STATUS " +:+ Py.dquote +:+ "CMAKE < 3.9 HACK to find libcheri libraries"
  +:+ Py.dquote +:+ ")
  # need to create a <sysroot>/usr/lib/cheri -> <sysroot>/usr/libcheri symlink 
  set(CMAKE_LIBRARY_ARCHITECTURE " +:+ Py.dquote +:+ "cheri" +:+ Py.dquote +:+ ")
  set(CMAKE_SYSTEM_LIBRARY_PATH " +:+ Py.dquote
  +:+ "${CMAKE_FIND_ROOT_PATH}/usr/libcheri;${CMAKE_FIND_ROOT_PATH}/usr/local/libcheri"
  +:+ Py.dquote +:+ ")
else()
    set(CMAKE_FIND_LIBRARY_CUSTOM_LIB_SUFFIX " +:+ Py.dquote +:+ "cheri" +:+ Py.dquote +:+ ")
endif()
set(LIB_SUFFIX " +:+ Py.dquote +:+ "cheri" +:+ Py.dquote +:+ " CACHE INTERNAL "
  +:+ Py.dquote +:+ Py.dquote +:+ ")
".

(** The keyword arguments of the call of [_prepareToolchainFile] in
    [configure], in the order they are written. *)
Definition toolchain_kwargs (h : Host) (p : Project) (common_flags ldflags : list string)
    : list (string * option TplValue) :=
  let add_lib_suffix :=
    if compiling_for_cheri p then Some (VStr cheri_lib_suffix)
    else if compiling_for_mips p then Some (VStr "# no lib suffix for mips libraries")
    else None in
  let processor :=
    if compiling_for_cheri p then Some (VStr "CHERI (MIPS IV compatible)")
    else if compiling_for_mips p then Some (VStr "BERI (MIPS IV compatible)")
    else None in
  let system_name :=
    if compiling_for_host p then None
    else Some (VStr (if baremetal p then "Generic" else "FreeBSD")) in
  [("TOOLCHAIN_SDK_BINDIR", Some (VStr (sdkBinDir (config p))));
   ("TOOLCHAIN_COMPILER_BINDIR", Some (VStr (compiler_dir p)));
   ("TOOLCHAIN_TARGET_TRIPLE", Some (VStr (targetTriple p)));
   ("TOOLCHAIN_COMMON_FLAGS", Some (VList common_flags));
   ("TOOLCHAIN_C_FLAGS", Some (VList (CFLAGS p)));
   ("TOOLCHAIN_LINKER_FLAGS", Some (VList (LDFLAGS p ++ ldflags)));
   ("TOOLCHAIN_CXX_FLAGS", Some (VList (CXXFLAGS p)));
   ("TOOLCHAIN_ASM_FLAGS", Some (VList (ASMFLAGS p)));
   ("TOOLCHAIN_C_COMPILER", Some (VStr (CC h p)));
   ("TOOLCHAIN_CXX_COMPILER", Some (VStr (CXX h p)));
   ("TOOLCHAIN_SYSROOT",
      if negb (compiling_for_host p) then Some (VStr (sdkSysroot p)) else None);
   ("ADD_TOOLCHAIN_LIB_SUFFIX", add_lib_suffix);
   ("TOOLCHAIN_SYSTEM_PROCESSOR", processor);
   ("TOOLCHAIN_SYSTEM_NAME", system_name);
   ("TOOLCHAIN_PKGCONFIG_DIRS", VStr <$> pkgconfig_dirs p)].

(** The first branch of [configure]: the common flags, and for a cross build
    the [-B] flag and the CMake < 3.9 workaround. *)
Definition cmake_common_flags (h : Host) : M Project (list string) :=
  p <- get ;;
  if compiling_for_host p then ret (COMMON_FLAGS p)
  else
    modify (set_COMMON_FLAGS (fun l => l ++ ["-B" +:+ sdkBinDir (config p)])) ;;;
    when (negb (baremetal p)
          && Py.version_lt (cmake_version h) (3, 9, 0)%nat
          && negb (path_exists h (sdkSysroot p // "usr/local/lib/cheri")))
      (warning "Workaround for missing custom lib suffix in CMake < 3.9" ;;;
       createSymlink "../libcheri" (sdkSysroot p // "usr/lib/cheri") ;;;
       makedirs (sdkSysroot p // "usr/local/lib") ;;;
       makedirs (sdkSysroot p // "usr/local/libcheri") ;;;
       createSymlink "../libcheri" (sdkSysroot p // "usr/local/lib/cheri")) ;;;
    p <- get ;;
    ret (COMMON_FLAGS p ++ warningFlags p ++ ["-target"; targetTripleWithVersion p]).

(** [CrossCompileCMakeProject.configure]; [base_configure] is
    [CMakeProject.configure]. *)
Definition CrossCompileCMakeProject_configure (h : Host) (base_configure : M Project unit)
    : M Project unit :=
  common_flags <- cmake_common_flags h ;;
  ldflags <- default_ldflags ;;
  p <- get ;;
  _prepareToolchainFile (toolchain_kwargs h p common_flags ldflags) ;;;
  when (bool_decide (generator p = Ninja))
    (add_cmake_options "CMAKE_BUILD_WITH_INSTALL_RPATH" "True") ;;;
  when (baremetal p && negb (compiling_for_host p))
    (add_cmake_options "CMAKE_EXE_LINKER_FLAGS" "-Wl,-T,qemu-malta.ld") ;;;
  CrossCompileMixin_configure base_configure.

(** *** Autotools projects *)

(** The [default_compiler_flags] property. *)
Definition default_compiler_flags (p : Project) : list string :=
  if compiling_for_host p then COMMON_FLAGS p
  else
    let result := ["-target"; targetTripleWithVersion p] ++ COMMON_FLAGS p
                  ++ optimizationFlags p in
    let result := if negb (baremetal p)
                  then result ++ ["--sysroot=" +:+ sdkSysroot p] else result in
    result ++ ["-B" +:+ sdkBinDir (config p)] ++ warningFlags p.

Definition add_configure_env_arg (arg value : string) : M Project unit :=
  if negb (Py.truthy value) then ret tt
  else
    modify (set_configureEnvironment <[arg := value]>) ;;;
    p <- get ;;
    when (_configure_supports_variables_on_cmdline p)
      (modify (set_configureArgs (fun l => l ++ [arg +:+ "=" +:+ value]))).

Definition set_prog_with_args (prog : string) (path : Path) (args : list string)
    : M Project unit :=
  let fullpath := path in
  let fullpath := match args with
                  | [] => fullpath
                  | _ => fullpath +:+ " " +:+ Py.join " " args
                  end in
  modify (set_configureEnvironment <[prog := fullpath]>) ;;;
  p <- get ;;
  when (_configure_supports_variables_on_cmdline p)
    (modify (set_configureArgs (fun l => l ++ [prog +:+ "=" +:+ fullpath]))).

(** [for key in (...): assert key not in self.configureEnvironment]. *)
Fixpoint assert_unset (keys : list string) : M Project unit :=
  match keys with
  | [] => ret tt
  | key :: rest =>
      p <- get ;;
      assert (bool_decide (configureEnvironment p !! key = None)) key ;;;
      assert_unset rest
  end.

(** [CrossCompileAutotoolsProject.configure]; [base_configure] is
    [AutotoolsProject.configure]. *)
Definition CrossCompileAutotoolsProject_configure (h : Host)
    (base_configure : M Project unit) : M Project unit :=
  p <- get ;;
  when (compiling_for_cheri p && _configure_supports_libdir p)
    (modify (set_configureArgs
               (fun l => l ++ ["--libdir=" +:+ installPrefix p +:+ "/libcheri"]))) ;;;
  when (negb (baremetal p))
    (p <- get ;;
     let CPPFLAGS := default_compiler_flags p in
     assert_unset ["CFLAGS"; "CXXFLAGS"; "CPPFLAGS"; "LDFLAGS"] ;;;
     set_prog_with_args "CC" (CC h p) (CPPFLAGS ++ CFLAGS p) ;;;
     set_prog_with_args "CXX" (CXX h p) (CPPFLAGS ++ CXXFLAGS p) ;;;
     ldflags <- default_ldflags ;;
     add_configure_env_arg "LDFLAGS" (Py.join " " (LDFLAGS p ++ ldflags)) ;;;
     when (negb (compiling_for_host p))
       (set_prog_with_args "CPP" (compiler_dir p // (targetTriple p +:+ "-clang-cpp"))
          CPPFLAGS ;;;
        when (Py.contains "lld" (linker p) && path_exists h (compiler_dir p // "ld.lld"))
          (add_configure_env_arg "LD" (compiler_dir p // "ld.lld")))) ;;;
  modify (set_configureEnvironment (filter (fun kv => Py.truthy kv.2 = true))) ;;;
  print "Cross configure environment:" ;;;
  CrossCompileMixin_configure base_configure.

(** [CrossCompileAutotoolsProject.__init__], after [super().__init__] has
    run; [buildhost] is what [self.get_host_triple()] returns and
    [add_host_target_build_config_options] the class attribute. *)
Definition CrossCompileAutotoolsProject_init (buildhost : string)
    (add_host_target_build_config_options : bool) : M Project unit :=
  p <- get ;;
  when (negb (compiling_for_host p) && add_host_target_build_config_options)
    (modify (set_configureArgs
               (fun l => l ++ ["--host=" +:+ targetTriple p; "--target=" +:+ targetTriple p;
                               "--build=" +:+ buildhost]))).

End CrossCompile.

(** ** [CrossCompileMixin.__init__] *)
Module CrossCompileInit.
Import CrossCompile.

(** The attributes of the instance that [__init__] reads or assigns.  [None]
    is an attribute that holds Python's [None]. *)
Record Self : Type := {
  config : CheriConfig;
  projectName : string;
  buildDir : Path;
  (* class attributes *)
  crossInstallDir : CrossInstallDir;
  baremetal : bool;
  (* attributes that hold the value of an option *)
  crossCompileTarget : option CrossCompileTarget;
  installDir : option Path;
  useMxgot : bool;
  linker : string;
  debugInfo : bool;
  optimizationFlags : list string;
  newCapRelocs : bool;
  (* attributes [__init__] assigns *)
  compiler_dir : option Path;
  targetTriple : option string;
  sdkSysroot : option Path;
  installPrefix : option Path;
  destdir : option Path;
  COMMON_FLAGS : list string;
  CFLAGS : list string;
  CXXFLAGS : list string;
  ASMFLAGS : list string;
  LDFLAGS : list string;
}.

Definition set_crossCompileTarget (value : option CrossCompileTarget) (self : Self) : Self :=
  {| config := config self; projectName := projectName self; buildDir := buildDir self;
     crossInstallDir := crossInstallDir self; baremetal := baremetal self;
     crossCompileTarget := value; installDir := installDir self; useMxgot := useMxgot self;
     linker := linker self; debugInfo := debugInfo self;
     optimizationFlags := optimizationFlags self; newCapRelocs := newCapRelocs self;
     compiler_dir := compiler_dir self; targetTriple := targetTriple self;
     sdkSysroot := sdkSysroot self; installPrefix := installPrefix self;
     destdir := destdir self; COMMON_FLAGS := COMMON_FLAGS self; CFLAGS := CFLAGS self;
     CXXFLAGS := CXXFLAGS self; ASMFLAGS := ASMFLAGS self; LDFLAGS := LDFLAGS self |}.

Definition set_installDir (value : option Path) (self : Self) : Self :=
  {| config := config self; projectName := projectName self; buildDir := buildDir self;
     crossInstallDir := crossInstallDir self; baremetal := baremetal self;
     crossCompileTarget := crossCompileTarget self; installDir := value;
     useMxgot := useMxgot self; linker := linker self; debugInfo := debugInfo self;
     optimizationFlags := optimizationFlags self; newCapRelocs := newCapRelocs self;
     compiler_dir := compiler_dir self; targetTriple := targetTriple self;
     sdkSysroot := sdkSysroot self; installPrefix := installPrefix self;
     destdir := destdir self; COMMON_FLAGS := COMMON_FLAGS self; CFLAGS := CFLAGS self;
     CXXFLAGS := CXXFLAGS self; ASMFLAGS := ASMFLAGS self; LDFLAGS := LDFLAGS self |}.

Definition set_compiler_dir (value : option Path) (self : Self) : Self :=
  {| config := config self; projectName := projectName self; buildDir := buildDir self;
     crossInstallDir := crossInstallDir self; baremetal := baremetal self;
     crossCompileTarget := crossCompileTarget self; installDir := installDir self;
     useMxgot := useMxgot self; linker := linker self; debugInfo := debugInfo self;
     optimizationFlags := optimizationFlags self; newCapRelocs := newCapRelocs self;
     compiler_dir := value; targetTriple := targetTriple self; sdkSysroot := sdkSysroot self;
     installPrefix := installPrefix self; destdir := destdir self;
     COMMON_FLAGS := COMMON_FLAGS self; CFLAGS := CFLAGS self; CXXFLAGS := CXXFLAGS self;
     ASMFLAGS := ASMFLAGS self; LDFLAGS := LDFLAGS self |}.

Definition set_targetTriple (value : option string) (self : Self) : Self :=
  {| config := config self; projectName := projectName self; buildDir := buildDir self;
     crossInstallDir := crossInstallDir self; baremetal := baremetal self;
     crossCompileTarget := crossCompileTarget self; installDir := installDir self;
     useMxgot := useMxgot self; linker := linker self; debugInfo := debugInfo self;
     optimizationFlags := optimizationFlags self; newCapRelocs := newCapRelocs self;
     compiler_dir := compiler_dir self; targetTriple := value; sdkSysroot := sdkSysroot self;
     installPrefix := installPrefix self; destdir := destdir self;
     COMMON_FLAGS := COMMON_FLAGS self; CFLAGS := CFLAGS self; CXXFLAGS := CXXFLAGS self;
     ASMFLAGS := ASMFLAGS self; LDFLAGS := LDFLAGS self |}.

Definition set_sdkSysroot (value : option Path) (self : Self) : Self :=
  {| config := config self; projectName := projectName self; buildDir := buildDir self;
     crossInstallDir := crossInstallDir self; baremetal := baremetal self;
     crossCompileTarget := crossCompileTarget self; installDir := installDir self;
     useMxgot := useMxgot self; linker := linker self; debugInfo := debugInfo self;
     optimizationFlags := optimizationFlags self; newCapRelocs := newCapRelocs self;
     compiler_dir := compiler_dir self; targetTriple := targetTriple self; sdkSysroot := value;
     installPrefix := installPrefix self; destdir := destdir self;
     COMMON_FLAGS := COMMON_FLAGS self; CFLAGS := CFLAGS self; CXXFLAGS := CXXFLAGS self;
     ASMFLAGS := ASMFLAGS self; LDFLAGS := LDFLAGS self |}.

Definition set_installPrefix (value : option Path) (self : Self) : Self :=
  {| config := config self; projectName := projectName self; buildDir := buildDir self;
     crossInstallDir := crossInstallDir self; baremetal := baremetal self;
     crossCompileTarget := crossCompileTarget self; installDir := installDir self;
     useMxgot := useMxgot self; linker := linker self; debugInfo := debugInfo self;
     optimizationFlags := optimizationFlags self; newCapRelocs := newCapRelocs self;
     compiler_dir := compiler_dir self; targetTriple := targetTriple self;
     sdkSysroot := sdkSysroot self; installPrefix := value; destdir := destdir self;
     COMMON_FLAGS := COMMON_FLAGS self; CFLAGS := CFLAGS self; CXXFLAGS := CXXFLAGS self;
     ASMFLAGS := ASMFLAGS self; LDFLAGS := LDFLAGS self |}.

Definition set_destdir (value : option Path) (self : Self) : Self :=
  {| config := config self; projectName := projectName self; buildDir := buildDir self;
     crossInstallDir := crossInstallDir self; baremetal := baremetal self;
     crossCompileTarget := crossCompileTarget self; installDir := installDir self;
     useMxgot := useMxgot self; linker := linker self; debugInfo := debugInfo self;
     optimizationFlags := optimizationFlags self; newCapRelocs := newCapRelocs self;
     compiler_dir := compiler_dir self; targetTriple := targetTriple self;
     sdkSysroot := sdkSysroot self; installPrefix := installPrefix self; destdir := value;
     COMMON_FLAGS := COMMON_FLAGS self; CFLAGS := CFLAGS self; CXXFLAGS := CXXFLAGS self;
     ASMFLAGS := ASMFLAGS self; LDFLAGS := LDFLAGS self |}.

Definition set_COMMON_FLAGS (f : list string -> list string) (self : Self) : Self :=
  {| config := config self; projectName := projectName self; buildDir := buildDir self;
     crossInstallDir := crossInstallDir self; baremetal := baremetal self;
     crossCompileTarget := crossCompileTarget self; installDir := installDir self;
     useMxgot := useMxgot self; linker := linker self; debugInfo := debugInfo self;
     optimizationFlags := optimizationFlags self; newCapRelocs := newCapRelocs self;
     compiler_dir := compiler_dir self; targetTriple := targetTriple self;
     sdkSysroot := sdkSysroot self; installPrefix := installPrefix self;
     destdir := destdir self; COMMON_FLAGS := f (COMMON_FLAGS self); CFLAGS := CFLAGS self;
     CXXFLAGS := CXXFLAGS self; ASMFLAGS := ASMFLAGS self; LDFLAGS := LDFLAGS self |}.

(** [self.CFLAGS = []] and the same for [CXXFLAGS], [ASMFLAGS] and [LDFLAGS]. *)
Definition reset_language_flags (self : Self) : Self :=
  {| config := config self; projectName := projectName self; buildDir := buildDir self;
     crossInstallDir := crossInstallDir self; baremetal := baremetal self;
     crossCompileTarget := crossCompileTarget self; installDir := installDir self;
     useMxgot := useMxgot self; linker := linker self; debugInfo := debugInfo self;
     optimizationFlags := optimizationFlags self; newCapRelocs := newCapRelocs self;
     compiler_dir := compiler_dir self; targetTriple := targetTriple self;
     sdkSysroot := sdkSysroot self; installPrefix := installPrefix self;
     destdir := destdir self; COMMON_FLAGS := COMMON_FLAGS self; CFLAGS := []; CXXFLAGS := [];
     ASMFLAGS := []; LDFLAGS := [] |}.

(** What [__init__] asks of the build host: whether a file exists,
    [BuildLLVM.buildDir], and the default target of a compiler
    ([getCompilerInfo(path).default_target]). *)
Record Env : Type := {
  file_exists : Path -> bool;
  BuildLLVM_buildDir : Path;
  compiler_default_target : Path -> string;
}.

(** [get_host_triple].  [self.config.clangPath] is a path here, and a path
    counts as true: [shutil.which("cc")] is not consulted. *)
Definition get_host_triple (e : Env) (self : Self) : string :=
  compiler_default_target e (clangPath (config self)).

Fixpoint drop_chars (n : nat) (s : string) : string :=
  match n, s with
  | O, _ => s
  | S k, String _ rest => drop_chars k rest
  | S _, EmptyString => EmptyString
  end.

(** [p.relative_to(base)] on paths in normal form, the empty path standing
    for ["."]; [None] is the [ValueError] of a path that is not below
    [base]. *)
Definition relative_to (p base : Path) : option Path :=
  if String.eqb p base then Some ""
  else if String.eqb base "" then (if String.prefix "/" p then None else Some p)
  else if Py.ends_with_slash base then
    (if String.prefix base p then Some (drop_chars (String.length base) p) else None)
  else if String.prefix (base +:+ "/") p then
    Some (drop_chars (String.length base + 1) p)
  else None.

Definition append_flags (flags : list string) : M Self unit :=
  modify (set_COMMON_FLAGS (fun l => l ++ flags)).

(** The branch of [__init__] for a native build. *)
Definition native_init (e : Env) : M Self unit :=
  modify (set_COMMON_FLAGS (fun _ => [])) ;;;
  self <- get ;;
  modify (set_targetTriple (Some (get_host_triple e self))) ;;;
  if decide (crossInstallDir self = SDK) then
    modify (set_installDir (Some (sdkDir (config self))))
  else if decide (crossInstallDir self = CHERIBSD_ROOTFS) then
    modify (set_installDir (Some (buildDir self // "test-install-prefix")))
  else
    assert (bool_decide (is_Some (installDir self))) "must be set".

(** The branch for a cross build, first part: the common flags and the
    target triple, which is returned as well as assigned. *)
Definition cross_flags : M Self string :=
  self <- get ;;
  modify (set_COMMON_FLAGS (fun _ => ["-integrated-as"; "-pipe"; "-G0"])) ;;;
  when (negb (baremetal self)) (append_flags ["-msoft-float"]) ;;;
  append_flags ["-ftls-model=initial-exec"] ;;;
  triple <-
    (if decide (crossCompileTarget self = Some CHERI) then
       let triple :=
         if negb (baremetal self) then "cheri-unknown-freebsd" else "cheri-qemu-elf" in
       modify (set_targetTriple (Some triple)) ;;;
       append_flags ["-mabi=purecap"; "-mcpu=mips4"; "-cheri=" +:+ cheriBitsStr (config self)] ;;;
       ret triple
     else
       assert (bool_decide (crossCompileTarget self = Some MIPS))
              "self.crossCompileTarget == CrossCompileTarget.MIPS" ;;;
       let triple :=
         if negb (baremetal self) then "mips64-unknown-freebsd" else "mips64-qemu-elf" in
       modify (set_targetTriple (Some triple)) ;;;
       append_flags ["-integrated-as"] ;;;
       append_flags ["-mabi=n64"] ;;;
       append_flags ["-mcpu=mips4"] ;;;
       append_flags ["-Wno-unused-command-line-argument"] ;;;
       (if negb (baremetal self) then append_flags ["-stdlib=libc++"]
        else
          append_flags ["-fno-pic"] ;;;
          when (negb (String.eqb (projectName self) "newlib-baremetal"))
            (assert (baremetal self) "self.baremetal" ;;;
             append_flags ["-D_GNU_SOURCE=1"] ;;;
             append_flags ["-D_POSIX_MONOTONIC_CLOCK=1"] ;;;
             append_flags ["-D_POSIX_TIMERS=1"])) ;;;
       ret triple) ;;
  when (useMxgot self) (append_flags ["-mxgot"]) ;;;
  ret triple.

(** The branch for a cross build, second part: the sysroot and where the
    project is installed.  A path counts as true in the last assertion. *)
Definition cross_install_dirs (triple : string) : M Self unit :=
  self <- get ;;
  modify (set_sdkSysroot (Some (sdkSysrootDir (config self)))) ;;;
  when (baremetal self)
    (modify (set_sdkSysroot (Some (sdkDir (config self) // "baremetal" // triple)))) ;;;
  if decide (crossInstallDir self = SDK) then
    if baremetal self then
      now <- get ;;
      modify (set_installDir (sdkSysroot now))
    else
      modify (set_installPrefix (Some "/usr/local")) ;;;
      modify (set_destdir (Some (sdkSysrootDir (config self))))
  else if decide (crossInstallDir self = CHERIBSD_ROOTFS) then
    match installDir self with
    | None => raise (AttributeError "'NoneType' object has no attribute 'relative_to'")
    | Some dir =>
        match relative_to dir (cheribsd_rootfsDir (config self)) with
        | None => raise (ValueError dir)
        | Some below =>
            modify (set_installPrefix (Some ("/" // below))) ;;;
            modify (set_destdir (Some (cheribsd_rootfsDir (config self))))
        end
    end
  else
    assert (bool_decide (is_Some (installPrefix self))
            && bool_decide (is_Some (destdir self)))
           "both must be set!".

(** [CrossCompileMixin.__init__]; [base_init] is the [__init__] of the next
    class in method-resolution order, [target_arch] the argument of the
    constructor. *)
Definition CrossCompileMixin_init (e : Env) (base_init : M Self unit)
    (target_arch : option CrossCompileTarget) : M Self unit :=
  base_init ;;;
  match target_arch with
  | Some arch => modify (set_crossCompileTarget (Some arch))
  | None => ret tt
  end ;;;
  self <- get ;;
  modify (set_compiler_dir (Some (sdkBinDir (config self)))) ;;;
  when (bool_decide (crossCompileTarget self = Some NATIVE))
    (when (file_exists e (BuildLLVM_buildDir e // "bin/clang"))
       (modify (set_compiler_dir (Some (BuildLLVM_buildDir e // "bin"))))) ;;;
  modify (set_targetTriple None) ;;;
  (if decide (crossCompileTarget self = Some NATIVE) then native_init e
   else
     triple <- cross_flags ;;
     cross_install_dirs triple) ;;;
  self <- get ;;
  when (debugInfo self) (append_flags ["-ggdb"]) ;;;
  modify reset_language_flags.

End CrossCompileInit.

(** ** pycheribuild/projects/cross/wayland.py *)
Module Wayland.
Import CrossCompile.

(** [BuildEPollShim.configure]; [base_configure] is [CMakeProject.configure]. *)
Definition BuildEPollShim_configure (h : Host) (base_configure : M Project unit)
    : M Project unit :=
  p <- get ;;
  when (negb (compiling_for_host p)) (add_cmake_options "BUILD_TESTING" "False") ;;;
  CrossCompileCMakeProject_configure h base_configure.

(** A [BuildExpat] instance: the [configure_args] of its CMake base class
    beside the attributes of a cross-compiled project. *)
Record Expat : Type := {
  configure_args : list string;
  project : Project;
}.

(** A hook of the project, run on the instance. *)
Definition on_project {A} (m : M Project A) : M Expat A :=
  fun self =>
    match m (project self) with
    | Done a p => Done a {| configure_args := configure_args self; project := p |}
    | Exit code p => Exit code {| configure_args := configure_args self; project := p |}
    | Raised exn p => Raised exn {| configure_args := configure_args self; project := p |}
    end.

(** [BuildExpat.configure]: [self.configure_args[0] = ...] raises
    [IndexError] on an empty list. *)
Definition BuildExpat_configure (h : Host) (source_dir : Path)
    (base_configure : M Project unit) : M Expat unit :=
  self <- get ;;
  (if decide (0 < length (configure_args self)) then
     modify (fun self => {| configure_args := <[0 := source_dir // "expat"]> (configure_args self);
                            project := project self |})
   else raise (IndexError "list assignment index out of range")) ;;;
  on_project (CrossCompileCMakeProject_configure h base_configure).

End Wayland.

(** ** pycheribuild/projects/build_qemu.py *)
Module Qemu.

(** Modelled from the spec: [BuildType] of the project module, which is not
    part of the sources read here; the hooks compare it with [DEBUG] and ask
    whether it is a release type. *)
Inductive BuildType : Type := DEFAULT | DEBUG | RELEASE | RELWITHDEBINFO | MINSIZEREL.
#[export] Instance BuildType_eq_dec : EqDecision BuildType.
Proof. solve_decision. Defined.

Inductive OS : Type := Linux | FreeBSD | MacOS | OtherOS.
#[export] Instance OS_eq_dec : EqDecision OS.
Proof. solve_decision. Defined.

(** The resolved option values, as the hooks read them from [self]. *)
Record Opts : Type := {
  use_smbd : bool;
  gui : bool;
  build_profiler : bool;
  qemu_targets : string;
  qemu_targets_is_default : bool;
  prefer_full_lto_over_thin_lto : bool;
  unaligned : bool;
  statistics : bool;
  use_asan : bool;
  use_lto : bool;
  build_type : BuildType;
}.

Definition set_use_lto (b : bool) (o : Opts) : Opts :=
  {| use_smbd := use_smbd o; gui := gui o; build_profiler := build_profiler o;
     qemu_targets := qemu_targets o; qemu_targets_is_default := qemu_targets_is_default o;
     prefer_full_lto_over_thin_lto := prefer_full_lto_over_thin_lto o;
     unaligned := unaligned o; statistics := statistics o; use_asan := use_asan o;
     use_lto := b; build_type := build_type o |}.

Definition set_qemu_targets (t : string) (o : Opts) : Opts :=
  {| use_smbd := use_smbd o; gui := gui o; build_profiler := build_profiler o;
     qemu_targets := t; qemu_targets_is_default := qemu_targets_is_default o;
     prefer_full_lto_over_thin_lto := prefer_full_lto_over_thin_lto o;
     unaligned := unaligned o; statistics := statistics o; use_asan := use_asan o;
     use_lto := use_lto o; build_type := build_type o |}.

(** A tracked file of the source checkout: its contents at [HEAD] and in
    the working copy.  The file has local modifications when they differ. *)
Record Tracked : Type := { at_head : string; in_worktree : string }.

Definition locally_modified (f : Tracked) : bool :=
  negb (String.eqb (at_head f) (in_worktree f)).

(** The instance attributes the hooks assign, the working copy under
    [source_dir] (keyed by the path relative to it) and the console. *)
Record State : Type := {
  opts : Opts;
  COMMON_FLAGS : list string;
  CFLAGS : list string;
  CXXFLAGS : list string;
  LDFLAGS : list string;
  common_warning_flags : list string;
  configure_args : list string;
  make_args : list (string * string);
  required_system_tools : list string;
  required_pkg_config : list string;
  worktree : gmap string Tracked;
  log : list Event;
  pretending : bool;
}.

Definition set_opts (f : Opts -> Opts) (s : State) : State :=
  {| opts := f (opts s); COMMON_FLAGS := COMMON_FLAGS s; CFLAGS := CFLAGS s;
     CXXFLAGS := CXXFLAGS s; LDFLAGS := LDFLAGS s;
     common_warning_flags := common_warning_flags s; configure_args := configure_args s;
     make_args := make_args s; required_system_tools := required_system_tools s;
     required_pkg_config := required_pkg_config s; worktree := worktree s;
     log := log s; pretending := pretending s |}.

Definition set_COMMON_FLAGS (f : list string -> list string) (s : State) : State :=
  {| opts := opts s; COMMON_FLAGS := f (COMMON_FLAGS s); CFLAGS := CFLAGS s;
     CXXFLAGS := CXXFLAGS s; LDFLAGS := LDFLAGS s;
     common_warning_flags := common_warning_flags s; configure_args := configure_args s;
     make_args := make_args s; required_system_tools := required_system_tools s;
     required_pkg_config := required_pkg_config s; worktree := worktree s;
     log := log s; pretending := pretending s |}.

Definition set_CFLAGS (f : list string -> list string) (s : State) : State :=
  {| opts := opts s; COMMON_FLAGS := COMMON_FLAGS s; CFLAGS := f (CFLAGS s);
     CXXFLAGS := CXXFLAGS s; LDFLAGS := LDFLAGS s;
     common_warning_flags := common_warning_flags s; configure_args := configure_args s;
     make_args := make_args s; required_system_tools := required_system_tools s;
     required_pkg_config := required_pkg_config s; worktree := worktree s;
     log := log s; pretending := pretending s |}.

Definition set_common_warning_flags (f : list string -> list string) (s : State) : State :=
  {| opts := opts s; COMMON_FLAGS := COMMON_FLAGS s; CFLAGS := CFLAGS s;
     CXXFLAGS := CXXFLAGS s; LDFLAGS := LDFLAGS s;
     common_warning_flags := f (common_warning_flags s); configure_args := configure_args s;
     make_args := make_args s; required_system_tools := required_system_tools s;
     required_pkg_config := required_pkg_config s; worktree := worktree s;
     log := log s; pretending := pretending s |}.

Definition set_configure_args (f : list string -> list string) (s : State) : State :=
  {| opts := opts s; COMMON_FLAGS := COMMON_FLAGS s; CFLAGS := CFLAGS s;
     CXXFLAGS := CXXFLAGS s; LDFLAGS := LDFLAGS s;
     common_warning_flags := common_warning_flags s; configure_args := f (configure_args s);
     make_args := make_args s; required_system_tools := required_system_tools s;
     required_pkg_config := required_pkg_config s; worktree := worktree s;
     log := log s; pretending := pretending s |}.

Definition set_make_args (f : list (string * string) -> list (string * string))
    (s : State) : State :=
  {| opts := opts s; COMMON_FLAGS := COMMON_FLAGS s; CFLAGS := CFLAGS s;
     CXXFLAGS := CXXFLAGS s; LDFLAGS := LDFLAGS s;
     common_warning_flags := common_warning_flags s; configure_args := configure_args s;
     make_args := f (make_args s); required_system_tools := required_system_tools s;
     required_pkg_config := required_pkg_config s; worktree := worktree s;
     log := log s; pretending := pretending s |}.

Definition set_required_system_tools (f : list string -> list string) (s : State) : State :=
  {| opts := opts s; COMMON_FLAGS := COMMON_FLAGS s; CFLAGS := CFLAGS s;
     CXXFLAGS := CXXFLAGS s; LDFLAGS := LDFLAGS s;
     common_warning_flags := common_warning_flags s; configure_args := configure_args s;
     make_args := make_args s; required_system_tools := f (required_system_tools s);
     required_pkg_config := required_pkg_config s; worktree := worktree s;
     log := log s; pretending := pretending s |}.

Definition set_required_pkg_config (f : list string -> list string) (s : State) : State :=
  {| opts := opts s; COMMON_FLAGS := COMMON_FLAGS s; CFLAGS := CFLAGS s;
     CXXFLAGS := CXXFLAGS s; LDFLAGS := LDFLAGS s;
     common_warning_flags := common_warning_flags s; configure_args := configure_args s;
     make_args := make_args s; required_system_tools := required_system_tools s;
     required_pkg_config := f (required_pkg_config s); worktree := worktree s;
     log := log s; pretending := pretending s |}.

Definition set_worktree (f : gmap string Tracked -> gmap string Tracked) (s : State)
    : State :=
  {| opts := opts s; COMMON_FLAGS := COMMON_FLAGS s; CFLAGS := CFLAGS s;
     CXXFLAGS := CXXFLAGS s; LDFLAGS := LDFLAGS s;
     common_warning_flags := common_warning_flags s; configure_args := configure_args s;
     make_args := make_args s; required_system_tools := required_system_tools s;
     required_pkg_config := required_pkg_config s; worktree := f (worktree s);
     log := log s; pretending := pretending s |}.

Definition set_log (f : list Event -> list Event) (s : State) : State :=
  {| opts := opts s; COMMON_FLAGS := COMMON_FLAGS s; CFLAGS := CFLAGS s;
     CXXFLAGS := CXXFLAGS s; LDFLAGS := LDFLAGS s;
     common_warning_flags := common_warning_flags s; configure_args := configure_args s;
     make_args := make_args s; required_system_tools := required_system_tools s;
     required_pkg_config := required_pkg_config s; worktree := worktree s;
     log := f (log s); pretending := pretending s |}.

#[export] Instance State_console : Console State := {
  console := log;
  emit e := set_log (fun l => l ++ [e]);
  pretend := pretending;
}.

(** What the hooks read and never assign: the configuration, the host (with
    [cmd_status argv cwd], the exit status a command ends with when nothing in
    the working copy makes it fail), and the properties the base classes
    compute. *)
Record Env : Type := {
  target : string;
  os : OS;
  verbose : bool;
  create_compilation_db : bool;
  skip_update : bool;
  other_tools_dir : Path;
  source_dir : Path;
  sys_executable : string;
  path_exists : Path -> bool;
  is_dir : Path -> bool;
  cmd_status : list string -> Path -> nat;
  homebrew_samba_prefix : option Path;
  CC : Path;
  CXX : Path;
  compiler_info : Path -> string * (nat * nat * nat);
  make_command : string;
  commandline_to_str : list string -> string;
  default_compiler_flags : State -> list string;
  default_ldflags : State -> list string;
}.

(** *** Helpers of the base classes *)

(** Modelled from the spec: [add_required_system_tool],
    [add_required_pkg_config] and [make_args.set] of the project base class,
    which is not part of the sources read here: they record the requirement
    and the make variable. *)
Definition add_required_system_tool (name : string) : M State unit :=
  modify (set_required_system_tools (fun l => l ++ [name])).
Definition add_required_pkg_config (name : string) : M State unit :=
  modify (set_required_pkg_config (fun l => l ++ [name])).
Definition make_args_set (var value : string) : M State unit :=
  modify (set_make_args (fun l => l ++ [(var, value)])).

(** A tracked file put back to its contents at [HEAD]. *)
Definition at_HEAD (f : Tracked) : Tracked :=
  {| at_head := at_head f; in_worktree := at_head f |}.

Definition checkout_head (dir : string) (w : gmap string Tracked) : gmap string Tracked :=
  map_imap (fun path f => Some (if String.prefix dir path then at_HEAD f else f)) w.

(** Whether some tracked file lies under [dir]. *)
Definition tracks_under (dir : string) (w : gmap string Tracked) : bool :=
  existsb (fun entry : string * Tracked => String.prefix dir entry.1) (map_to_list w).

(** The exit status of a command.  [git checkout HEAD dir] ends with status 1
    when no tracked file lies under [dir]: the path matches nothing git
    knows. *)
Definition exit_status (e : Env) (argv : list string) (cwd : Path)
    (w : gmap string Tracked) : nat :=
  match argv with
  | ["git"; "checkout"; "HEAD"; dir] =>
      if tracks_under dir w then cmd_status e argv cwd else 1
  | _ => cmd_status e argv cwd
  end.

Definition command_failed_message (argv : list string) : string :=
  "Command " +:+ Py.join " " argv +:+ " failed with non-zero exit status".

(** Modelled from the spec: [run_cmd] of the project base class, which is not
    part of the sources read here.  The command is reported and run; a
    non-zero exit status is always a fatal error for the current phase
    (spec, section 6): it is reported and the hook ends there.  A
    [git checkout HEAD dir] that succeeds puts every tracked file under
    [dir] back to its contents at [HEAD]. *)
Definition run_cmd (e : Env) (argv : list string) (cwd : Path) : M State unit :=
  modify (emit (ERunCmd argv cwd)) ;;;
  s <- get ;;
  if (exit_status e argv cwd (worktree s) =? 0)%nat then
    match argv with
    | ["git"; "checkout"; "HEAD"; dir] => modify (set_worktree (checkout_head dir))
    | _ => ret tt
    end
  else
    fun s => Exit 3 (emit (EFatal (command_failed_message argv) None) s).

Definition append_configure_args (args : list string) : M State unit :=
  modify (set_configure_args (fun l => l ++ args)).
Definition append_COMMON_FLAGS (flags : list string) : M State unit :=
  modify (set_COMMON_FLAGS (fun l => l ++ flags)).

(** *** BuildQEMUBase *)

(** [BuildQEMUBase.__init__]; [base_init] is [AutotoolsProject.__init__]. *)
Definition BuildQEMUBase_init (e : Env) (base_init : M State unit) : M State unit :=
  base_init ;;;
  add_required_system_tool
    (if decide (os e = MacOS) then "glibtoolize" else "libtoolize") ;;;
  add_required_system_tool "autoreconf" ;;;
  add_required_system_tool "aclocal" ;;;
  add_required_pkg_config "pixman-1" ;;;
  add_required_pkg_config "glib-2.0" ;;;
  add_required_system_tool (if decide (os e = Linux) then "sed" else "gsed") ;;;
  (self <- get ;;
   when (bool_decide (build_type (opts self) = DEBUG))
     (append_COMMON_FLAGS ["-DCONFIG_DEBUG_TCG=1"])) ;;;
  (self <- get ;;
   when (negb (gui (opts self)))
     (append_configure_args ["--disable-sdl"; "--disable-gtk"; "--disable-opengl"] ;;;
      when (bool_decide (os e = MacOS)) (append_configure_args ["--disable-cocoa"]))) ;;;
  (self <- get ;;
   when (build_profiler (opts self)) (append_configure_args ["--enable-profiler"])) ;;;
  append_configure_args ["--python=" +:+ sys_executable e] ;;;
  (self <- get ;;
   if decide (build_type (opts self) = DEBUG)
   then append_configure_args ["--enable-debug"; "--enable-debug-tcg"]
   else append_configure_args ["--disable-stack-protector"]) ;;;
  (self <- get ;;
   when (use_asan (opts self))
     (append_configure_args ["--enable-sanitizers"] ;;;
      append_COMMON_FLAGS ["-fno-sanitize-recover=all"] ;;;
      (self <- get ;;
       when (use_lto (opts self)) (info "Disabling LTO for ASAN instrumented builds")) ;;;
      modify (set_opts (set_use_lto false)))) ;;;
  append_configure_args ["--disable-strip"] ;;;
  when (negb (bool_decide (os e = Linux)))
    (append_configure_args ["--disable-linux-aio"; "--disable-kvm"]) ;;;
  when (verbose e) (make_args_set "V" "1").

Definition smbd_fatal_message : string :=
  "Could not find smbd -> QEMU SMB shares networking will not work".

Definition smbd_fixit_hint (e : Env) : string :=
  "Either install samba using the system package manager or with cheribuild. "
  +:+ "If you really don't need QEMU host shares you can disable the samba dependency "
  +:+ "by setting --" +:+ target e +:+ "/no-use-smbd".

(** The path [setup] settles on for smbd. *)
Definition guessed_smbd_path (e : Env) : Path :=
  if decide (os e = FreeBSD) then "/usr/local/sbin/smbd"
  else if decide (os e = MacOS) then
    match homebrew_samba_prefix e with
    | Some prefix => prefix // "sbin/samba-dot-org-smbd"
    | None => other_tools_dir e // "sbin/smbd"
    end
  else "/usr/sbin/smbd".

Definition resolved_smbd_path (e : Env) : Path :=
  if path_exists e (other_tools_dir e // "sbin/smbd")
  then other_tools_dir e // "sbin/smbd"
  else guessed_smbd_path e.

(** The [if self.use_smbd:] block of [setup]. *)
Definition setup_smbd (e : Env) : M State unit :=
  when (bool_decide (os e = MacOS)) (info ("Guessed samba path " +:+ guessed_smbd_path e)) ;;;
  let smbd_path := resolved_smbd_path e in
  add_required_system_tool smbd_path ;;;
  append_configure_args ["--smbd=" +:+ smbd_path] ;;;
  when (negb (path_exists e smbd_path))
    (when (bool_decide (os e = MacOS))
       (warning ("QEMU user-mode samba shares require the samba.org smbd. You will need to install it "
                 +:+ "using homebrew (`brew install samba`) or build from source (`cheribuild.py samba`) "
                 +:+ "since the /usr/sbin/smbd shipped by macOS is incompatible with QEMU")) ;;;
     fatalError smbd_fatal_message (Some (smbd_fixit_hint e))).

(** [BuildQEMUBase.setup]; [base_setup] is [AutotoolsProject.setup]. *)
Definition BuildQEMUBase_setup (e : Env) (base_setup : M State unit) : M State unit :=
  base_setup ;;;
  let compiler := CC e in
  let ccinfo := compiler_info e compiler in
  when (String.eqb ccinfo.1 "apple-clang"
        || (String.eqb ccinfo.1 "clang" && negb (Py.version_lt ccinfo.2 (4, 0, 0)%nat)))
    (modify (set_CFLAGS (fun l => l ++
       ["-Werror=implicit-function-declaration";
        "-Werror=incompatible-pointer-types";
        "-Werror=incompatible-pointer-types-discards-qualifiers";
        "-Wno-address-of-packed-member";
        "-Wextra"; "-Wno-sign-compare"; "-Wno-unused-parameter";
        "-Wno-missing-field-initializers"]))) ;;;
  modify (set_common_warning_flags (fun l => l ++ ["-Werror=return-type"])) ;;;
  s <- get ;;
  when (use_smbd (opts s)) (setup_smbd e) ;;;
  s <- get ;;
  append_configure_args
    ["--target-list=" +:+ qemu_targets (opts s);
     "--enable-slirp=git";
     "--disable-linux-user";
     "--disable-xen";
     "--disable-docs";
     "--disable-rdma";
     "--disable-werror";
     "--disable-pie";
     "--extra-cflags=" +:+ commandline_to_str e (default_compiler_flags e s ++ CFLAGS s);
     "--cxx=" +:+ CXX e;
     "--cc=" +:+ CC e;
     "--make=" +:+ make_command e] ;;;
  when (create_compilation_db e) (make_args_set "V" "1") ;;;
  s <- get ;;
  let ldflags := default_ldflags e s ++ LDFLAGS s in
  when (negb (bool_decide (ldflags = [])))
    (append_configure_args ["--extra-ldflags=" +:+ commandline_to_str e ldflags]) ;;;
  s <- get ;;
  let cxxflags := default_compiler_flags e s ++ CXXFLAGS s in
  when (negb (bool_decide (cxxflags = [])))
    (append_configure_args ["--extra-cxxflags=" +:+ commandline_to_str e cxxflags]).

(** [BuildQEMUBase.update]; [base_update] is the update of the base class. *)
Definition BuildQEMUBase_update (e : Env) (base_update : M State unit) : M State unit :=
  when (is_dir e (source_dir e // "po") && negb (skip_update e))
    (run_cmd e ["git"; "checkout"; "HEAD"; "po/"] (source_dir e)) ;;;
  when (path_exists e (source_dir e // "pixman/pixman"))
    (warning "QEMU might build the broken pixman submodule, run `git submodule deinit -f pixman` to clean") ;;;
  base_update.

(** *** The subclasses *)

(** [BuildSystemQEMU.setup]. *)
Definition BuildSystemQEMU_setup (e : Env) (base_setup : M State unit) : M State unit :=
  BuildQEMUBase_setup e base_setup ;;;
  append_configure_args ["--disable-bsd-user"].

(** [BuildQEMU.__init__]. *)
Definition BuildQEMU_init (e : Env) (base_init : M State unit) : M State unit :=
  BuildQEMUBase_init e base_init ;;;
  (self <- get ;;
   when (unaligned (opts self)) (append_COMMON_FLAGS ["-DCHERI_UNALIGNED"])) ;;;
  self <- get ;;
  when (statistics (opts self)) (append_COMMON_FLAGS ["-DDO_CHERI_STATISTICS=1"]).

Definition morello_mak (e : Env) : Path :=
  source_dir e // "default-configs/targets/morello-softmmu.mak".

(** [BuildQEMU.setup].  The attribute [getattr_static] finds is the option
    entered at class setup, so the [isinstance] assertion holds; the block
    under [if False:] never runs. *)
Definition BuildQEMU_setup (e : Env) (base_setup : M State unit) : M State unit :=
  s <- get ;;
  when (negb (Py.contains "morello-softmmu" (qemu_targets (opts s)))
        && path_exists e (morello_mak e))
    (when (qemu_targets_is_default (opts s))
       (modify (set_opts (set_qemu_targets
                            (qemu_targets (opts s) +:+ ",morello-softmmu"))))) ;;;
  BuildSystemQEMU_setup e base_setup ;;;
  s <- get ;;
  when (bool_decide (build_type (opts s) = DEBUG))
    (append_COMMON_FLAGS ["-DENABLE_CHERI_SANITIY_CHECKS=1"]) ;;;
  append_configure_args ["--disable-capstone"].

(** [BuildBsdUserQEMU.setup]. *)
Definition BuildBsdUserQEMU_setup (e : Env) (base_setup : M State unit) : M State unit :=
  BuildQEMUBase_setup e base_setup ;;;
  append_configure_args ["--disable-capstone"] ;;;
  append_configure_args ["--disable-rvfi-dii"] ;;;
  append_configure_args ["--enable-bsd-user"] ;;;
  append_configure_args ["--static"].

(** *** Option setup *)
Import Options.

(** The class attributes the option defaults are taken from. *)
Record ClassAttrs : Type := { default_use_smbd : bool; default_targets : string }.

Inductive ClassName : Type :=
| BuildQEMUBase
| BuildSystemQEMU
| BuildUpstreamQEMU
| BuildQEMU
| BuildBsdUserQEMU
| BuildMorelloQEMU.

Definition class_attrs (c : ClassName) : ClassAttrs :=
  match c with
  | BuildQEMUBase | BuildSystemQEMU =>
      {| default_use_smbd := true; default_targets := "some-invalid-target" |}
  | BuildUpstreamQEMU =>
      {| default_use_smbd := true;
         default_targets := "mips64-softmmu," +:+ "riscv64-softmmu,riscv32-softmmu,"
                            +:+ "x86_64-softmmu,aarch64-softmmu" |}
  | BuildQEMU =>
      {| default_use_smbd := true;
         default_targets := "mips64-softmmu,mips64cheri128-softmmu,"
           +:+ "riscv64-softmmu,riscv64cheri-softmmu,riscv32-softmmu,riscv32cheri-softmmu,"
           +:+ "x86_64-softmmu,aarch64-softmmu" |}
  | BuildBsdUserQEMU =>
      {| default_use_smbd := false; default_targets := "riscv64cheri-bsd-user" |}
  | BuildMorelloQEMU =>
      {| default_use_smbd := true; default_targets := "aarch64-softmmu,morello-softmmu" |}
  end.

(** [BuildQEMUBase.setup_config_options]. *)
Definition BuildQEMUBase_setup_config_options : Hook Registry ClassAttrs :=
  fun super cls kwargs r =>
    let r := super kwargs r in
    let r := add_bool_option "use-smbd" (BoolDefault (default_use_smbd cls)) r in
    let r := add_bool_option "gui" (BoolDefault false) r in
    let r := add_bool_option "build-profiler" (BoolDefault false) r in
    let r := add_config_option "targets" (StrDefault (default_targets cls)) r in
    add_bool_option "full-lto" (BoolDefault true) r.

(** [BuildQEMU.setup_config_options]: [super()] is called without the
    keyword arguments. *)
Definition BuildQEMU_setup_config_options : Hook Registry ClassAttrs :=
  fun super cls kwargs r =>
    let r := super [] r in
    let r := add_bool_option "unaligned" (BoolDefault false) r in
    add_bool_option "statistics" NoDefault r.

(** Method-resolution order, up to [AutotoolsProject]. *)
Definition mro (c : ClassName) : list ClassName :=
  match c with
  | BuildQEMUBase => [BuildQEMUBase]
  | BuildSystemQEMU => [BuildSystemQEMU; BuildQEMUBase]
  | BuildUpstreamQEMU => [BuildUpstreamQEMU; BuildSystemQEMU; BuildQEMUBase]
  | BuildQEMU => [BuildQEMU; BuildSystemQEMU; BuildQEMUBase]
  | BuildBsdUserQEMU => [BuildBsdUserQEMU; BuildQEMUBase]
  | BuildMorelloQEMU => [BuildMorelloQEMU; BuildSystemQEMU; BuildQEMUBase]
  end.

Definition setup_override (c : ClassName) : option (Hook Registry ClassAttrs) :=
  match c with
  | BuildQEMUBase => Some BuildQEMUBase_setup_config_options
  | BuildQEMU => Some BuildQEMU_setup_config_options
  | _ => None
  end.

(** [cls.setup_config_options(kwargs)] for the class [c];
    [base] is [AutotoolsProject.setup_config_options]. *)
Definition setup_config_options (base : Setup Registry) (c : ClassName) : Setup Registry :=
  dispatch (map setup_override (mro c)) base (class_attrs c).

End Qemu.

(** ** pycheribuild/projects/cross/fett.py *)
Module Fett.

Inductive EntryKind : Type := KFile | KDir | KLink.

(** Modelled from the spec: [MtreeFile] (pycheribuild/mtree.py is not part
    of the sources read here).  A manifest maps a path in the image to its
    entry; [add_file] and [add_dir] enter (or replace) the entry of one
    path; [load] reads the entries of a manifest file into the manifest;
    [write] stores the manifest in a file.  None of them drops a path. *)
Record MtreeEntry : Type := {
  kind : EntryKind;
  contents : option Path;
  mode : option string;
  uname : string;
  gname : string;
}.

(** The project instance and the part of the file system it touches: the
    manifest files, by path. *)
Record State : Type := {
  mtree : gmap string MtreeEntry;
  disk : gmap string (gmap string MtreeEntry);
  log : list Event;
  pretending : bool;
}.

#[export] Instance State_console : Console State := {
  console := log;
  emit e s := {| mtree := mtree s; disk := disk s; log := log s ++ [e];
                 pretending := pretending s |};
  pretend := pretending;
}.

Definition set_mtree (f : gmap string MtreeEntry -> gmap string MtreeEntry) (s : State)
    : State :=
  {| mtree := f (mtree s); disk := disk s; log := log s; pretending := pretending s |}.

Definition mtree_load (file : Path) : M State unit :=
  modify (fun s => set_mtree (fun m => default ∅ (disk s !! file) ∪ m) s).

Definition mtree_add_file (file : Path) (path_in_image : string) (mode : option string)
    (symlink : bool) : M State unit :=
  modify (set_mtree <[path_in_image :=
    {| kind := if symlink then KLink else KFile; contents := Some file; mode := mode;
       uname := "root"; gname := "wheel" |}]>).

Definition mtree_add_dir (path : string) (uname gname : string) : M State unit :=
  modify (set_mtree <[path :=
    {| kind := KDir; contents := None; mode := None; uname := uname; gname := gname |}]>).

Definition mtree_write (file : Path) : M State unit :=
  modify (fun s => {| mtree := mtree s; disk := <[file := mtree s]> (disk s);
                      log := log s; pretending := pretending s |}).

(** What [install] reads: the process environment, the instance's paths and
    the install prefixes of the nginx and OpenSSH projects. *)
Record Env : Type := {
  environ : gmap string string;
  METALOG : Path;
  sourceDir : Path;
  nginx_installPrefix : Path;
  ssh_installPrefix : Path;
}.

(** [os.getenv(name)]. *)
Definition getenv (e : Env) (name : string) : option string := environ e !! name.

(** Truthiness of what [os.getenv] returns: [None] and the empty string are
    false. *)
Definition getenv_truthy (e : Env) (name : string) : bool :=
  match getenv e name with
  | Some v => Py.truthy v
  | None => false
  end.

(** [path.relative_to('/')]. *)
Definition relative_to_root (p : Path) : M State Path :=
  match p with
  | String "/" rest => ret rest
  | _ => raise (ValueError p)
  end.

Fixpoint for_each {A} (l : list A) (body : A -> M State unit) : M State unit :=
  match l with
  | [] => ret tt
  | x :: rest => body x ;;; for_each rest body
  end.

Definition html_files : list string :=
  ["index.html"; "private/secret.html"; "stanford.png"; "static.html"; "test.txt"].

Definition keyfiles : list string :=
  ["ssh_host_dsa_key"; "ssh_host_ecdsa_key"; "ssh_host_ed25519_key"; "ssh_host_rsa_key"].

(** [BuildFettConfig.install], from [self.mtree.load] on. *)
Definition install_manifest (e : Env) : M State unit :=
  mtree_load (METALOG e) ;;;
  let src := sourceDir e in
  let nginx_src := src // "build/webserver" in
  nginx_prefix <- relative_to_root (nginx_installPrefix e) ;;
  mtree_add_file (nginx_src // "common/conf/nginx.conf")
                 (nginx_prefix // "conf/nginx.conf") None false ;;;
  mtree_add_dir (nginx_prefix // "logs") "root" "wheel" ;;;
  mtree_add_file (nginx_src // "common/keys/private-selfsigned.key")
                 (nginx_prefix // "etc/ssl/private/private-selfsigned.key")
                 (Some "0600") false ;;;
  mtree_add_file (nginx_src // "common/certs/selfsigned.crt")
                 (nginx_prefix // "etc/ssl/certs/selfsigned.crt") None false ;;;
  mtree_add_file (src // "build/webserver/FreeBSD/rcfile")
                 "etc/rc.d/fett_nginx" (Some "0555") false ;;;
  mtree_add_dir (nginx_prefix // "post") "www" "www" ;;;
  for_each html_files (fun file =>
    mtree_add_file (src // "build/webserver/common/html" // file)
                   (nginx_prefix // "html" // file) None false) ;;;
  ssh_prefix <- relative_to_root (ssh_installPrefix e) ;;
  for_each keyfiles (fun keyfile =>
    mtree_add_file ("/etc/ssh/" +:+ keyfile) (ssh_prefix // "etc/" // keyfile)
                   None true) ;;;
  mtree_add_file (src // "build/ssh/FreeBSD/fett_sshd")
                 "etc/rc.d/fett_sshd" (Some "0555") false ;;;
  mtree_write (METALOG e).

(** [BuildFettConfig.install]. *)
Definition install (e : Env) : M State unit :=
  if getenv_truthy e "_TEST_SKIP_METALOG" then ret tt
  else
    s <- get ;;
    if negb (bool_decide (is_Some (disk s !! METALOG e))) then
      fatalError ("METALOG " +:+ METALOG e +:+ "does not exist") None ;;;
      ret tt
    else install_manifest e.

(** [BuildFettConfig.__init__], after [super().__init__] has run: the
    manifest starts empty.  ([self.METALOG = self.destdir / "METALOG"] is the
    [METALOG] of [Env].) *)
Definition BuildFettConfig_init : M State unit := modify (set_mtree (fun _ => ∅)).

(** [BuildFettConfig.compile]; [project_name] is "fett-config". *)
Definition compile : M State unit := print ("Nothing to build for " +:+ "fett-config").

(** [BuildFettDiskImage.__init__], after [super().__init__] has run:
    [self.autoPrefixes.append("fett/")]; the state is the [autoPrefixes]
    list of the instance. *)
Definition BuildFettDiskImage_init : M (list string) unit :=
  modify (fun autoPrefixes => autoPrefixes ++ ["fett/"]).

(** [BuildFettConfig.dependencies]: a plain list. *)
Definition dependencies : list string := ["fett-nginx"; "fett-openssh"; "fett-sqlite"].

End Fett.

(** * Part II: the vocabulary of the statements *)

(** ** What a hook leaves in place *)

(** However [m] ends, the state it ends in is related by [R] to the one it
    started in. *)
Definition respects {S A : Type} (R : S -> S -> Prop) (m : M S A) : Prop :=
  forall s, R s (final (m s)).

(** ** Cross-compiled projects *)
Section CrossCompileSpec.
Import CrossCompile.

(** The common flags [configure] hands to the toolchain file. *)
Definition configured_common_flags (p : Project) : list string :=
  if compiling_for_host p then COMMON_FLAGS p
  else (COMMON_FLAGS p ++ ["-B" +:+ sdkBinDir (config p)]) ++ warningFlags p
       ++ ["-target"; targetTripleWithVersion p].

(** The linker flags [default_ldflags] returns. *)
Definition configured_ldflags (p : Project) : list string :=
  match crossCompileTarget p with
  | Some NATIVE | None => []
  | Some CHERI =>
      ldflags_for
        (if negb (baremetal p) then "elf64btsmip_cheri_fbsd" else "elf64btsmip_cheri")
        "purecap" p
  | Some MIPS =>
      ldflags_for (if negb (baremetal p) then "elf64btsmip_fbsd" else "elf64btsmip") "n64" p
  end.

(** The toolchain file [configure] prepares: [inr] the substituted
    template, or [inl] the key whose placeholder the template lacks. *)
Definition toolchain_file (h : Host) (p : Project) : string + string :=
  substitute (toolchain_kwargs h p (configured_common_flags p) (configured_ldflags p))
             (_cmakeTemplate p).

(** The project as [configure] finds it after the common flags are set. *)
Definition with_common_flags (p : Project) (evs : list Event) : Project :=
  if compiling_for_host p then p
  else set_log (fun l => l ++ evs)
         (set_COMMON_FLAGS (fun l => l ++ ["-B" +:+ sdkBinDir (config p)]) p).

(** The instance [CrossCompileCMakeProject.__init__] leaves. *)
Definition cmake_project (h : Host) (p0 : Project) : Project :=
  final (CrossCompileCMakeProject_init h p0).

(** A program with its arguments, as [set_prog_with_args] writes it. *)
Definition with_args (path : Path) (args : list string) : string :=
  match args with
  | [] => path
  | _ => path +:+ " " +:+ Py.join " " args
  end.

(** Arguments appended and the environment changed, all else kept. *)
Definition update (args : list string) (env : gmap string string -> gmap string string)
    (p : Project) : Project :=
  set_configureArgs (fun l => l ++ args) (set_configureEnvironment env p).

(** A variable put in the configure environment and, where the configure
    script takes variables on its command line, among the arguments. *)
Definition put_var (name value : string) (p : Project) : Project :=
  update (if _configure_supports_variables_on_cmdline p
          then [name +:+ "=" +:+ value] else [])
         <[name := value]> p.

Definition put_nonempty (name value : string) (p : Project) : Project :=
  update (if Py.truthy value && _configure_supports_variables_on_cmdline p
          then [name +:+ "=" +:+ value] else [])
         (if Py.truthy value then <[name := value]> else id) p.

Definition CC_value (h : Host) (p : Project) : string :=
  with_args (CC h p) (default_compiler_flags p ++ CFLAGS p).
Definition CXX_value (h : Host) (p : Project) : string :=
  with_args (CXX h p) (default_compiler_flags p ++ CXXFLAGS p).
Definition LDFLAGS_value (p : Project) : string :=
  Py.join " " (LDFLAGS p ++ configured_ldflags p).
Definition CPP_value (p : Project) : string :=
  with_args (compiler_dir p // (targetTriple p +:+ "-clang-cpp")) (default_compiler_flags p).

Definition libdir_added (p : Project) : Project :=
  update (if compiling_for_cheri p && _configure_supports_libdir p
          then ["--libdir=" +:+ installPrefix p +:+ "/libcheri"] else [])
         id p.

(** What [configure] adds for a cross build: the preprocessor, and the
    linker when lld is asked for and present. *)
Definition cross_tools_added (h : Host) (p q : Project) : Project :=
  if compiling_for_host p then q
  else
    let q := put_var "CPP" (CPP_value p) q in
    if Py.contains "lld" (linker p) && path_exists h (compiler_dir p // "ld.lld")
    then put_nonempty "LD" (compiler_dir p // "ld.lld") q
    else q.

(** The state [configure] hands to the configure of the base class. *)
Definition configured (h : Host) (p : Project) : Project :=
  emit (EPrint "Cross configure environment:")
    (set_configureEnvironment (filter (fun kv => Py.truthy kv.2 = true))
       (cross_tools_added h p
          (put_nonempty "LDFLAGS" (LDFLAGS_value p)
             (put_var "CXX" (CXX_value h p)
                (put_var "CC" (CC_value h p) (libdir_added p)))))).

(** The environment and the arguments before the empty entries are dropped. *)
Definition assembled (h : Host) (p : Project) : Project :=
  cross_tools_added h p
    (put_nonempty "LDFLAGS" (LDFLAGS_value p)
       (put_var "CXX" (CXX_value h p) (put_var "CC" (CC_value h p) (libdir_added p)))).

(** A class that leaves every attribute to the mixin, and one that fixes
    its target. *)
Definition plain_class : Class :=
  {| cls_baremetal := None; cls_crossCompileTarget := None;
     cls_defaultLinker := None; cls_defaultOptimizationLevel := None |}.

Definition example_config : CheriConfig :=
  {| sdkDir := "/opt/cheri/sdk";
     sdkSysrootDir := "/opt/cheri/sdk/sysroot";
     sdkBinDir := "/opt/cheri/sdk/bin";
     cheriBitsStr := "128";
     clangPath := "/usr/bin/clang";
     clangPlusPlusPath := "/usr/bin/clang++";
     use_sdk_clang_for_native_xbuild := false;
     withLibstatcounters := false;
     cheribsd_rootfsDir := "/opt/cheri/rootfs128" |}.

Definition native_template : string :=
  "set(CHERI_SDK_BINDIR @TOOLCHAIN_SDK_BINDIR@)
set(COMPILER_BINDIR @TOOLCHAIN_COMPILER_BINDIR@)
set(CMAKE_C_COMPILER @TOOLCHAIN_C_COMPILER@)
set(CMAKE_CXX_COMPILER @TOOLCHAIN_CXX_COMPILER@)
set(CMAKE_C_COMPILER_TARGET @TOOLCHAIN_TARGET_TRIPLE@)
set(COMMON_FLAGS @TOOLCHAIN_COMMON_FLAGS@)
set(CMAKE_C_FLAGS_INIT @TOOLCHAIN_C_FLAGS@)
set(CMAKE_CXX_FLAGS_INIT @TOOLCHAIN_CXX_FLAGS@)
set(CMAKE_ASM_FLAGS_INIT @TOOLCHAIN_ASM_FLAGS@)
set(LINK_FLAGS @TOOLCHAIN_LINKER_FLAGS@)
".

Definition example_host : Host :=
  {| IS_MAC := false;
     path_exists := fun _ => false;
     cmake_version := (3, 16, 0)%nat;
     includeLocalFile := fun _ => native_template |}.

(** A project as [CrossCompileMixin.__init__] leaves it. *)
Definition example_project (target : CrossCompileTarget) (triple : string)
    (vars_on_cmdline : bool) : Project :=
  {| config := example_config;
     projectName := "Example";
     crossInstallDir := CHERIBSD_ROOTFS;
     crossCompileTarget := Some target;
     baremetal := false;
     forceDefaultCC := false;
     warningFlags := ["-Wall"];
     compiler_dir := "/opt/cheri/sdk/bin";
     targetTriple := triple;
     sdkSysroot := "/opt/cheri/sdk/sysroot";
     installPrefix := "/opt/mips/example";
     buildDir := "/build/example";
     COMMON_FLAGS := match target with NATIVE => [] | _ => ["-pipe"] end;
     CFLAGS := [];
     CXXFLAGS := [];
     ASMFLAGS := [];
     LDFLAGS := [];
     linker := "lld";
     newCapRelocs := false;
     optimizationFlags := ["-O2"];
     generator := Ninja;
     _cmakeTemplate := "";
     toolchainFile := "";
     cmake_options := [];
     _configure_supports_libdir := true;
     _configure_supports_variables_on_cmdline := vars_on_cmdline;
     configureArgs := ["--prefix=/opt/mips/example"];
     configureEnvironment := ∅;
     log := [];
     pretending := false |}.

Definition native_project : Project := example_project NATIVE "x86_64-unknown-freebsd" true.
Definition mips_project : Project := example_project MIPS "mips64-unknown-freebsd" true.
(** Like nginx: its configure script takes no variables on the command line. *)
Definition nginx_like_project : Project :=
  example_project MIPS "mips64-unknown-freebsd" false.

Definition native_toolchain_file : string :=
  "set(CHERI_SDK_BINDIR /opt/cheri/sdk/bin)
set(COMPILER_BINDIR /opt/cheri/sdk/bin)
set(CMAKE_C_COMPILER /usr/bin/clang)
set(CMAKE_CXX_COMPILER /usr/bin/clang++)
set(CMAKE_C_COMPILER_TARGET x86_64-unknown-freebsd)
set(COMMON_FLAGS )
set(CMAKE_C_FLAGS_INIT )
set(CMAKE_CXX_FLAGS_INIT )
set(CMAKE_ASM_FLAGS_INIT )
set(LINK_FLAGS )
".

Definition mips_CC : string :=
  "/opt/cheri/sdk/bin/mips64-unknown-freebsd-clang -target mips64-unknown-freebsd12 "
  +:+ "-pipe -O2 --sysroot=/opt/cheri/sdk/sysroot -B/opt/cheri/sdk/bin -Wall".


(** An event that writes no file. *)
Definition not_a_write (ev : Event) : Prop :=
  forall file contents, ev <> EWriteFile file contents.

(** A template for cross builds with every placeholder [configure] fills in. *)
Definition cheribsd_template : string :=
  "set(CHERI_SDK_BINDIR @TOOLCHAIN_SDK_BINDIR@)
set(COMPILER_BINDIR @TOOLCHAIN_COMPILER_BINDIR@)
set(CMAKE_SYSTEM_NAME @TOOLCHAIN_SYSTEM_NAME@)
set(CMAKE_SYSTEM_PROCESSOR @TOOLCHAIN_SYSTEM_PROCESSOR@)
set(CMAKE_SYSROOT @TOOLCHAIN_SYSROOT@)
set(CMAKE_C_COMPILER @TOOLCHAIN_C_COMPILER@)
set(CMAKE_CXX_COMPILER @TOOLCHAIN_CXX_COMPILER@)
set(CMAKE_C_COMPILER_TARGET @TOOLCHAIN_TARGET_TRIPLE@)
set(COMMON_FLAGS @TOOLCHAIN_COMMON_FLAGS@)
set(CMAKE_C_FLAGS_INIT @TOOLCHAIN_C_FLAGS@)
set(CMAKE_CXX_FLAGS_INIT @TOOLCHAIN_CXX_FLAGS@)
set(CMAKE_ASM_FLAGS_INIT @TOOLCHAIN_ASM_FLAGS@)
set(LINK_FLAGS @TOOLCHAIN_LINKER_FLAGS@)
set(PKG_CONFIG_LIBDIR @TOOLCHAIN_PKGCONFIG_DIRS@)
@ADD_TOOLCHAIN_LIB_SUFFIX@
".

(** A host that has both templates and CMake 3.8. *)
Definition cmake_host : Host :=
  {| IS_MAC := false;
     path_exists := fun _ => false;
     cmake_version := (3, 8, 2)%nat;
     includeLocalFile := fun file =>
       if String.eqb file "files/NativeToolchain.cmake.in" then native_template
       else if String.eqb file "files/CheriBSDToolchain.cmake.in" then cheribsd_template
       else "" |}.

(** A MIPS project with flags of its own, before [CrossCompileCMakeProject.__init__]. *)
Definition mips_cmake_project : Project :=
  {| config := example_config;
     projectName := "Example";
     crossInstallDir := CHERIBSD_ROOTFS;
     crossCompileTarget := Some MIPS;
     baremetal := false;
     forceDefaultCC := false;
     warningFlags := ["-Wall"; "-Werror=format"];
     compiler_dir := "/opt/cheri/sdk/bin";
     targetTriple := "mips64-unknown-freebsd";
     sdkSysroot := "/opt/cheri/sdk/sysroot";
     installPrefix := "/opt/mips/example";
     buildDir := "/build/example";
     COMMON_FLAGS := ["-integrated-as"; "-pipe"; "-G0"];
     CFLAGS := ["-std=c11"];
     CXXFLAGS := ["-std=c++14"; "-fno-rtti"];
     ASMFLAGS := ["-x"; "assembler-with-cpp"];
     LDFLAGS := ["-static"];
     linker := "lld";
     newCapRelocs := false;
     optimizationFlags := ["-O2"];
     generator := Ninja;
     _cmakeTemplate := "";
     toolchainFile := "";
     cmake_options := [("CMAKE_BUILD_TYPE", "RelWithDebInfo")];
     _configure_supports_libdir := true;
     _configure_supports_variables_on_cmdline := true;
     configureArgs := [];
     configureEnvironment := ∅;
     log := [EInfo "Configuring Example"];
     pretending := false |}.

(** A native project whose SDK lives under a path with an ["@"] in it. *)
Definition at_sign_project : Project :=
  {| config := {| sdkDir := "/home/me@host/sdk";
                  sdkSysrootDir := "/home/me@host/sdk/sysroot";
                  sdkBinDir := "/home/me@host/sdk/bin";
                  cheriBitsStr := "128";
                  clangPath := "/usr/bin/clang";
                  clangPlusPlusPath := "/usr/bin/clang++";
                  use_sdk_clang_for_native_xbuild := false;
                  withLibstatcounters := false;
                  cheribsd_rootfsDir := "/home/me@host/rootfs128" |};
     projectName := "Example";
     crossInstallDir := CHERIBSD_ROOTFS;
     crossCompileTarget := Some NATIVE;
     baremetal := false;
     forceDefaultCC := false;
     warningFlags := ["-Wall"];
     compiler_dir := "/usr/bin";
     targetTriple := "x86_64-unknown-freebsd";
     sdkSysroot := "/home/me@host/sdk/sysroot";
     installPrefix := "/opt/example";
     buildDir := "/build/example";
     COMMON_FLAGS := [];
     CFLAGS := [];
     CXXFLAGS := [];
     ASMFLAGS := [];
     LDFLAGS := [];
     linker := "lld";
     newCapRelocs := false;
     optimizationFlags := ["-O2"];
     generator := Ninja;
     _cmakeTemplate := "";
     toolchainFile := "";
     cmake_options := [];
     _configure_supports_libdir := true;
     _configure_supports_variables_on_cmdline := true;
     configureArgs := [];
     configureEnvironment := ∅;
     log := [];
     pretending := false |}.

(** The toolchain file [configure] writes for [mips_cmake_project]. *)
Definition mips_toolchain_file : string :=
  "set(CHERI_SDK_BINDIR /opt/cheri/sdk/bin)
set(COMPILER_BINDIR /opt/cheri/sdk/bin)
set(CMAKE_SYSTEM_NAME FreeBSD)
set(CMAKE_SYSTEM_PROCESSOR BERI (MIPS IV compatible))
set(CMAKE_SYSROOT /opt/cheri/sdk/sysroot)
set(CMAKE_C_COMPILER /opt/cheri/sdk/bin/mips64-unknown-freebsd-clang)
set(CMAKE_CXX_COMPILER /opt/cheri/sdk/bin/mips64-unknown-freebsd-clang++)
set(CMAKE_C_COMPILER_TARGET mips64-unknown-freebsd)
set(COMMON_FLAGS -integrated-as -pipe -G0 -B/opt/cheri/sdk/bin -Wall -Werror=format -target mips64-unknown-freebsd12)
set(CMAKE_C_FLAGS_INIT -std=c11)
set(CMAKE_CXX_FLAGS_INIT -std=c++14 -fno-rtti)
set(CMAKE_ASM_FLAGS_INIT -x assembler-with-cpp)
set(LINK_FLAGS -static -mabi=n64 -Wl,-melf64btsmip_fbsd -fuse-ld=lld -Wl,-z,notext -B/opt/cheri/sdk/bin --sysroot=/opt/cheri/sdk/sysroot)
set(PKG_CONFIG_LIBDIR /opt/cheri/sdk/sysroot/usr/lib/pkgconfig:/opt/cheri/sdk/sysroot/usr/local/lib/pkgconfig)
# no lib suffix for mips libraries
".

(** The text substitution leaves for [at_sign_project]: every placeholder is
    replaced, and the SDK path has brought an ["@"] of its own. *)
Definition at_sign_toolchain_text : string :=
  "set(CHERI_SDK_BINDIR /home/me@host/sdk/bin)
set(COMPILER_BINDIR /usr/bin)
set(CMAKE_C_COMPILER /usr/bin/clang)
set(CMAKE_CXX_COMPILER /usr/bin/clang++)
set(CMAKE_C_COMPILER_TARGET x86_64-unknown-freebsd)
set(COMMON_FLAGS )
set(CMAKE_C_FLAGS_INIT )
set(CMAKE_CXX_FLAGS_INIT )
set(CMAKE_ASM_FLAGS_INIT )
set(LINK_FLAGS )
".

End CrossCompileSpec.

(** ** QEMU *)
Section QemuSpec.
Import Qemu.

Definition example_opts : Opts :=
  {| use_smbd := false;
     gui := false;
     build_profiler := false;
     qemu_targets := default_targets (class_attrs BuildQEMU);
     qemu_targets_is_default := true;
     prefer_full_lto_over_thin_lto := true;
     unaligned := false;
     statistics := false;
     use_asan := true;
     use_lto := true;
     build_type := RELEASE |}.

(** A checkout in which the build has touched a translation file. *)
Definition example_state : State :=
  {| opts := example_opts;
     COMMON_FLAGS := [];
     CFLAGS := [];
     CXXFLAGS := [];
     LDFLAGS := [];
     common_warning_flags := [];
     configure_args := [];
     make_args := [];
     required_system_tools := [];
     required_pkg_config := [];
     worktree := {[ "po/de.po" := {| at_head := "msgstr alt"; in_worktree := "msgstr neu" |};
                    "vl.c" := {| at_head := "int main"; in_worktree := "int main /* wip */" |} ]};
     log := [];
     pretending := false |}.

(** A FreeBSD host with a Morello-capable source tree and no smbd. *)
Definition example_env : Env :=
  {| target := "qemu";
     os := FreeBSD;
     verbose := false;
     create_compilation_db := false;
     skip_update := false;
     other_tools_dir := "/opt/cheri/bootstrap";
     source_dir := "/src/qemu";
     sys_executable := "/usr/local/bin/python3";
     path_exists := fun p =>
       String.eqb p "/src/qemu/default-configs/targets/morello-softmmu.mak";
     is_dir := fun p => String.eqb p "/src/qemu/po";
     cmd_status := fun _ _ => 0%nat;
     homebrew_samba_prefix := None;
     CC := "/usr/bin/cc";
     CXX := "/usr/bin/c++";
     compiler_info := fun _ => ("clang", (13, 0, 0)%nat);
     make_command := "gmake";
     commandline_to_str := Py.join " ";
     default_compiler_flags := fun s => COMMON_FLAGS s;
     default_ldflags := fun _ => [] |}.

Definition smbd_state : State :=
  set_opts (fun o => {| use_smbd := true; gui := gui o; build_profiler := build_profiler o;
                        qemu_targets := qemu_targets o;
                        qemu_targets_is_default := qemu_targets_is_default o;
                        prefer_full_lto_over_thin_lto := prefer_full_lto_over_thin_lto o;
                        unaligned := unaligned o; statistics := statistics o;
                        use_asan := use_asan o; use_lto := use_lto o;
                        build_type := build_type o |}) example_state.

(** Whether [update] puts the po/ subdirectory back to [HEAD]. *)
Definition resets_po (e : Env) : bool :=
  is_dir e (source_dir e // "po") && negb (skip_update e).


(** The option values are the same. *)
Definition same_opts (s s' : State) : Prop := opts s' = opts s.

(** The option values are the same, except that LTO may have been switched
    off for a build with the address sanitizer. *)
Definition lto_off_for_asan (s s' : State) : Prop :=
  opts s' = opts s \/ (use_asan (opts s) = true /\ opts s' = set_use_lto false (opts s)).

(** [BuildQEMU.setup] adds the Morello target to a default target list. *)
Definition adds_morello (e : Env) (s : State) : bool :=
  negb (Py.contains "morello-softmmu" (qemu_targets (opts s)))
  && path_exists e (morello_mak e)
  && qemu_targets_is_default (opts s).

(** Every event reported so far is still in the log. *)
Definition log_grows (s s' : State) : Prop := forall ev, ev ∈ log s -> ev ∈ log s'.

End QemuSpec.

(** ** FETT *)
Section FettSpec.
Import Fett.




Definition example_manifest : gmap string MtreeEntry :=
  {[ "bin/sh" := {| kind := KFile; contents := Some "/rootfs/bin/sh"; mode := Some "0555";
                    uname := "root"; gname := "wheel" |};
     "etc/rc.d/fett_nginx" := {| kind := KFile; contents := Some "/old/rcfile";
                                 mode := Some "0444"; uname := "root"; gname := "wheel" |} ]}.

Definition example_fett_state : State :=
  {| mtree := ∅;
     disk := {[ "/rootfs/METALOG" := example_manifest ]};
     log := [];
     pretending := false |}.

Definition example_fett_env (environ : gmap string string) : Env :=
  {| environ := environ;
     METALOG := "/rootfs/METALOG";
     sourceDir := "/src/fett-config";
     nginx_installPrefix := "/fett/nginx";
     ssh_installPrefix := "/fett" |}.

(** The manifest in memory only gains paths, and the file system is either
    untouched or differs in one manifest file, which holds every path the
    manifest in memory had. *)
Definition additive (file : Path) (s s' : State) : Prop :=
  dom (mtree s) ⊆ dom (mtree s')
  /\ (disk s' = disk s
      \/ exists m1, disk s' = <[file := m1]> (disk s) /\ dom (mtree s) ⊆ dom m1).

End FettSpec.


(** ** Option values through the hooks of cross-compiled projects *)
Section OptionValuesSpec.

(** The attributes of a cross-compiled project that hold the value of an
    option and are read by its hooks are the same. *)
Definition same_project_options (p p' : CrossCompile.Project) : Prop :=
  CrossCompile.crossCompileTarget p' = CrossCompile.crossCompileTarget p
  /\ CrossCompile.linker p' = CrossCompile.linker p
  /\ CrossCompile.newCapRelocs p' = CrossCompile.newCapRelocs p
  /\ CrossCompile.optimizationFlags p' = CrossCompile.optimizationFlags p.

Import CrossCompile CrossCompileInit.

(** All seven attributes of the instance that hold option values are the
    same. *)
Definition same_mixin_options (self self' : Self) : Prop :=
  crossCompileTarget self' = crossCompileTarget self
  /\ installDir self' = installDir self
  /\ useMxgot self' = useMxgot self
  /\ linker self' = linker self
  /\ debugInfo self' = debugInfo self
  /\ optimizationFlags self' = optimizationFlags self
  /\ newCapRelocs self' = newCapRelocs self.

(** What [__init__] never assigns once the target is settled. *)
Definition init_frame (self self' : Self) : Prop :=
  config self' = config self
  /\ projectName self' = projectName self
  /\ buildDir self' = buildDir self
  /\ crossInstallDir self' = crossInstallDir self
  /\ baremetal self' = baremetal self
  /\ crossCompileTarget self' = crossCompileTarget self
  /\ useMxgot self' = useMxgot self
  /\ linker self' = linker self
  /\ debugInfo self' = debugInfo self
  /\ optimizationFlags self' = optimizationFlags self
  /\ newCapRelocs self' = newCapRelocs self.

(** The same, and neither the install directory nor the sysroot. *)
Definition init_frame_dirs (self self' : Self) : Prop :=
  init_frame self self'
  /\ installDir self' = installDir self
  /\ sdkSysroot self' = sdkSysroot self.

(** The install directory [__init__] assigns for the target it builds for,
    where it assigns one: for a native build the SDK directory or a
    directory in the build directory, by the install policy of the class,
    and for a baremetal cross build under the SDK policy the baremetal
    sysroot of the target triple. *)
Definition assigned_installDir (target : option CrossCompileTarget) (self : Self)
    : option (option Path) :=
  match target with
  | Some NATIVE =>
      match crossInstallDir self with
      | SDK => Some (Some (sdkDir (config self)))
      | CHERIBSD_ROOTFS => Some (Some (buildDir self // "test-install-prefix"))
      | NONE => None
      end
  | Some arch =>
      if bool_decide (crossInstallDir self = SDK) && baremetal self then
        Some (Some (sdkDir (config self) // "baremetal"
                    // (if bool_decide (arch = CHERI) then "cheri-qemu-elf"
                        else "mips64-qemu-elf")))
      else None
  | None => None
  end.

(** A project of a class that installs into the SDK, whose [target] option
    was resolved to MIPS and whose install directory to a directory of the
    root file system. *)
Definition sdk_self : Self :=
  {| config := example_config; projectName := "example"; buildDir := "/build/example";
     crossInstallDir := SDK; baremetal := false;
     crossCompileTarget := Some MIPS; installDir := Some "/opt/cheri/rootfs128/opt/example";
     useMxgot := true; linker := "lld"; debugInfo := true; optimizationFlags := ["-O2"];
     newCapRelocs := false;
     compiler_dir := None; targetTriple := None; sdkSysroot := None; installPrefix := None;
     destdir := None; COMMON_FLAGS := []; CFLAGS := []; CXXFLAGS := []; ASMFLAGS := [];
     LDFLAGS := [] |}.

(** A build host without an LLVM build directory. *)
Definition init_env : Env :=
  {| file_exists := fun _ => false;
     BuildLLVM_buildDir := "/build/llvm";
     compiler_default_target := fun _ => "x86_64-unknown-freebsd" |}.

End OptionValuesSpec.

(** An instance with option values [O] beside the state [S] its hooks work
    on, and a hook of the state run on the instance. *)
Record Instance (O S : Type) : Type := { options : O; state : S }.
Arguments options {O S} _.
Arguments state {O S} _.

Definition on_state {O S A} (m : M S A) : M (Instance O S) A :=
  fun i =>
    match m (state i) with
    | Done a s => Done a {| options := options i; state := s |}
    | Exit code s => Exit code {| options := options i; state := s |}
    | Raised exn s => Raised exn {| options := options i; state := s |}
    end.

(** * Part III: lemmas and theorems *)

(** ** The hook monad *)
Section MonadLaws.
Context {S A B C : Type}.

Lemma bind_done (m : M S A) (k : A -> M S B) s a s' :
  m s = Done a s' -> bind m k s = k a s'.
Proof. unfold bind. by intros ->. Qed.

Lemma bind_same (m m' : M S A) (k : A -> M S B) s s' :
  m s = m' s' -> bind m k s = bind m' k s'.
Proof. unfold bind. by intros ->. Qed.

Lemma bind_get (k : S -> M S B) s : bind get k s = k s s.
Proof. reflexivity. Qed.

Lemma bind_modify (f : S -> S) (k : unit -> M S B) s : bind (modify f) k s = k tt (f s).
Proof. reflexivity. Qed.

Lemma bind_ret (a : A) (k : A -> M S B) s : bind (ret a) k s = k a s.
Proof. reflexivity. Qed.

Lemma bind_assoc (m : M S A) (f : A -> M S B) (k : B -> M S C) s :
  bind (bind m f) k s = bind m (fun x => bind (f x) k) s.
Proof. unfold bind. by destruct (m s). Qed.

End MonadLaws.

(** ** What a hook leaves in place *)
Section Frame.
Context {S : Type} (R : S -> S -> Prop) `{!Reflexive R} `{!Transitive R}.

Lemma respects_ret {A} (a : A) : respects R (ret a).
Proof. intros s. reflexivity. Qed.

Lemma respects_get : respects R get.
Proof. intros s. reflexivity. Qed.

Lemma respects_raise {A} (e : Exn) : respects R (@raise S A e).
Proof. intros s. reflexivity. Qed.

Lemma respects_assert (cond : bool) (what : string) : respects R (assert cond what).
Proof. intros s. destruct cond; reflexivity. Qed.

Lemma respects_modify (f : S -> S) : (forall s, R s (f s)) -> respects R (modify f).
Proof. intros Hf s. apply Hf. Qed.

Lemma respects_bind {A B} (m : M S A) (k : A -> M S B) :
  respects R m -> (forall a, respects R (k a)) -> respects R (bind m k).
Proof.
  intros Hm Hk s. unfold bind. specialize (Hm s).
  destruct (m s) as [a s'| |]; cbn in *; [|done..].
  etrans; [exact Hm | apply Hk].
Qed.

Lemma respects_bind_get {B} (k : S -> M S B) :
  (forall s, R s (final (k s s))) -> respects R (bind get k).
Proof. intros Hk s. apply Hk. Qed.

Lemma respects_when (b : bool) (m : M S unit) : respects R m -> respects R (when b m).
Proof. intros Hm. destruct b; [exact Hm | apply respects_ret]. Qed.

Lemma respects_if {A} (b : bool) (m1 m2 : M S A) :
  respects R m1 -> respects R m2 -> respects R (if b then m1 else m2).
Proof. by destruct b. Qed.

Lemma respects_sumbool {A} {P Q : Prop} (d : {P} + {Q}) (m1 m2 : M S A) :
  respects R m1 -> respects R m2 -> respects R (if d then m1 else m2).
Proof. by destruct d. Qed.

Lemma respects_console `{Console S} :
  (forall e s, R s (emit e s)) ->
  (forall msg, respects R (info msg)) /\ (forall msg, respects R (warning msg))
  /\ (forall msg, respects R (print msg)) /\ (forall msg hint, respects R (fatalError msg hint)).
Proof.
  intros He. repeat split; intros; intros s; unfold info, warning, print, fatalError, modify;
    try destruct (pretend s); apply He.
Qed.

End Frame.

Ltac relation_side :=
  try match goal with
      | |- Reflexive _ => apply _
      | |- Transitive _ => apply _
      end.

Ltac respects_step :=
  lazymatch goal with
  | |- respects _ (bind _ _) => apply respects_bind; relation_side; [|intros ?]
  | |- respects _ (when _ _) => apply respects_when; relation_side
  | |- respects _ (ret _) => apply respects_ret; relation_side
  | |- respects _ get => apply respects_get; relation_side
  | |- respects _ (assert _ _) => apply respects_assert; relation_side
  | |- respects _ (raise _) => apply respects_raise; relation_side
  | |- respects _ (if _ then _ else _) =>
      first [apply respects_if | apply respects_sumbool]; relation_side
  end.

(** ** Python strings *)
Section PyStrings.

Example replace_every_occurrence : Py.replace "@A@" "x" "a @A@ b @A@" = "a x b x".
Proof. reflexivity. Qed.

Example replace_does_not_rescan : Py.replace "aa" "a" "aaaa" = "aa".
Proof. reflexivity. Qed.

Example contains_substring :
  Py.contains "lld" "ld.lld" = true /\ Py.contains "morello" "mips64-softmmu" = false.
Proof. by split. Qed.

Example lower_project_name : Py.lower "Fett-NGINX_1" = "fett-nginx_1".
Proof. reflexivity. Qed.

Example join_flags : Py.join " " ["-O2"; "-pipe"; "-G0"] = "-O2 -pipe -G0".
Proof. reflexivity. Qed.

Example path_joins :
  "/rootfs" // "opt" // "mips" = "/rootfs/opt/mips"
  /\ "/sdk/" // "bin" = "/sdk/bin"
  /\ "/sdk" // "/usr/bin/cc" = "/usr/bin/cc"
  /\ "" // "conf/nginx.conf" = "conf/nginx.conf".
Proof. by repeat split. Qed.

Example cmake_version_order :
  Py.version_lt (3, 8, 2)%nat (3, 9, 0)%nat = true
  /\ Py.version_lt (3, 16, 0)%nat (3, 9, 0)%nat = false.
Proof. by split. Qed.

Lemma append_cons (c : ascii) (a b : string) : String c a +:+ b = String c (a +:+ b).
Proof. reflexivity. Qed.

Lemma prefix_app_l (a b s : string) :
  String.prefix (a +:+ b) s = true -> String.prefix a s = true.
Proof.
  revert a. induction s as [|d s IH]; intros [|c a]; rewrite ?append_cons; cbn; try done.
  destruct (ascii_dec c d); [apply IH | done].
Qed.

Lemma contains_app_l (a b s : string) :
  Py.contains (a +:+ b) s = true -> Py.contains a s = true.
Proof.
  induction s as [|d s IH]; cbn [Py.contains].
  - rewrite !orb_false_r. apply prefix_app_l.
  - intros [Hp | Hc]%orb_true_iff; apply orb_true_iff.
    + left. by eapply prefix_app_l.
    + right. by apply IH.
Qed.

(** A text without ["@"] holds no placeholder. *)
Lemma no_at_no_placeholder (key s : string) :
  Py.contains "@" s = false -> Py.contains (CrossCompile.placeholder key) s = false.
Proof.
  intros Hno. destruct (Py.contains (CrossCompile.placeholder key) s) eqn:Hc; [|done].
  unfold CrossCompile.placeholder in Hc.
  apply (contains_app_l "@") in Hc. congruence.
Qed.

End PyStrings.

(** ** The install directory and the dependencies of cross-compiled projects *)
Section CrossCompileDefaults.
Import CrossCompile.
Context {S : Type} `{Console S}.

Example installDir_of_a_cheri_project :
  _installDir example_config (example_project CHERI "cheri-unknown-freebsd" true)
              (mkTerm [] false)
  = Done (Some "/opt/cheri/rootfs128/opt/cheri128/example") (mkTerm [] false).
Proof. reflexivity. Qed.

(** C4: [_installDir(config, project)] is the SDK directory for a NATIVE
    project; otherwise, under the CHERIBSD_ROOTFS policy, the rootfs
    directory joined with "opt", the architecture name ("cheri" followed by
    the CHERI bits string for CHERI, "mips" for MIPS) and the lower-cased
    project name; under the SDK policy the SDK sysroot; and under any other
    policy a fatal "Unknown install dir for <project>" error is reported.
    (With no target at all under CHERIBSD_ROOTFS the assertion fails.) *)
Theorem installDir_by_target_and_policy (config : CheriConfig) (project : Project) (s : S) :
  _installDir config project s =
    match crossCompileTarget project, crossInstallDir project with
    | Some NATIVE, _ => Done (Some (sdkDir config)) s
    | Some CHERI, CHERIBSD_ROOTFS =>
        Done (Some (cheribsd_rootfsDir config // "opt"
                      // ("cheri" +:+ cheriBitsStr config)
                      // Py.lower (projectName project))) s
    | Some MIPS, CHERIBSD_ROOTFS =>
        Done (Some (cheribsd_rootfsDir config // "opt" // "mips"
                      // Py.lower (projectName project))) s
    | None, CHERIBSD_ROOTFS =>
        Raised (AssertionError "project.crossCompileTarget == CrossCompileTarget.MIPS") s
    | _, SDK => Done (Some (sdkSysrootDir config)) s
    | _, NONE =>
        let s' := emit (EFatal ("Unknown install dir for " +:+ projectName project) None) s in
        if pretend s then Done None s' else Exit 3 s'
    end.
Proof.
  unfold _installDir.
  destruct (crossCompileTarget project) as [[]|], (crossInstallDir project);
    repeat case_decide; try congruence; try reflexivity;
    unfold bind, fatalError, assert, ret, raise; simpl;
    try reflexivity; destruct (pretend s); reflexivity.
Qed.

End CrossCompileDefaults.

Example dependencies_of_a_baremetal_class :
  CrossCompile.dependencies
    {| CrossCompile.cls_baremetal := Some true;
       CrossCompile.cls_crossCompileTarget := None;
       CrossCompile.cls_defaultLinker := None;
       CrossCompile.cls_defaultOptimizationLevel := None |}
  = ["freestanding-sdk"].
Proof. reflexivity. Qed.

(** C6: the dependencies of the cross-compile mixin are a function of the
    class, applied when they are asked for: exactly ["freestanding-sdk"] for a
    class whose [baremetal] attribute is true, exactly ["cheribsd-sdk"] for
    any other class, among them those that leave the attribute to the mixin. *)
Theorem dependencies_by_baremetal (cls : CrossCompile.Class) :
  CrossCompile.dependencies cls =
    match CrossCompile.cls_baremetal cls with
    | Some true => ["freestanding-sdk"]
    | Some false | None => ["cheribsd-sdk"]
    end.
Proof.
  unfold CrossCompile.dependencies, CrossCompile.attr_baremetal.
  destruct (CrossCompile.cls_baremetal cls) as [[]|]; reflexivity.
Qed.

(** ** Cooperative option setup *)
Section OptionSetup.
Import Options CrossCompile.

Lemma names_add_bool name d r : names (add_bool_option name d r) = names r ++ [name].
Proof. unfold names, add_bool_option. by rewrite map_app. Qed.

Lemma names_add_config name d r : names (add_config_option name d r) = names r ++ [name].
Proof. unfold names, add_config_option. by rewrite map_app. Qed.

Example BuildQEMU_options :
  names (Qemu.setup_config_options (fun _ r => r) Qemu.BuildQEMU [("x", "y")] [])
  = ["use-smbd"; "gui"; "build-profiler"; "targets"; "full-lto"; "unaligned"; "statistics"].
Proof. reflexivity. Qed.

Example BuildFettConfig_options :
  names (CrossCompile.registered
           (CrossCompile.setupConfigOptions (fun _ _ st => st) CrossCompile.BuildFettConfig
              plain_class []
              {| CrossCompile.registered := []; CrossCompile.target_option_of := [] |}))
  = ["use-mxgot"; "linker"; "debug-info"; "optimization-flags"; "new-cap-relocs"; "target"].
Proof. reflexivity. Qed.



End OptionSetup.

(** ** CMake projects: the toolchain file *)
Section CMake.
Import CrossCompile.

Lemma set_log_app (p : Project) (a b : list Event) :
  set_log (fun l => l ++ b) (set_log (fun l => l ++ a) p)
  = set_log (fun l => l ++ (a ++ b)) p.
Proof. unfold set_log; cbn. by rewrite <- app_assoc. Qed.

Lemma common_flags_run h p :
  exists evs,
    cmake_common_flags h p
    = Done (configured_common_flags p)
           (if compiling_for_host p then p
            else set_log (fun l => l ++ evs)
                   (set_COMMON_FLAGS (fun l => l ++ ["-B" +:+ sdkBinDir (config p)]) p)).
Proof.
  unfold cmake_common_flags, configured_common_flags, bind, get.
  destruct (compiling_for_host p) eqn:Hh; [by exists []|].
  unfold when, modify, warning, createSymlink, makedirs, ret, bind.
  destruct (negb (baremetal p) && _ && _).
  - eexists. cbn -[path_div]. f_equal. rewrite !set_log_app. reflexivity.
  - exists []. cbn -[path_div]. f_equal. unfold set_log; cbn. by rewrite app_nil_r.
Qed.

Lemma ldflags_run p t :
  crossCompileTarget p = Some t -> default_ldflags p = Done (configured_ldflags p) p.
Proof.
  intros Ht. unfold configured_ldflags, default_ldflags, bind, get. rewrite Ht.
  destruct t; reflexivity.
Qed.

Lemma with_common_flags_target p evs :
  crossCompileTarget (with_common_flags p evs) = crossCompileTarget p.
Proof. unfold with_common_flags. by destruct (compiling_for_host p). Qed.

Lemma with_common_flags_ldflags p evs :
  configured_ldflags (with_common_flags p evs) = configured_ldflags p.
Proof. unfold with_common_flags. by destruct (compiling_for_host p). Qed.

Lemma with_common_flags_kwargs h p evs cf ld :
  toolchain_kwargs h (with_common_flags p evs) cf ld = toolchain_kwargs h p cf ld.
Proof. unfold with_common_flags. by destruct (compiling_for_host p). Qed.

Lemma cmake_configure_run (h : Host) (p : Project) (t : CrossCompileTarget) :
  crossCompileTarget p = Some t ->
  exists evs,
    Forall not_a_write evs
    /\ log (with_common_flags p evs) = log p ++ evs
    /\ forall base_configure,
        CrossCompileCMakeProject_configure h base_configure p
        = match toolchain_file h p with
          | inl key => Raised (AssertionError key) (with_common_flags p evs)
          | inr contents =>
              if Py.contains "@" contents
              then Raised (AssertionError contents) (with_common_flags p evs)
              else (when (bool_decide (generator p = Ninja))
                      (add_cmake_options "CMAKE_BUILD_WITH_INSTALL_RPATH" "True") ;;;
                    when (baremetal p && negb (compiling_for_host p))
                      (add_cmake_options "CMAKE_EXE_LINKER_FLAGS" "-Wl,-T,qemu-malta.ld") ;;;
                    base_configure)
                     (emit (EWriteFile (toolchainFile p) contents) (with_common_flags p evs))
          end.
Proof.
  intros Ht.
  assert (Hevs : exists evs,
             cmake_common_flags h p
             = Done (configured_common_flags p) (with_common_flags p evs)
             /\ Forall not_a_write evs
             /\ log (with_common_flags p evs) = log p ++ evs).
  { unfold cmake_common_flags, configured_common_flags, with_common_flags, bind, get.
    destruct (compiling_for_host p) eqn:Hh.
    { exists []. by rewrite app_nil_r. }
    unfold when, modify, warning, createSymlink, makedirs, ret, bind.
    destruct (negb (baremetal p) && _ && _).
    - eexists. cbn -[path_div]. split; [f_equal; rewrite !set_log_app; reflexivity|].
      split; [|reflexivity]. repeat constructor; discriminate.
    - exists []. cbn -[path_div]. split; [|split; [constructor | reflexivity]].
      f_equal. unfold set_log; cbn. by rewrite app_nil_r. }
  destruct Hevs as (evs & Hcf & Hnowrite & Hlog). exists evs.
  split; [exact Hnowrite|]. split; [exact Hlog|].
  intros base_configure.
  assert (Hld : default_ldflags (with_common_flags p evs)
                = Done (configured_ldflags p) (with_common_flags p evs)).
  { rewrite <- (with_common_flags_ldflags p evs). apply (ldflags_run _ t).
    by rewrite with_common_flags_target. }
  assert (Hsame : generator (with_common_flags p evs) = generator p
                  /\ baremetal (with_common_flags p evs) = baremetal p
                  /\ compiling_for_host (with_common_flags p evs) = compiling_for_host p
                  /\ toolchainFile (with_common_flags p evs) = toolchainFile p
                  /\ _cmakeTemplate (with_common_flags p evs) = _cmakeTemplate p).
  { unfold with_common_flags.
    destruct (compiling_for_host p) eqn:Hhost; repeat split; try reflexivity; exact Hhost. }
  destruct Hsame as (Hg & Hb & Hh & Htf & Htpl).
  assert (Hsub : substitute (toolchain_kwargs h (with_common_flags p evs)
                               (configured_common_flags p) (configured_ldflags p))
                   (_cmakeTemplate (with_common_flags p evs)) = toolchain_file h p).
  { by rewrite with_common_flags_kwargs, Htpl. }
  unfold CrossCompileCMakeProject_configure, bind at 1 2 3.
  rewrite Hcf, Hld. cbn [get]. unfold bind at 1.
  unfold _prepareToolchainFile, bind at 1. cbn [get]. rewrite Hsub.
  destruct (toolchain_file h p) as [key | contents]; [reflexivity|].
  unfold bind at 1, assert.
  destruct (Py.contains "@" contents); cbn [negb]; [reflexivity|].
  cbn [ret]. unfold writeFile, modify. rewrite Hg, Hb, Hh, Htf. reflexivity.
Qed.


(** C8, as amended: for a CMake project as [__init__] leaves it, with its
    target set, the toolchain file is to go into the build directory and
    CMAKE_TOOLCHAIN_FILE points at it.  [configure] substitutes the values
    into the template.  When the template lacks the placeholder of a value,
    or the substituted text still holds an ["@"], [configure] raises
    [AssertionError], nothing has been written and the configure of the
    base class is not reached.  Otherwise the substituted text holds none of
    the placeholders, it is written to the toolchain file, and only then
    does the configure of the base class run, writing the file being the
    last thing reported before it. *)
Theorem cmake_configure_writes_toolchain_file_first
    (h : Host) (p0 : Project) (t : CrossCompileTarget) :
  crossCompileTarget p0 = Some t ->
  let p := cmake_project h p0 in
  toolchainFile p
    = buildDir p0 // (if decide (t = NATIVE) then "NativeToolchain.cmake"
                      else "CheriBSDToolchain.cmake")
  /\ _cmakeTemplate p
     = includeLocalFile h (if decide (t = NATIVE) then "files/NativeToolchain.cmake.in"
                           else "files/CheriBSDToolchain.cmake.in")
  /\ (Py.contains "@TOOLCHAIN_SDK_BINDIR@" (_cmakeTemplate p) = false ->
      toolchain_file h p = inl "TOOLCHAIN_SDK_BINDIR")
  /\ exists evs,
       Forall (fun ev => forall file contents, ev <> EWriteFile file contents) evs
       /\ match toolchain_file h p with
          | inl key =>
              exists p',
                (forall base_configure,
                    CrossCompileCMakeProject_configure h base_configure p
                    = Raised (AssertionError key) p')
                /\ log p' = log p0 ++ evs
          | inr contents =>
              if Py.contains "@" contents
              then exists p',
                     (forall base_configure,
                         CrossCompileCMakeProject_configure h base_configure p
                         = Raised (AssertionError contents) p')
                     /\ log p' = log p0 ++ evs
              else Forall (fun kv => is_Some kv.2 ->
                                     Py.contains (placeholder kv.1) contents = false)
                     (toolchain_kwargs h p (configured_common_flags p) (configured_ldflags p))
                   /\ exists p',
                        (forall base_configure,
                            CrossCompileCMakeProject_configure h base_configure p
                            = base_configure p')
                        /\ log p' = log p0 ++ evs ++ [EWriteFile (toolchainFile p) contents]
                        /\ ("CMAKE_TOOLCHAIN_FILE", toolchainFile p) ∈ cmake_options p'
          end.
Proof.
  intros Ht p.
  assert (Hinit : crossCompileTarget p = Some t /\ log p = log p0
                  /\ ("CMAKE_TOOLCHAIN_FILE", toolchainFile p) ∈ cmake_options p).
  { unfold p, cmake_project, CrossCompileCMakeProject_init, bind, get.
    destruct (decide (crossCompileTarget p0 = Some NATIVE)); cbn;
      (split; [exact Ht|]); (split; [reflexivity|]);
      apply elem_of_app; right; apply list_elem_of_singleton; reflexivity. }
  destruct Hinit as (Htp & Hlog0 & Hopt0).
  split; [|split; [|split]].
  - unfold p, cmake_project, CrossCompileCMakeProject_init, bind, get. rewrite Ht.
    destruct t; reflexivity.
  - unfold p, cmake_project, CrossCompileCMakeProject_init, bind, get. rewrite Ht.
    destruct t; reflexivity.
  - intros Hno. unfold toolchain_file, toolchain_kwargs. cbn [substitute].
    change (placeholder "TOOLCHAIN_SDK_BINDIR") with "@TOOLCHAIN_SDK_BINDIR@".
    by rewrite Hno.
  - destruct (cmake_configure_run h p t Htp) as (evs & Hnowrite & Hlog & Hrun).
    exists evs. split; [exact Hnowrite|].
    destruct (toolchain_file h p) as [key | contents] eqn:Hfile.
    + exists (with_common_flags p evs). split; [exact Hrun|]. by rewrite Hlog, Hlog0.
    + destruct (Py.contains "@" contents) eqn:Hat.
      * exists (with_common_flags p evs). split; [exact Hrun|]. by rewrite Hlog, Hlog0.
      * split.
        { apply Forall_forall. intros kv _ _. by apply no_at_no_placeholder. }
        assert (Hopt1 : ("CMAKE_TOOLCHAIN_FILE", toolchainFile p)
                        ∈ cmake_options (with_common_flags p evs)).
        { unfold with_common_flags. by destruct (compiling_for_host p). }
        destruct (bool_decide (generator p = Ninja)) eqn:Hg,
                 (baremetal p && negb (compiling_for_host p)) eqn:Hb;
          eexists; (split; [intros base; rewrite Hrun, ?Hg, ?Hb; reflexivity|]);
          cbn; rewrite Hlog, Hlog0, <- ?app_assoc; (split; [reflexivity|]);
          rewrite ?elem_of_app; tauto.
Qed.

End CMake.

(** ** Autotools projects: the configure environment *)
Section Autotools.
Import CrossCompile.

Lemma update_nothing p : update [] id p = p.
Proof. destruct p. unfold update, set_configureArgs, set_configureEnvironment; cbn.
       by rewrite app_nil_r. Qed.

Lemma update_update a f b g p :
  update b g (update a f p) = update (a ++ b) (g ∘ f) p.
Proof. unfold update, set_configureArgs, set_configureEnvironment; cbn.
       by rewrite <- app_assoc. Qed.

Lemma set_prog_run prog path args p :
  set_prog_with_args prog path args p = Done tt (put_var prog (with_args path args) p).
Proof.
  unfold set_prog_with_args, put_var. fold (with_args path args).
  rewrite bind_modify, bind_get. unfold when, modify, ret, update. cbn.
  destruct (_configure_supports_variables_on_cmdline p); [done|].
  f_equal. symmetry. apply (update_nothing (set_configureEnvironment _ p)).
Qed.

Lemma add_env_run arg value p :
  add_configure_env_arg arg value p = Done tt (put_nonempty arg value p).
Proof.
  unfold add_configure_env_arg, put_nonempty.
  destruct (Py.truthy value); cbn [negb andb].
  - apply (set_prog_run arg value []).
  - by rewrite update_nothing.
Qed.

Lemma assert_unset_run keys p :
  Forall (fun key => configureEnvironment p !! key = None) keys ->
  assert_unset keys p = Done tt p.
Proof.
  induction 1 as [|key keys Hk _ IH]; [done|].
  cbn [assert_unset]. rewrite bind_get. unfold assert.
  rewrite bool_decide_eq_true_2 by done. exact IH.
Qed.

Lemma autotools_configure_run h p t base_configure :
  baremetal p = false ->
  crossCompileTarget p = Some t ->
  Forall (fun key => configureEnvironment p !! key = None)
         ["CFLAGS"; "CXXFLAGS"; "CPPFLAGS"; "LDFLAGS"] ->
  CrossCompileAutotoolsProject_configure h base_configure p
  = base_configure (configured h p).
Proof.
  intros Hb Ht Hunset.
  unfold CrossCompileAutotoolsProject_configure.
  rewrite bind_get.
  rewrite (bind_done _ _ _ tt (libdir_added p)).
  2:{ unfold libdir_added, when.
      destruct (compiling_for_cheri p && _configure_supports_libdir p); [done|].
      by rewrite update_nothing. }
  rewrite Hb. cbn [negb when]. rewrite bind_assoc, bind_get, bind_assoc.
  rewrite (bind_done _ _ _ tt (libdir_added p)) by (by apply assert_unset_run).
  rewrite bind_assoc, (bind_done _ _ _ _ _ (set_prog_run _ _ _ _)).
  rewrite bind_assoc, (bind_done _ _ _ _ _ (set_prog_run _ _ _ _)).
  rewrite bind_assoc.
  erewrite (bind_done default_ldflags) by (by apply (ldflags_run _ t)).
  rewrite bind_assoc, (bind_done _ _ _ _ _ (add_env_run _ _ _)).
  change (compiling_for_host (libdir_added p)) with (compiling_for_host p).
  change (linker (libdir_added p)) with (linker p).
  change (compiler_dir (libdir_added p)) with (compiler_dir p).
  unfold configured, cross_tools_added.
  destruct (compiling_for_host p); cbn [negb when].
  - reflexivity.
  - rewrite bind_assoc, (bind_done _ _ _ _ _ (set_prog_run _ _ _ _)).
    destruct (Py.contains "lld" (linker p) && path_exists h (compiler_dir p // "ld.lld"));
      cbn [when].
    + rewrite (bind_done _ _ _ _ _ (add_env_run _ _ _)). reflexivity.
    + reflexivity.
Qed.

Lemma filter_truthy_lookup (m : gmap string string) (k : string) :
  filter (fun kv : string * string => Py.truthy kv.2 = true) m !! k
  = match m !! k with
    | Some v => if Py.truthy v then Some v else None
    | None => None
    end.
Proof.
  rewrite map_lookup_filter. destruct (m !! k) as [v|]; [|done]. cbn.
  destruct (Py.truthy v) eqn:Hv; case_guard; cbn in *; congruence.
Qed.

Lemma env_update a f p : configureEnvironment (update a f p) = f (configureEnvironment p).
Proof. reflexivity. Qed.
Lemma args_update a f p : configureArgs (update a f p) = configureArgs p ++ a.
Proof. reflexivity. Qed.
Lemma supports_update a f p :
  _configure_supports_variables_on_cmdline (update a f p)
  = _configure_supports_variables_on_cmdline p.
Proof. reflexivity. Qed.

Lemma configured_env h p :
  configureEnvironment (configured h p)
  = filter (fun kv => Py.truthy kv.2 = true) (configureEnvironment (assembled h p)).
Proof. reflexivity. Qed.

Lemma configured_args h p : configureArgs (configured h p) = configureArgs (assembled h p).
Proof. reflexivity. Qed.

Lemma assembled_env h p :
  exists tools : gmap string string -> gmap string string,
    configureEnvironment (assembled h p)
    = tools ((if Py.truthy (LDFLAGS_value p) then <["LDFLAGS" := LDFLAGS_value p]> else id)
               (<["CXX" := CXX_value h p]>
                  (<["CC" := CC_value h p]> (configureEnvironment p))))
    /\ forall m key, key <> "CPP" -> key <> "LD" -> tools m !! key = m !! key.
Proof.
  unfold assembled, cross_tools_added, put_nonempty, put_var, libdir_added.
  destruct (compiling_for_host p).
  - exists id. split; [reflexivity | done].
  - destruct (Py.contains "lld" (linker p) && path_exists h (compiler_dir p // "ld.lld")).
    + eexists (fun m => (if Py.truthy (compiler_dir p // "ld.lld")
                         then <["LD" := compiler_dir p // "ld.lld"]> else id)
                          (<["CPP" := CPP_value p]> m)).
      split; [reflexivity|]. intros m key Hcpp Hld.
      destruct (Py.truthy _); unfold id; cbv beta iota;
        [rewrite lookup_insert_ne by done|]; by rewrite lookup_insert_ne.
    + eexists (fun m => <["CPP" := CPP_value p]> m).
      split; [reflexivity|]. intros m key Hcpp Hld. by rewrite lookup_insert_ne.
Qed.

Lemma assembled_args h p :
  exists tools : list string,
    configureArgs (assembled h p)
    = configureArgs p
      ++ (if compiling_for_cheri p && _configure_supports_libdir p
          then ["--libdir=" +:+ installPrefix p +:+ "/libcheri"] else [])
      ++ (if _configure_supports_variables_on_cmdline p
          then ["CC=" +:+ CC_value h p] else [])
      ++ (if _configure_supports_variables_on_cmdline p
          then ["CXX=" +:+ CXX_value h p] else [])
      ++ (if Py.truthy (LDFLAGS_value p) && _configure_supports_variables_on_cmdline p
          then ["LDFLAGS=" +:+ LDFLAGS_value p] else [])
      ++ tools
    /\ (_configure_supports_variables_on_cmdline p = false -> tools = []).
Proof.
  unfold assembled, cross_tools_added, put_nonempty, put_var, libdir_added.
  destruct (compiling_for_host p).
  - exists []. rewrite !args_update, !supports_update, <- !app_assoc, app_nil_r. done.
  - destruct (Py.contains "lld" (linker p) && path_exists h (compiler_dir p // "ld.lld")).
    + eexists. rewrite !args_update, !supports_update, <- !app_assoc.
      split; [reflexivity|]. intros ->. by rewrite andb_false_r.
    + eexists. rewrite !args_update, !supports_update, <- !app_assoc.
      split; [reflexivity|]. by intros ->.
Qed.
End Autotools.

Section AutotoolsConfigure.
Import CrossCompile.

(** C9, as amended: for a project that is not baremetal, has its target
    set and has none of CFLAGS, CXXFLAGS, CPPFLAGS and LDFLAGS in its
    configure environment, [configure] runs the configure of the base class
    on a state whose environment holds CC and CXX (the compiler path,
    followed by the default compiler flags and the per-language flags when
    there are any) and holds LDFLAGS exactly when LDFLAGS and the default
    linker flags are not all empty; no entry of the environment is empty;
    and the variables are among the arguments only for a configure script
    that takes variables on its command line, the arguments being
    otherwise unchanged but for [--libdir]. *)
Theorem autotools_configure_assembles_compilers (h : Host) (p : Project)
    (t : CrossCompileTarget) :
  baremetal p = false ->
  crossCompileTarget p = Some t ->
  Forall (fun key => configureEnvironment p !! key = None)
         ["CFLAGS"; "CXXFLAGS"; "CPPFLAGS"; "LDFLAGS"] ->
  let env' := configureEnvironment (configured h p) in
  let args' := configureArgs (configured h p) in
  (forall base_configure,
      CrossCompileAutotoolsProject_configure h base_configure p
      = base_configure (configured h p))
  /\ env' !! "CC" = (if Py.truthy (CC_value h p) then Some (CC_value h p) else None)
  /\ env' !! "CXX" = (if Py.truthy (CXX_value h p) then Some (CXX_value h p) else None)
  /\ env' !! "LDFLAGS"
     = (if Py.truthy (LDFLAGS_value p) then Some (LDFLAGS_value p) else None)
  /\ map_Forall (fun _ value => Py.truthy value = true) env'
  /\ (if _configure_supports_variables_on_cmdline p
      then ("CC=" +:+ CC_value h p) ∈ args'
           /\ ("CXX=" +:+ CXX_value h p) ∈ args'
           /\ (Py.truthy (LDFLAGS_value p) = true ->
               ("LDFLAGS=" +:+ LDFLAGS_value p) ∈ args')
      else args' = configureArgs p
                   ++ (if compiling_for_cheri p && _configure_supports_libdir p
                       then ["--libdir=" +:+ installPrefix p +:+ "/libcheri"] else [])).
Proof.
  intros Hb Ht Hunset env' args'.
  split; [intros; by eapply autotools_configure_run|].
  destruct (assembled_env h p) as (tools & Henv & Htools).
  assert (Hld0 : configureEnvironment p !! "LDFLAGS" = None).
  { by repeat (apply Forall_cons_1 in Hunset as [? Hunset]). }
  subst env' args'. rewrite configured_env, configured_args, Henv.
  repeat split.
  - rewrite filter_truthy_lookup, Htools by done.
    destruct (Py.truthy (LDFLAGS_value p)); unfold id; cbv beta iota;
      rewrite ?lookup_insert_ne by done; by rewrite lookup_insert_eq.
  - rewrite filter_truthy_lookup, Htools by done.
    destruct (Py.truthy (LDFLAGS_value p)); unfold id; cbv beta iota;
      rewrite ?lookup_insert_ne by done; by rewrite lookup_insert_eq.
  - rewrite filter_truthy_lookup, Htools by done.
    destruct (Py.truthy (LDFLAGS_value p)) eqn:Hl; unfold id; cbv beta iota.
    + by rewrite lookup_insert_eq, Hl.
    + by rewrite !lookup_insert_ne, Hld0.
  - intros key value [_ Hv]%map_lookup_filter_Some. exact Hv.
  - destruct (assembled_args h p) as (more & -> & Hmore).
    destruct (_configure_supports_variables_on_cmdline p).
    + rewrite andb_true_r. repeat split; [| |intros ->]; rewrite !elem_of_app;
        rewrite ?list_elem_of_singleton; tauto.
    + rewrite andb_false_r, Hmore by done. by rewrite !app_nil_r.
Qed.
End AutotoolsConfigure.

(** ** Cross-compiled projects at example inputs *)
Section Witnesses.
Import CrossCompile.

(** The toolchain file of a native project: every placeholder of the native
    template is replaced. *)
Example native_toolchain_file_text :
  toolchain_file example_host (cmake_project example_host native_project)
  = inr native_toolchain_file.
Proof. vm_compute. reflexivity. Qed.

(** C8, as amended, at a MIPS project with flags of its own and a template
    with all fifteen placeholders, under CMake 3.8. *)
Lemma cmake_configure_writes_toolchain_file_first_witness :
  exists p' evs,
    (forall base_configure,
        CrossCompileCMakeProject_configure cmake_host base_configure
          (cmake_project cmake_host mips_cmake_project)
        = base_configure p')
    /\ log p' = [EInfo "Configuring Example"] ++ evs
                ++ [EWriteFile "/build/example/CheriBSDToolchain.cmake" mips_toolchain_file]
    /\ ("CMAKE_TOOLCHAIN_FILE", "/build/example/CheriBSDToolchain.cmake") ∈ cmake_options p'.
Proof.
  destruct (cmake_configure_writes_toolchain_file_first cmake_host mips_cmake_project MIPS
              eq_refl) as (_ & _ & _ & evs & _ & Hcases).
  assert (Hfile : toolchain_file cmake_host (cmake_project cmake_host mips_cmake_project)
                  = inr mips_toolchain_file) by (vm_compute; reflexivity).
  rewrite Hfile in Hcases.
  assert (Hat : Py.contains "@" mips_toolchain_file = false) by (vm_compute; reflexivity).
  rewrite Hat in Hcases. destruct Hcases as (_ & p' & Hrun & Hlog & Hopt).
  exists p', evs. split; [exact Hrun|]. split; [exact Hlog | exact Hopt].
Defined.

(** C8 fails as stated: for a native project whose SDK path holds an ["@"],
    every placeholder is replaced, but [configure] raises on the ["@"] of the
    path: no toolchain file is written and the configure of the base class
    (which would report "cmake") does not run. *)
Lemma cmake_configure_refuses_at_sign_in_a_value :
  toolchain_file cmake_host (cmake_project cmake_host at_sign_project)
  = inr at_sign_toolchain_text
  /\ exists p',
       CrossCompileCMakeProject_configure cmake_host (print "cmake")
         (cmake_project cmake_host at_sign_project)
       = Raised (AssertionError at_sign_toolchain_text) p'
       /\ log p' = [].
Proof.
  split; [vm_compute; reflexivity|].
  eexists. split; [vm_compute; reflexivity | reflexivity].
Qed.

(** C9, as amended, at a MIPS project. *)
Lemma autotools_configure_assembles_compilers_witness :
  configureEnvironment (configured example_host mips_project) !! "CC" = Some mips_CC.
Proof.
  apply (autotools_configure_assembles_compilers example_host mips_project MIPS);
    [reflexivity | reflexivity | repeat constructor].
Defined.

(** C9 fails as stated: a configure script that takes no variables on its
    command line gets CC in its environment only, and a native project with
    no linker flags gets no LDFLAGS at all. *)
Lemma autotools_configure_counterexample :
  let p' := final (CrossCompileAutotoolsProject_configure example_host (ret tt)
                     nginx_like_project) in
  let q' := final (CrossCompileAutotoolsProject_configure example_host (ret tt)
                     native_project) in
  baremetal nginx_like_project = false
  /\ configureEnvironment p' !! "CC" = Some (CC_value example_host nginx_like_project)
  /\ configureArgs p' = ["--prefix=/opt/mips/example"]
  /\ (("CC=" +:+ CC_value example_host nginx_like_project) ∉ configureArgs p')
  /\ baremetal native_project = false
  /\ configureEnvironment q' !! "LDFLAGS" = None.
Proof.
  cbv zeta. split; [reflexivity|]. split; [vm_compute; reflexivity|].
  split; [vm_compute; reflexivity|]. split; [|split; [reflexivity | vm_compute; reflexivity]].
  apply (proj1 (bool_decide_eq_false _)). vm_compute. reflexivity.
Qed.
End Witnesses.

(** ** QEMU: option values through the hooks *)
Section QemuOptions.
Import Qemu.

#[local] Instance same_opts_refl : Reflexive same_opts.
Proof. by intros s. Qed.
#[local] Instance same_opts_trans : Transitive same_opts.
Proof. unfold same_opts. intros s1 s2 s3 H1 H2. congruence. Qed.

#[local] Instance lto_off_refl : Reflexive lto_off_for_asan.
Proof. intros s. by left. Qed.
#[local] Instance lto_off_trans : Transitive lto_off_for_asan.
Proof.
  unfold lto_off_for_asan. intros s1 s2 s3 [H1|[Ha1 H1]] [H2|[Ha2 H2]].
  - left. congruence.
  - right. rewrite H1 in *. done.
  - right. split; [done | congruence].
  - right. split; [done|]. rewrite H2, H1. reflexivity.
Qed.

Lemma same_opts_lto s s' : same_opts s s' -> lto_off_for_asan s s'.
Proof. by left. Qed.

Lemma keeps_opts_is_lto {A} (m : M State A) :
  respects same_opts m -> respects lto_off_for_asan m.
Proof. intros Hm s. left. apply Hm. Qed.

Lemma emit_same_opts e s : same_opts s (emit e s).
Proof. reflexivity. Qed.

Lemma info_keeps msg : respects same_opts (info msg).
Proof. by apply (respects_console same_opts emit_same_opts). Qed.
Lemma warning_keeps msg : respects same_opts (warning msg).
Proof. by apply (respects_console same_opts emit_same_opts). Qed.
Lemma fatalError_keeps msg hint : respects same_opts (fatalError msg hint).
Proof. by apply (respects_console same_opts emit_same_opts). Qed.

Lemma add_required_system_tool_keeps name : respects same_opts (add_required_system_tool name).
Proof. by apply respects_modify. Qed.
Lemma add_required_pkg_config_keeps name : respects same_opts (add_required_pkg_config name).
Proof. by apply respects_modify. Qed.
Lemma make_args_set_keeps var value : respects same_opts (make_args_set var value).
Proof. by apply respects_modify. Qed.
Lemma append_configure_args_keeps args : respects same_opts (append_configure_args args).
Proof. by apply respects_modify. Qed.
Lemma append_COMMON_FLAGS_keeps flags : respects same_opts (append_COMMON_FLAGS flags).
Proof. by apply respects_modify. Qed.

Lemma run_cmd_keeps e argv cwd : respects same_opts (run_cmd e argv cwd).
Proof.
  unfold run_cmd. apply respects_bind; [apply _ | by apply respects_modify |]. intros _.
  apply respects_bind_get. intros s.
  destruct (exit_status e argv cwd (worktree s) =? 0)%nat; [|reflexivity].
  repeat case_match; try reflexivity.
Qed.

Ltac keeps :=
  repeat lazymatch goal with
    | H : respects same_opts ?m |- respects same_opts ?m => exact H
    | |- respects _ (info _) => apply info_keeps
    | |- respects _ (warning _) => apply warning_keeps
    | |- respects _ (fatalError _ _) => apply fatalError_keeps
    | |- respects _ (add_required_system_tool _) => apply add_required_system_tool_keeps
    | |- respects _ (add_required_pkg_config _) => apply add_required_pkg_config_keeps
    | |- respects _ (make_args_set _ _) => apply make_args_set_keeps
    | |- respects _ (append_configure_args _) => apply append_configure_args_keeps
    | |- respects _ (append_COMMON_FLAGS _) => apply append_COMMON_FLAGS_keeps
    | |- respects _ (run_cmd _ _ _) => apply run_cmd_keeps
    | |- respects _ (modify _) => by apply respects_modify
    | |- _ => respects_step
    end.

Lemma setup_smbd_keeps e : respects same_opts (setup_smbd e).
Proof. unfold setup_smbd. keeps. Qed.

Lemma BuildQEMUBase_setup_keeps e base_setup :
  respects same_opts base_setup -> respects same_opts (BuildQEMUBase_setup e base_setup).
Proof. intros Hbase. unfold BuildQEMUBase_setup. keeps. apply setup_smbd_keeps. Qed.

Lemma BuildSystemQEMU_setup_keeps e base_setup :
  respects same_opts base_setup -> respects same_opts (BuildSystemQEMU_setup e base_setup).
Proof.
  intros Hbase. unfold BuildSystemQEMU_setup.
  apply respects_bind; [apply _ | by apply BuildQEMUBase_setup_keeps | intros _]. keeps.
Qed.

Lemma BuildBsdUserQEMU_setup_keeps e base_setup :
  respects same_opts base_setup -> respects same_opts (BuildBsdUserQEMU_setup e base_setup).
Proof.
  intros Hbase. unfold BuildBsdUserQEMU_setup.
  apply respects_bind; [apply _ | by apply BuildQEMUBase_setup_keeps | intros _]. keeps.
Qed.

Lemma BuildQEMUBase_update_keeps e base_update :
  respects same_opts base_update -> respects same_opts (BuildQEMUBase_update e base_update).
Proof. intros Hbase. unfold BuildQEMUBase_update. keeps. Qed.

Lemma BuildQEMUBase_init_lto e base_init :
  respects same_opts base_init -> respects lto_off_for_asan (BuildQEMUBase_init e base_init).
Proof.
  intros Hbase. unfold BuildQEMUBase_init.
  apply respects_bind; [apply _ | by apply keeps_opts_is_lto | intros _].
  do 11 (apply respects_bind; [apply _ | apply keeps_opts_is_lto; keeps | intros _]).
  apply respects_bind; [apply _ | | intros _].
  2:{ apply keeps_opts_is_lto. keeps. }
  apply respects_bind_get. intros s.
  destruct (use_asan (opts s)) eqn:Hasan; [|by left].
  right. split; [done|].
  cbv [when bind get modify ret info append_configure_args append_COMMON_FLAGS]. cbn.
  by destruct (use_lto (opts s)).
Qed.

Lemma BuildQEMU_setup_rest_keeps e base_setup :
  respects same_opts base_setup ->
  respects same_opts
    (BuildSystemQEMU_setup e base_setup ;;;
     s <- get ;;
     when (bool_decide (build_type (opts s) = DEBUG))
       (append_COMMON_FLAGS ["-DENABLE_CHERI_SANITIY_CHECKS=1"]) ;;;
     append_configure_args ["--disable-capstone"]).
Proof.
  intros Hbase.
  apply respects_bind; [apply _ | by apply BuildSystemQEMU_setup_keeps | intros _]. keeps.
Qed.

Lemma BuildQEMU_init_lto e base_init :
  respects same_opts base_init -> respects lto_off_for_asan (BuildQEMU_init e base_init).
Proof.
  intros Hbase. unfold BuildQEMU_init.
  apply respects_bind; [apply _ | by apply BuildQEMUBase_init_lto | intros _].
  apply keeps_opts_is_lto. keeps.
Qed.

Lemma BuildQEMU_setup_options e base_setup s :
  respects same_opts base_setup ->
  opts (final (BuildQEMU_setup e base_setup s))
  = (if adds_morello e s
     then set_qemu_targets (qemu_targets (opts s) +:+ ",morello-softmmu") (opts s)
     else opts s).
Proof.
  intros Hsetup. unfold BuildQEMU_setup. rewrite bind_get.
  pose proof (BuildQEMU_setup_rest_keeps e base_setup Hsetup) as Hrest.
  unfold adds_morello.
  destruct (negb (Py.contains "morello-softmmu" (qemu_targets (opts s)))
            && path_exists e (morello_mak e)); cbn [when andb];
    [destruct (qemu_targets_is_default (opts s)); cbn [when]|];
    rewrite ?bind_modify, ?bind_ret; apply Hrest.
Qed.

End QemuOptions.

(** ** QEMU: the smbd check of [setup] *)
Section QemuSmbd.
Import Qemu.

#[local] Instance log_grows_refl : Reflexive log_grows.
Proof. by intros s ev. Qed.
#[local] Instance log_grows_trans : Transitive log_grows.
Proof. intros s1 s2 s3 H1 H2 ev Hev. by apply H2, H1. Qed.

Lemma emit_log_grows e s : log_grows s (emit e s).
Proof. intros ev Hev. cbn. apply elem_of_app. by left. Qed.

Lemma modify_log_same (f : State -> State) :
  (forall s, log (f s) = log s) -> respects log_grows (modify f).
Proof. intros Hf s ev. unfold modify; cbn. by rewrite Hf. Qed.

Ltac grows :=
  repeat lazymatch goal with
    | H : respects log_grows ?m |- respects log_grows ?m => exact H
    | |- respects _ (info _) => apply (respects_console log_grows emit_log_grows)
    | |- respects _ (warning _) => apply (respects_console log_grows emit_log_grows)
    | |- respects _ (fatalError _ _) => apply (respects_console log_grows emit_log_grows)
    | |- respects _ (add_required_system_tool _) => by apply modify_log_same
    | |- respects _ (make_args_set _ _) => by apply modify_log_same
    | |- respects _ (append_configure_args _) => by apply modify_log_same
    | |- respects _ (append_COMMON_FLAGS _) => by apply modify_log_same
    | |- respects _ (modify _) => by apply modify_log_same
    | |- _ => respects_step
    end.

Lemma setup_smbd_missing e s :
  path_exists e (resolved_smbd_path e) = false ->
  exists s', pretending s' = pretending s
             /\ setup_smbd e s
                = fatalError smbd_fatal_message (Some (smbd_fixit_hint e)) s'.
Proof.
  intros Hmissing. unfold setup_smbd. rewrite Hmissing. cbn [negb when].
  destruct (bool_decide (os e = MacOS)); cbn [when];
    unfold info, warning, add_required_system_tool, append_configure_args;
    rewrite ?bind_ret, ?bind_modify; eexists; (split; [|reflexivity]); reflexivity.
Qed.

Lemma fatal_then (msg : string) (hint : option string) (k : unit -> M State unit) s :
  respects log_grows (k tt) ->
  EFatal msg hint ∈ log (final (bind (fatalError msg hint) k s))
  /\ (pretending s = false ->
      bind (fatalError msg hint) k s = Exit 3 (emit (EFatal msg hint) s)).
Proof.
  intros Hk. unfold bind, fatalError. cbn [pretend State_console].
  destruct (pretending s).
  - split; [|done]. apply Hk. cbn. apply elem_of_app. right. by apply list_elem_of_singleton.
  - split; [|done]. cbn. apply elem_of_app. right. by apply list_elem_of_singleton.
Qed.

(** C7: when the setup of the base class has returned, [use_smbd] is on and
    nothing exists at the smbd path [setup] settles on, [setup] reports the
    fatal error "Could not find smbd ..." and the error carries the hint,
    word for word, to install samba with the system package manager or with
    cheribuild, or to pass [--<target>/no-use-smbd] for the target being
    built; outside pretend mode the run ends there with exit status 3. *)
Theorem missing_smbd_is_fatal (e : Env) (base_setup : M State unit) (s s1 : State) :
  base_setup s = Done tt s1 ->
  use_smbd (opts s1) = true ->
  path_exists e (resolved_smbd_path e) = false ->
  EFatal "Could not find smbd -> QEMU SMB shares networking will not work"
         (Some ("Either install samba using the system package manager or with cheribuild. If you really don't need QEMU host shares you can disable the samba dependency by setting --"
                +:+ target e +:+ "/no-use-smbd"))
    ∈ log (final (BuildQEMUBase_setup e base_setup s))
  /\ (pretending s1 = false ->
      exists s', BuildQEMUBase_setup e base_setup s = Exit 3 s').
Proof.
  intros Hbase Hsmbd Hmissing.
  change (EFatal _ _) with (EFatal smbd_fatal_message (Some (smbd_fixit_hint e))).
  unfold BuildQEMUBase_setup.
  rewrite (bind_done _ _ _ _ _ Hbase).
  destruct (String.eqb _ _ || _); cbn [when]; rewrite ?bind_ret, !bind_modify, bind_get;
    cbn [opts set_common_warning_flags set_CFLAGS]; rewrite Hsmbd; cbn [when];
    match goal with
    | |- context [bind (setup_smbd e) ?k ?s2] =>
        destruct (setup_smbd_missing e s2 Hmissing) as (s3 & Hp & Hrun);
        rewrite (bind_same _ _ k _ _ Hrun);
        assert (Hk : respects log_grows (k tt)) by grows;
        destruct (fatal_then smbd_fatal_message (Some (smbd_fixit_hint e)) k s3 Hk)
          as [Hin Hexit]
    end;
    (split; [exact Hin | intros Hnp; eexists; apply Hexit; by rewrite Hp]).
Qed.
End QemuSmbd.

(** ** QEMU: the working copy through [update] *)
Section QemuUpdate.
Import Qemu.

Lemma checkout_head_lookup (dir : string) (w : gmap string Tracked) (path : string) :
  checkout_head dir w !! path
  = (fun f => if String.prefix dir path then at_HEAD f else f) <$> w !! path.
Proof.
  unfold checkout_head. rewrite map_lookup_imap.
  destruct (w !! path); reflexivity.
Qed.

Lemma tracks_under_iff (dir : string) (w : gmap string Tracked) :
  tracks_under dir w = true
  <-> exists path f, w !! path = Some f /\ String.prefix dir path = true.
Proof.
  unfold tracks_under. rewrite existsb_exists. split.
  - intros ([path f] & Hin & Hprefix). exists path, f. split; [|exact Hprefix].
    apply elem_of_map_to_list. by apply list_elem_of_In.
  - intros (path & f & Hlookup & Hprefix). exists (path, f). split; [|exact Hprefix].
    apply list_elem_of_In. by apply elem_of_map_to_list.
Qed.

Lemma tracks_under_false (dir : string) (w : gmap string Tracked) :
  (forall path f, w !! path = Some f -> String.prefix dir path = false) ->
  tracks_under dir w = false.
Proof.
  intros Hnone. destruct (tracks_under dir w) eqn:Ht; [|done].
  apply tracks_under_iff in Ht as (path & f & Hlookup & Hprefix).
  rewrite (Hnone path f Hlookup) in Hprefix. discriminate.
Qed.

(** C3, as amended: when po/ is no directory or updates are skipped,
    [update] leaves the working copy alone.  Otherwise it runs
    [git checkout HEAD po/]: when that command succeeds, the tracked files
    under po/ are back at [HEAD], local modifications there are gone without
    a warning, and every other tracked file is as it was; when it fails, as
    it does when nothing under po/ is tracked, [update] ends there with a
    fatal error, the working copy untouched and the update of the base class
    not reached.  The only warning [update] gives itself is about an existing
    pixman/pixman; it then runs the update of the base class. *)
Theorem update_resets_po_and_keeps_the_rest (e : Env) (base_update : M State unit)
    (s : State) :
  let git := ["git"; "checkout"; "HEAD"; "po/"] in
  let pixman_warning :=
    if path_exists e (source_dir e // "pixman/pixman")
    then [EWarning "QEMU might build the broken pixman submodule, run `git submodule deinit -f pixman` to clean"]
    else [] in
  (is_dir e (source_dir e // "po") && negb (skip_update e) = false ->
   exists s1,
     BuildQEMUBase_update e base_update s = base_update s1
     /\ worktree s1 = worktree s
     /\ log s1 = log s ++ pixman_warning)
  /\ (is_dir e (source_dir e // "po") && negb (skip_update e) = true ->
      (exists path f, worktree s !! path = Some f /\ String.prefix "po/" path = true) ->
      cmd_status e git (source_dir e) = 0%nat ->
      exists s1,
        BuildQEMUBase_update e base_update s = base_update s1
        /\ (forall path,
              worktree s1 !! path
              = (fun f => if String.prefix "po/" path then at_HEAD f else f)
                  <$> worktree s !! path)
        /\ log s1 = log s ++ [ERunCmd git (source_dir e)] ++ pixman_warning)
  /\ (is_dir e (source_dir e // "po") && negb (skip_update e) = true ->
      (forall path f, worktree s !! path = Some f -> String.prefix "po/" path = false)
      \/ cmd_status e git (source_dir e) <> 0%nat ->
      exists s' msg,
        BuildQEMUBase_update e base_update s = Exit 3 s'
        /\ worktree s' = worktree s
        /\ log s' = log s ++ [ERunCmd git (source_dir e); EFatal msg None]).
Proof.
  cbv zeta. unfold BuildQEMUBase_update. repeat split.
  - intros ->. cbn [when]. rewrite bind_ret.
    destruct (path_exists e (source_dir e // "pixman/pixman")); cbn [when]; unfold warning;
      rewrite ?bind_modify, ?bind_ret; eexists; (split; [reflexivity|]);
      (split; [reflexivity | cbn; by rewrite ?app_nil_r]).
  - intros -> Htracked Hstatus. cbn [when]. unfold run_cmd.
    rewrite !bind_assoc, bind_modify, bind_assoc, bind_get.
    cbn [worktree emit State_console set_log exit_status].
    rewrite (proj2 (tracks_under_iff _ _) Htracked), Hstatus. cbn [Nat.eqb].
    rewrite bind_modify.
    destruct (path_exists e (source_dir e // "pixman/pixman")); cbn [when]; unfold warning;
      rewrite ?bind_modify, ?bind_ret; eexists; (split; [reflexivity|]);
      (split; [intros path; cbn [worktree emit State_console set_log set_worktree];
               by rewrite checkout_head_lookup
              | cbn; by rewrite <- ?app_assoc, ?app_nil_r]).
  - intros -> Hfails. cbn [when]. unfold run_cmd.
    rewrite !bind_assoc, bind_modify, bind_assoc, bind_get.
    cbn [worktree emit State_console set_log exit_status].
    assert (Hstatus : ((if tracks_under "po/" (worktree s)
                        then cmd_status e ["git"; "checkout"; "HEAD"; "po/"] (source_dir e)
                        else 1) =? 0)%nat = false).
    { destruct Hfails as [Hnone | Hstatus].
      - by rewrite (tracks_under_false _ _ Hnone).
      - destruct (tracks_under "po/" (worktree s)); [|done]. by apply Nat.eqb_neq. }
    rewrite Hstatus. unfold bind.
    eexists _, _. split; [reflexivity|]. split; [reflexivity|].
    cbn. by rewrite <- app_assoc.
Qed.

(** C3, as amended, on a checkout with a modified translation file. *)
Lemma update_resets_po_and_keeps_the_rest_witness :
  exists s1,
    BuildQEMUBase_update example_env (ret tt) example_state = Done tt s1
    /\ (forall path,
          worktree s1 !! path
          = (fun f => if String.prefix "po/" path then at_HEAD f else f)
              <$> worktree example_state !! path)
    /\ log s1 = [ERunCmd ["git"; "checkout"; "HEAD"; "po/"] "/src/qemu"].
Proof.
  apply (proj1 (proj2 (update_resets_po_and_keeps_the_rest
                         example_env (ret tt) example_state)));
    [reflexivity | | reflexivity].
  exists "po/de.po", {| at_head := "msgstr alt"; in_worktree := "msgstr neu" |}.
  split; [vm_compute; reflexivity | reflexivity].
Defined.

(** C3 fails as stated: a local modification under po/ is gone after
    [update], and no warning was given. *)
Lemma update_discards_po_changes :
  let s' := final (BuildQEMUBase_update example_env (ret tt) example_state) in
  (locally_modified <$> worktree example_state !! "po/de.po") = Some true
  /\ (locally_modified <$> worktree s' !! "po/de.po") = Some false
  /\ (in_worktree <$> worktree s' !! "po/de.po") = Some "msgstr alt"
  /\ log s' = [ERunCmd ["git"; "checkout"; "HEAD"; "po/"] "/src/qemu"].
Proof. vm_compute. repeat split. Qed.
End QemuUpdate.

(** ** QEMU at example inputs *)
Section QemuWitnesses.
Import Qemu.

(** C1 fails as stated: [setup] changes the resolved [qemu_targets] and
    [__init__] changes the resolved [use_lto]. *)
Lemma hooks_change_resolved_options :
  let after_setup := final (BuildQEMU_setup example_env (ret tt) example_state) in
  let after_init := final (BuildQEMU_init example_env (ret tt) example_state) in
  qemu_targets (opts after_setup)
  = qemu_targets (opts example_state) +:+ ",morello-softmmu"
  /\ qemu_targets (opts after_setup) <> qemu_targets (opts example_state)
  /\ use_lto (opts example_state) = true
  /\ use_lto (opts after_init) = false.
Proof. vm_compute. repeat split. discriminate. Qed.

(** C7 on a FreeBSD host without smbd. *)
Lemma missing_smbd_is_fatal_witness :
  EFatal "Could not find smbd -> QEMU SMB shares networking will not work"
         (Some "Either install samba using the system package manager or with cheribuild. If you really don't need QEMU host shares you can disable the samba dependency by setting --qemu/no-use-smbd")
    ∈ log (final (BuildQEMUBase_setup example_env (ret tt) smbd_state))
  /\ (pretending smbd_state = false ->
      exists s', BuildQEMUBase_setup example_env (ret tt) smbd_state = Exit 3 s').
Proof.
  apply (missing_smbd_is_fatal example_env (ret tt) smbd_state smbd_state);
    reflexivity.
Defined.
End QemuWitnesses.

(** ** FETT: the rootfs manifest through [install] *)
Section FettInstall.
Import Fett.

#[local] Instance additive_refl file : Reflexive (additive file).
Proof. intros s. split; [done | by left]. Qed.

#[local] Instance additive_trans file : Transitive (additive file).
Proof.
  intros s1 s2 s3 [Hm12 Hd12] [Hm23 Hd23]. split; [by etrans|].
  destruct Hd12 as [Hd12 | (m1 & Hd12 & Hm1)], Hd23 as [Hd23 | (m2 & Hd23 & Hm2)].
  - left. congruence.
  - right. exists m2. rewrite Hd23, Hd12. split; [done | by etrans; [exact Hm12|]].
  - right. exists m1. rewrite Hd23, Hd12. done.
  - right. exists m2. rewrite Hd23, Hd12, insert_insert_eq.
    split; [done | by etrans; [exact Hm12|]].
Qed.

Lemma add_file_additive target file path_in_image mode symlink :
  respects (additive target) (mtree_add_file file path_in_image mode symlink).
Proof.
  apply respects_modify. intros s. split; [|by left]. cbn.
  rewrite dom_insert_L. apply union_subseteq_r.
Qed.

Lemma add_dir_additive target path uname gname :
  respects (additive target) (mtree_add_dir path uname gname).
Proof.
  apply respects_modify. intros s. split; [|by left]. cbn.
  rewrite dom_insert_L. apply union_subseteq_r.
Qed.

Lemma write_additive target : respects (additive target) (mtree_write target).
Proof. apply respects_modify. intros s. split; [done|]. right. by exists (mtree s). Qed.

Lemma relative_to_root_additive target p : respects (additive target) (relative_to_root p).
Proof. intros s. unfold relative_to_root. repeat case_match; reflexivity. Qed.

Lemma for_each_additive {A} target (l : list A) (body : A -> M State unit) :
  (forall x, respects (additive target) (body x)) -> respects (additive target) (for_each l body).
Proof.
  intros Hbody. induction l as [|x l IH]; cbn [for_each].
  - apply respects_ret. apply _.
  - apply respects_bind; [apply _ | apply Hbody | intros _; exact IH].
Qed.

Lemma load_additive target : respects (additive target) (mtree_load target).
Proof.
  apply respects_modify. intros s. split; [|by left]. cbn.
  rewrite dom_union_L. apply union_subseteq_r.
Qed.

Ltac additive_steps :=
  repeat lazymatch goal with
    | |- respects _ (mtree_add_file _ _ _ _) => apply add_file_additive
    | |- respects _ (mtree_add_dir _ _ _) => apply add_dir_additive
    | |- respects _ (mtree_write _) => apply write_additive
    | |- respects _ (mtree_load _) => apply load_additive
    | |- respects _ (relative_to_root _) => apply relative_to_root_additive
    | |- respects _ (for_each _ _) => apply for_each_additive; intros ?
    | |- _ => respects_step
    end.

Lemma install_manifest_additive e : respects (additive (METALOG e)) (install_manifest e).
Proof. unfold install_manifest. cbv zeta. additive_steps. Qed.

Lemma install_additive e : respects (additive (METALOG e)) (install e).
Proof.
  unfold install. apply respects_if; [apply respects_ret; apply _|].
  apply respects_bind_get. intros s.
  destruct (negb _).
  - unfold bind, fatalError. cbn. destruct (pretending s); cbn; (split; [done | by left]).
  - apply install_manifest_additive.
Qed.









(** C10, as amended: [os.getenv] counts as true exactly when the variable
    is set to a non-empty value; then [install] returns at once, the state
    untouched.  Otherwise, without METALOG, it reports the fatal error and
    leaves manifest and file system as they were; and only with METALOG
    present does it run the load, add and write sequence. *)
Theorem install_guards (e : Env) (s : State) :
  (getenv_truthy e "_TEST_SKIP_METALOG" = true
   <-> exists value, environ e !! "_TEST_SKIP_METALOG" = Some value /\ value <> "")
  /\ if getenv_truthy e "_TEST_SKIP_METALOG" then install e s = Done tt s
     else match disk s !! METALOG e with
          | None =>
              let s' := emit (EFatal ("METALOG " +:+ METALOG e +:+ "does not exist") None) s in
              install e s = (if pretending s then Done tt s' else Exit 3 s')
              /\ mtree s' = mtree s /\ disk s' = disk s
          | Some _ => install e s = install_manifest e s
          end.
Proof.
  split.
  - unfold getenv_truthy, getenv.
    destruct (environ e !! "_TEST_SKIP_METALOG") as [[|c v]|]; cbn; split;
      try done; try (by intros (? & ? & ?)).
    + intros (value & [= <-] & Hne). done.
    + intros _. by eexists.
  - unfold install. destruct (getenv_truthy e "_TEST_SKIP_METALOG"); [done|].
    rewrite bind_get. destruct (disk s !! METALOG e) as [m0|] eqn:Hfile.
    + by rewrite bool_decide_eq_true_2.
    + rewrite bool_decide_eq_false_2 by (by intros [? ?]). cbn [negb].
      unfold bind, fatalError. cbn. by destruct (pretending s).
Qed.



(** C10 fails as stated: with _TEST_SKIP_METALOG set to the empty string
    [install] does rewrite METALOG. *)
Lemma install_runs_with_empty_skip_variable :
  let e := example_fett_env {[ "_TEST_SKIP_METALOG" := "" ]} in
  let s' := final (install e example_fett_state) in
  environ e !! "_TEST_SKIP_METALOG" = Some ""
  /\ (disk example_fett_state !! METALOG e ≫= (fun m => kind <$> m !! "etc/rc.d/fett_sshd"))
     = None
  /\ (disk s' !! METALOG e ≫= (fun m => kind <$> m !! "etc/rc.d/fett_sshd")) = Some KFile.
Proof. vm_compute. repeat split. Qed.
End FettInstall.

(** ** Option values through [CrossCompileMixin.__init__] *)
Section FinalStates.
Context {S A B : Type}.

Lemma final_bind (m : M S A) (k : A -> M S B) (s : S) :
  final (bind m k s)
  = match m s with
    | Done a s1 => final (k a s1)
    | Exit _ s1 | Raised _ s1 => s1
    end.
Proof. unfold bind. by destruct (m s). Qed.

End FinalStates.

Section MixinInit.
Import CrossCompile CrossCompileInit.

#[local] Instance same_mixin_options_refl : Reflexive same_mixin_options.
Proof. by intros s. Qed.
#[local] Instance same_mixin_options_trans : Transitive same_mixin_options.
Proof. unfold same_mixin_options. intros s1 s2 s3 H1 H2. intuition congruence. Qed.
#[local] Instance init_frame_refl : Reflexive init_frame.
Proof. by intros s. Qed.
#[local] Instance init_frame_trans : Transitive init_frame.
Proof. unfold init_frame. intros s1 s2 s3 H1 H2. intuition congruence. Qed.
#[local] Instance init_frame_dirs_refl : Reflexive init_frame_dirs.
Proof. by intros s. Qed.
#[local] Instance init_frame_dirs_trans : Transitive init_frame_dirs.
Proof. unfold init_frame_dirs, init_frame. intros s1 s2 s3 H1 H2. intuition congruence. Qed.

Lemma init_frame_dirs_frame {A} (m : M Self A) :
  respects init_frame_dirs m -> respects init_frame m.
Proof. intros Hm s. apply Hm. Qed.

Ltac frame_step :=
  repeat lazymatch goal with
    | |- respects _ (append_flags _) => by apply respects_modify
    | |- respects _ (modify _) => by apply respects_modify
    | |- respects _ (match ?x with _ => _ end) => destruct x
    | |- _ => respects_step
    end.

Lemma cross_flags_frame : respects init_frame_dirs cross_flags.
Proof. unfold cross_flags. cbv zeta. frame_step. Qed.

Lemma native_init_frame e : respects init_frame (native_init e).
Proof. unfold native_init. frame_step. Qed.

Lemma cross_install_dirs_frame triple : respects init_frame (cross_install_dirs triple).
Proof. unfold cross_install_dirs. frame_step. Qed.

Lemma CrossCompileMixin_init_frame e :
  respects init_frame (CrossCompileMixin_init e (ret tt) None).
Proof.
  unfold CrossCompileMixin_init.
  repeat lazymatch goal with
    | |- respects _ (native_init _) => apply native_init_frame
    | |- respects _ cross_flags => apply init_frame_dirs_frame, cross_flags_frame
    | |- respects _ (cross_install_dirs _) => apply cross_install_dirs_frame
    | |- _ => frame_step
    end.
Qed.

Lemma final_bind_keeps {S A B X} (R : S -> S -> Prop) (f : S -> X)
    (m : M S A) (k : A -> M S B) (s : S) :
  (forall a, respects R (k a)) ->
  (forall s1 s2, R s1 s2 -> f s2 = f s1) ->
  f (final (bind m k s)) = f (final (m s)).
Proof.
  intros Hk Hf. unfold bind. destruct (m s) as [a s1| |]; cbn; [|done..].
  apply Hf, Hk.
Qed.

Lemma native_init_installDir e y :
  installDir (final (native_init e y))
  = default (installDir y) (assigned_installDir (Some NATIVE) y).
Proof.
  unfold native_init. rewrite bind_modify, bind_get, bind_modify. cbn.
  destruct (crossInstallDir y); cbn; [|done..].
  unfold assert. by destruct (bool_decide _).
Qed.

Lemma cross_flags_run y :
  match crossCompileTarget y with
  | Some CHERI =>
      exists y', cross_flags y
                 = Done (if negb (baremetal y) then "cheri-unknown-freebsd"
                         else "cheri-qemu-elf") y'
                 /\ init_frame_dirs y y'
  | Some MIPS =>
      exists y', cross_flags y
                 = Done (if negb (baremetal y) then "mips64-unknown-freebsd"
                         else "mips64-qemu-elf") y'
                 /\ init_frame_dirs y y'
  | _ => exists exn y', cross_flags y = Raised exn y' /\ init_frame_dirs y y'
  end.
Proof.
  pose proof (cross_flags_frame y) as Hframe. revert Hframe.
  unfold cross_flags. rewrite bind_get, bind_modify.
  destruct y as [cfg name bdir policy bare target idir mxgot lnk dbg opt relocs
                 cdir triple sysroot prefix ddir common cflags cxxflags asmflags ldflags].
  cbn [crossCompileTarget baremetal useMxgot projectName config].
  destruct target as [[]|], bare, mxgot, (String.eqb name "newlib-baremetal");
    cbn; intros Hframe; eauto.
Qed.

Lemma cross_install_dirs_installDir triple y :
  installDir (final (cross_install_dirs triple y))
  = if bool_decide (crossInstallDir y = SDK) && baremetal y
    then Some (sdkDir (config y) // "baremetal" // triple)
    else installDir y.
Proof.
  unfold cross_install_dirs. rewrite bind_get, bind_modify.
  destruct y as [cfg name bdir policy bare target idir mxgot lnk dbg opt relocs
                 cdir triple0 sysroot prefix ddir common cflags cxxflags asmflags ldflags].
  cbn [crossInstallDir baremetal installDir config installPrefix destdir].
  destruct policy, bare; cbn; try reflexivity.
  - unfold assert. by destruct (_ && _).
  - unfold assert. by destruct (_ && _).
  - destruct idir as [dir|]; [|reflexivity].
    by destruct (relative_to dir (cheribsd_rootfsDir cfg)).
  - destruct idir as [dir|]; [|reflexivity].
    by destruct (relative_to dir (cheribsd_rootfsDir cfg)).
Qed.

Lemma branch_installDir e x y :
  init_frame_dirs x y ->
  installDir
    (final ((if decide (crossCompileTarget x = Some NATIVE) then native_init e
             else triple <- cross_flags ;; cross_install_dirs triple) y))
  = default (installDir x) (assigned_installDir (crossCompileTarget x) x).
Proof.
  intros ((Hcfg & Hname & Hbuild & Hpolicy & Hbare & Htarget & _) & Hdir & Hsysroot).
  destruct (decide (crossCompileTarget x = Some NATIVE)) as [Hnative | Hcross].
  - rewrite native_init_installDir, Hnative. cbn. by rewrite Hpolicy, Hcfg, Hbuild, Hdir.
  - pose proof (cross_flags_run y) as Hrun. rewrite Htarget in Hrun.
    destruct (crossCompileTarget x) as [[]|] eqn:Hx; [done|..].
    + destruct Hrun as (y' & Hrun & (Hcfg' & _ & _ & Hpolicy' & Hbare' & _) & Hdir' & _).
      rewrite (bind_done _ _ _ _ _ Hrun), cross_install_dirs_installDir.
      rewrite Hpolicy', Hbare', Hcfg', Hdir', Hpolicy, Hbare, Hcfg, Hdir. cbn.
      by destruct (bool_decide (crossInstallDir x = SDK)), (baremetal x).
    + destruct Hrun as (y' & Hrun & (Hcfg' & _ & _ & Hpolicy' & Hbare' & _) & Hdir' & _).
      rewrite (bind_done _ _ _ _ _ Hrun), cross_install_dirs_installDir.
      rewrite Hpolicy', Hbare', Hcfg', Hdir', Hpolicy, Hbare, Hcfg, Hdir. cbn.
      by destruct (bool_decide (crossInstallDir x = SDK)), (baremetal x).
    + destruct Hrun as (exn & y' & Hrun & _ & Hdir' & _).
      unfold bind. rewrite Hrun. cbn. by rewrite Hdir', Hdir.
Qed.

Lemma init_tail_frame :
  respects init_frame_dirs
    (self <- get ;; when (debugInfo self) (append_flags ["-ggdb"]) ;;;
     modify reset_language_flags).
Proof. frame_step. Qed.

Lemma CrossCompileMixin_init_plain e x :
  let self' := final (CrossCompileMixin_init e (ret tt) None x) in
  init_frame x self'
  /\ installDir self' = default (installDir x) (assigned_installDir (crossCompileTarget x) x).
Proof.
  split.
  - apply CrossCompileMixin_init_frame.
  - unfold CrossCompileMixin_init. rewrite !bind_ret, bind_get, bind_modify.
    assert (Htail : forall y, init_frame_dirs x y ->
              installDir
                (final (((if decide (crossCompileTarget x = Some NATIVE) then native_init e
                          else triple <- cross_flags ;; cross_install_dirs triple) ;;;
                         self <- get ;; when (debugInfo self) (append_flags ["-ggdb"]) ;;;
                         modify reset_language_flags) y))
              = default (installDir x) (assigned_installDir (crossCompileTarget x) x)).
    { intros y Hy.
      rewrite (final_bind_keeps init_frame_dirs installDir).
      - by apply branch_installDir.
      - intros _. apply init_tail_frame.
      - by intros s1 s2 (_ & Hdir & _). }
    destruct (bool_decide (crossCompileTarget x = Some NATIVE)); cbn [when];
      [destruct (file_exists e (BuildLLVM_buildDir e // "bin/clang")); cbn [when]|];
      rewrite ?bind_ret, ?bind_modify; by apply Htail.
Qed.

Lemma CrossCompileMixin_init_split e base_init target_arch s s1 :
  base_init s = Done tt s1 ->
  CrossCompileMixin_init e base_init target_arch s
  = CrossCompileMixin_init e (ret tt) None
      (match target_arch with
       | Some arch => set_crossCompileTarget (Some arch) s1
       | None => s1
       end).
Proof.
  intros Hbase. unfold CrossCompileMixin_init.
  rewrite (bind_done _ _ _ _ _ Hbase), !bind_ret.
  destruct target_arch; by rewrite ?bind_modify, ?bind_ret.
Qed.

Lemma CrossCompileMixin_init_options e base_init target_arch s s1 :
  base_init s = Done tt s1 ->
  let target := match target_arch with
                | Some arch => Some arch
                | None => crossCompileTarget s1
                end in
  let self' := final (CrossCompileMixin_init e base_init target_arch s) in
  useMxgot self' = useMxgot s1
  /\ linker self' = linker s1
  /\ debugInfo self' = debugInfo s1
  /\ optimizationFlags self' = optimizationFlags s1
  /\ newCapRelocs self' = newCapRelocs s1
  /\ crossCompileTarget self' = target
  /\ installDir self' = default (installDir s1) (assigned_installDir target s1).
Proof.
  intros Hbase. cbv zeta. rewrite (CrossCompileMixin_init_split _ _ _ _ _ Hbase).
  destruct (CrossCompileMixin_init_plain e
              (match target_arch with
               | Some arch => set_crossCompileTarget (Some arch) s1
               | None => s1
               end))
    as ((_ & _ & _ & _ & _ & Htarget & Hmxgot & Hlinker & Hdebug & Hopt & Hrelocs) & Hdir).
  rewrite Hmxgot, Hlinker, Hdebug, Hopt, Hrelocs, Htarget, Hdir.
  by destruct target_arch.
Qed.

End MixinInit.

(** ** Option values through the hooks of cross-compiled projects *)
Section ProjectOptions.
Import CrossCompile.

#[local] Instance same_project_options_refl : Reflexive same_project_options.
Proof. by intros p. Qed.
#[local] Instance same_project_options_trans : Transitive same_project_options.
Proof. unfold same_project_options. intros p1 p2 p3 H1 H2. intuition congruence. Qed.

Lemma emit_same_project_options e p : same_project_options p (emit e p).
Proof. by destruct p. Qed.

Ltac keeps_project :=
  repeat lazymatch goal with
    | H : respects same_project_options ?m |- respects same_project_options ?m => exact H
    | |- respects _ (info _) => by apply (respects_console same_project_options emit_same_project_options)
    | |- respects _ (warning _) => by apply (respects_console same_project_options emit_same_project_options)
    | |- respects _ (print _) => by apply (respects_console same_project_options emit_same_project_options)
    | |- respects _ (fatalError _ _) => by apply (respects_console same_project_options emit_same_project_options)
    | |- respects _ (add_cmake_options _ _) => by apply respects_modify
    | |- respects _ (writeFile _ _) => by apply respects_modify
    | |- respects _ (createSymlink _ _) => by apply respects_modify
    | |- respects _ (makedirs _) => by apply respects_modify
    | |- respects _ (modify _) => by apply respects_modify
    | |- respects _ (match ?x with _ => _ end) => destruct x
    | |- _ => respects_step
    end.

Lemma default_ldflags_keeps : respects same_project_options default_ldflags.
Proof. unfold default_ldflags. keeps_project. Qed.

Lemma CrossCompileMixin_configure_keeps base_configure :
  respects same_project_options base_configure ->
  respects same_project_options (CrossCompileMixin_configure base_configure).
Proof. intros Hbase. unfold CrossCompileMixin_configure. keeps_project. Qed.

Lemma CrossCompileCMakeProject_init_keeps h :
  respects same_project_options (CrossCompileCMakeProject_init h).
Proof. unfold CrossCompileCMakeProject_init. keeps_project. Qed.

Lemma _prepareToolchainFile_keeps kwargs :
  respects same_project_options (_prepareToolchainFile kwargs).
Proof. unfold _prepareToolchainFile. keeps_project. Qed.

Lemma cmake_common_flags_keeps h : respects same_project_options (cmake_common_flags h).
Proof. unfold cmake_common_flags. keeps_project. Qed.

Lemma CrossCompileCMakeProject_configure_keeps h base_configure :
  respects same_project_options base_configure ->
  respects same_project_options (CrossCompileCMakeProject_configure h base_configure).
Proof.
  intros Hbase. unfold CrossCompileCMakeProject_configure.
  apply respects_bind; [apply _ | apply cmake_common_flags_keeps | intros common_flags].
  apply respects_bind; [apply _ | apply default_ldflags_keeps | intros ldflags].
  apply respects_bind; [apply _ | apply respects_get; apply _ | intros p].
  apply respects_bind; [apply _ | apply _prepareToolchainFile_keeps | intros _].
  apply respects_bind; [apply _ | keeps_project | intros _].
  apply respects_bind; [apply _ | keeps_project | intros _].
  by apply CrossCompileMixin_configure_keeps.
Qed.

Lemma add_configure_env_arg_keeps arg value :
  respects same_project_options (add_configure_env_arg arg value).
Proof. unfold add_configure_env_arg. keeps_project. Qed.

Lemma set_prog_with_args_keeps prog path args :
  respects same_project_options (set_prog_with_args prog path args).
Proof. unfold set_prog_with_args. cbv zeta. keeps_project. Qed.

Lemma assert_unset_keeps keys : respects same_project_options (assert_unset keys).
Proof. induction keys as [|key keys IH]; cbn [assert_unset]; keeps_project. Qed.

Lemma CrossCompileAutotoolsProject_configure_keeps h base_configure :
  respects same_project_options base_configure ->
  respects same_project_options (CrossCompileAutotoolsProject_configure h base_configure).
Proof.
  intros Hbase. unfold CrossCompileAutotoolsProject_configure.
  apply respects_bind; [apply _ | apply respects_get; apply _ | intros p].
  apply respects_bind; [apply _ | keeps_project | intros _].
  apply respects_bind; [apply _ | | intros _].
  { apply respects_when; [apply _ ..|].
    apply respects_bind; [apply _ | apply respects_get; apply _ | intros p'].
    cbv zeta.
    apply respects_bind; [apply _ | apply assert_unset_keeps | intros _].
    apply respects_bind; [apply _ | apply set_prog_with_args_keeps | intros _].
    apply respects_bind; [apply _ | apply set_prog_with_args_keeps | intros _].
    apply respects_bind; [apply _ | apply default_ldflags_keeps | intros ldflags].
    apply respects_bind; [apply _ | apply add_configure_env_arg_keeps | intros _].
    apply respects_when; [apply _ ..|].
    apply respects_bind; [apply _ | apply set_prog_with_args_keeps | intros _].
    apply respects_when; [apply _ ..|]. apply add_configure_env_arg_keeps. }
  apply respects_bind; [apply _ | keeps_project | intros _].
  apply respects_bind; [apply _ | keeps_project | intros _].
  by apply CrossCompileMixin_configure_keeps.
Qed.

Lemma CrossCompileAutotoolsProject_init_keeps buildhost add_host_target_build_config_options :
  respects same_project_options
    (CrossCompileAutotoolsProject_init buildhost add_host_target_build_config_options).
Proof. unfold CrossCompileAutotoolsProject_init. keeps_project. Qed.

Lemma BuildEPollShim_configure_keeps h base_configure :
  respects same_project_options base_configure ->
  respects same_project_options (Wayland.BuildEPollShim_configure h base_configure).
Proof.
  intros Hbase. unfold Wayland.BuildEPollShim_configure.
  apply respects_bind; [apply _ | apply respects_get; apply _ | intros p].
  apply respects_bind; [apply _ | keeps_project | intros _].
  by apply CrossCompileCMakeProject_configure_keeps.
Qed.

Lemma BuildExpat_configure_keeps h source_dir base_configure (self : Wayland.Expat) :
  respects same_project_options base_configure ->
  same_project_options (Wayland.project self)
    (Wayland.project (final (Wayland.BuildExpat_configure h source_dir base_configure self))).
Proof.
  intros Hbase. unfold Wayland.BuildExpat_configure. rewrite bind_get.
  pose proof (CrossCompileCMakeProject_configure_keeps h base_configure Hbase) as Hconfigure.
  destruct (decide (0 < length (Wayland.configure_args self))); [|reflexivity].
  rewrite bind_modify. unfold Wayland.on_project. cbn [Wayland.project].
  specialize (Hconfigure (Wayland.project self)).
  by destruct (CrossCompileCMakeProject_configure h base_configure (Wayland.project self)).
Qed.

End ProjectOptions.

Section FettOptions.
Context {O : Type}.

Lemma on_state_options {S A} (m : M S A) (i : Instance O S) :
  options (final (on_state m i)) = options i.
Proof. unfold on_state. by destruct (m (state i)). Qed.

Lemma on_state_state {S A} (m : M S A) (i : Instance O S) :
  state (final (on_state m i)) = final (m (state i)).
Proof. unfold on_state. by destruct (m (state i)). Qed.

End FettOptions.

(** ** Option values through every hook *)
Section OptionValues.

(** C1, as amended.  The hooks keep the values of the options, with three
    exceptions.  QEMU: [__init__] switches [use_lto] off for a build with
    the address sanitizer, and [BuildQEMU.setup] appends ",morello-softmmu"
    to a [qemu_targets] that has its default value, does not name that
    target and belongs to a source tree with the Morello target file; every
    other [setup] and [update] keep all option values when the hooks of the
    base class do.  Cross-compiled projects: after the [__init__] of the
    base classes has returned, [CrossCompileMixin.__init__] replaces
    [crossCompileTarget] by the [target_arch] it is given, and assigns
    [installDir] for a native build of a class that installs into the SDK
    or the root file system and for a baremetal cross build of a class that
    installs into the SDK; it keeps [useMxgot], [linker], [debugInfo],
    [optimizationFlags] and [newCapRelocs], and when the [__init__] of the
    base classes does not return it changes nothing.  The [__init__] of
    CMake and Autotools projects and every [configure] keep the option
    values of the project when [configure] of the base class does.  The
    hooks of [BuildFettConfig] work on the manifest, the file system and
    the console only, and [BuildFettDiskImage.__init__] on the list of
    prefixes only. *)
Theorem hooks_keep_options_but_for_three_exceptions
    (e : Qemu.Env) (base_init base_setup base_update : M Qemu.State unit) (s : Qemu.State)
    (init_e : CrossCompileInit.Env) (mixin_base_init : M CrossCompileInit.Self unit)
    (target_arch : option CrossCompile.CrossCompileTarget) (self : CrossCompileInit.Self)
    (h : CrossCompile.Host) (buildhost : string) (add_host_target_build_config_options : bool)
    (base_configure : M CrossCompile.Project unit) (p : CrossCompile.Project)
    (source_dir : Path) (expat : Wayland.Expat)
    (fett_e : Fett.Env) (O : Type) (fett_base_init : M (Instance O Fett.State) unit)
    (fett : Instance O Fett.State)
    (image_base_init : M (Instance O (list string)) unit) (image : Instance O (list string)) :
  respects same_opts base_init ->
  respects same_opts base_setup ->
  respects same_opts base_update ->
  respects same_project_options base_configure ->
  (* QEMU *)
  (let s' := final (Qemu.BuildQEMUBase_init e base_init s) in
   Qemu.opts s' = Qemu.opts s
   \/ (Qemu.use_asan (Qemu.opts s) = true
       /\ Qemu.opts s' = Qemu.set_use_lto false (Qemu.opts s)))
  /\ (let s' := final (Qemu.BuildQEMU_init e base_init s) in
      Qemu.opts s' = Qemu.opts s
      \/ (Qemu.use_asan (Qemu.opts s) = true
          /\ Qemu.opts s' = Qemu.set_use_lto false (Qemu.opts s)))
  /\ Qemu.opts (final (Qemu.BuildQEMU_setup e base_setup s))
     = (if negb (Py.contains "morello-softmmu" (Qemu.qemu_targets (Qemu.opts s)))
           && Qemu.path_exists e
                (Qemu.source_dir e // "default-configs/targets/morello-softmmu.mak")
           && Qemu.qemu_targets_is_default (Qemu.opts s)
        then Qemu.set_qemu_targets
               (Qemu.qemu_targets (Qemu.opts s) +:+ ",morello-softmmu") (Qemu.opts s)
        else Qemu.opts s)
  /\ Qemu.opts (final (Qemu.BuildQEMUBase_setup e base_setup s)) = Qemu.opts s
  /\ Qemu.opts (final (Qemu.BuildSystemQEMU_setup e base_setup s)) = Qemu.opts s
  /\ Qemu.opts (final (Qemu.BuildBsdUserQEMU_setup e base_setup s)) = Qemu.opts s
  /\ Qemu.opts (final (Qemu.BuildQEMUBase_update e base_update s)) = Qemu.opts s
  (* CrossCompileMixin.__init__ *)
  /\ (forall self1, mixin_base_init self = Done tt self1 ->
      let target := match target_arch with
                    | Some arch => Some arch
                    | None => CrossCompileInit.crossCompileTarget self1
                    end in
      let self' :=
        final (CrossCompileInit.CrossCompileMixin_init init_e mixin_base_init target_arch self) in
      CrossCompileInit.useMxgot self' = CrossCompileInit.useMxgot self1
      /\ CrossCompileInit.linker self' = CrossCompileInit.linker self1
      /\ CrossCompileInit.debugInfo self' = CrossCompileInit.debugInfo self1
      /\ CrossCompileInit.optimizationFlags self' = CrossCompileInit.optimizationFlags self1
      /\ CrossCompileInit.newCapRelocs self' = CrossCompileInit.newCapRelocs self1
      /\ CrossCompileInit.crossCompileTarget self' = target
      /\ CrossCompileInit.installDir self'
         = default (CrossCompileInit.installDir self1) (assigned_installDir target self1))
  /\ ((forall self1, mixin_base_init self <> Done tt self1) ->
      final (CrossCompileInit.CrossCompileMixin_init init_e mixin_base_init target_arch self)
      = final (mixin_base_init self))
  (* the other hooks of cross-compiled projects *)
  /\ same_project_options p (final (CrossCompile.CrossCompileCMakeProject_init h p))
  /\ same_project_options p
       (final (CrossCompile.CrossCompileAutotoolsProject_init
                 buildhost add_host_target_build_config_options p))
  /\ same_project_options p (final (CrossCompile.CrossCompileMixin_configure base_configure p))
  /\ same_project_options p
       (final (CrossCompile.CrossCompileCMakeProject_configure h base_configure p))
  /\ same_project_options p
       (final (CrossCompile.CrossCompileAutotoolsProject_configure h base_configure p))
  /\ same_project_options p (final (Wayland.BuildEPollShim_configure h base_configure p))
  /\ same_project_options (Wayland.project expat)
       (Wayland.project (final (Wayland.BuildExpat_configure h source_dir base_configure expat)))
  (* BuildFettConfig *)
  /\ (let fett' := final ((fett_base_init ;;; on_state Fett.BuildFettConfig_init) fett) in
      options fett' = options (final (fett_base_init fett))
      /\ (forall fett1, fett_base_init fett = Done tt fett1 ->
          state fett'
          = {| Fett.mtree := ∅; Fett.disk := Fett.disk (state fett1);
               Fett.log := Fett.log (state fett1);
               Fett.pretending := Fett.pretending (state fett1) |}))
  /\ (let fett' := final (on_state Fett.compile fett) in
      options fett' = options fett
      /\ state fett'
         = {| Fett.mtree := Fett.mtree (state fett); Fett.disk := Fett.disk (state fett);
              Fett.log := Fett.log (state fett) ++ [EPrint "Nothing to build for fett-config"];
              Fett.pretending := Fett.pretending (state fett) |})
  /\ (let fett' := final (on_state (Fett.install fett_e) fett) in
      options fett' = options fett
      /\ state fett' = final (Fett.install fett_e (state fett)))
  (* BuildFettDiskImage *)
  /\ (let image' :=
        final ((image_base_init ;;; on_state Fett.BuildFettDiskImage_init) image) in
      options image' = options (final (image_base_init image))
      /\ (forall image1, image_base_init image = Done tt image1 ->
          state image' = state image1 ++ ["fett/"])).
Proof.
  intros Hinit Hsetup Hupdate Hconfigure.
  split; [exact (BuildQEMUBase_init_lto e base_init Hinit s)|].
  split; [exact (BuildQEMU_init_lto e base_init Hinit s)|].
  split; [exact (BuildQEMU_setup_options e base_setup s Hsetup)|].
  split; [by apply BuildQEMUBase_setup_keeps|].
  split; [by apply BuildSystemQEMU_setup_keeps|].
  split; [by apply BuildBsdUserQEMU_setup_keeps|].
  split; [by apply BuildQEMUBase_update_keeps|].
  split; [intros self1 Hbase; by apply CrossCompileMixin_init_options|].
  split.
  { intros Hbase. unfold CrossCompileInit.CrossCompileMixin_init, bind.
    destruct (mixin_base_init self) as [[] self1| |]; [|done..].
    by destruct (Hbase self1). }
  split; [apply CrossCompileCMakeProject_init_keeps|].
  split; [apply CrossCompileAutotoolsProject_init_keeps|].
  split; [by apply CrossCompileMixin_configure_keeps|].
  split; [by apply CrossCompileCMakeProject_configure_keeps|].
  split; [by apply CrossCompileAutotoolsProject_configure_keeps|].
  split; [by apply BuildEPollShim_configure_keeps|].
  split; [by apply BuildExpat_configure_keeps|].
  split.
  { cbv zeta. unfold bind. destruct (fett_base_init fett) as [[] fett1| |]; cbn; [|done..].
    split; [reflexivity|]. by intros ? [= <-]. }
  split; [cbv zeta; by rewrite on_state_options, on_state_state|].
  split; [cbv zeta; by rewrite on_state_options, on_state_state|].
  cbv zeta. unfold bind. destruct (image_base_init image) as [[] image1| |]; cbn; [|done..].
  split; [reflexivity|]. by intros ? [= <-].
Qed.

End OptionValues.

Section OptionValuesWitnesses.

(** C1, as amended, on a native build of a project whose [target] option
    was resolved to MIPS and that installs into the SDK: the target and the
    install directory are replaced, the other option values stay. *)
Lemma hooks_keep_options_but_for_three_exceptions_witness :
  let self' :=
    final (CrossCompileInit.CrossCompileMixin_init init_env (ret tt)
             (Some CrossCompile.NATIVE) sdk_self) in
  CrossCompileInit.useMxgot self' = true
  /\ CrossCompileInit.linker self' = "lld"
  /\ CrossCompileInit.debugInfo self' = true
  /\ CrossCompileInit.optimizationFlags self' = ["-O2"]
  /\ CrossCompileInit.newCapRelocs self' = false
  /\ CrossCompileInit.crossCompileTarget self' = Some CrossCompile.NATIVE
  /\ CrossCompileInit.installDir self' = Some "/opt/cheri/sdk".
Proof.
  refine (proj1 (proj2 (proj2 (proj2 (proj2 (proj2 (proj2 (proj2
    (hooks_keep_options_but_for_three_exceptions
       example_env (ret tt) (ret tt) (ret tt) example_state
       init_env (ret tt) (Some CrossCompile.NATIVE) sdk_self
       cmake_host "x86_64-unknown-freebsd" true (ret tt) mips_cmake_project
       "/src/libexpat" {| Wayland.configure_args := ["."]; Wayland.project := mips_cmake_project |}
       (example_fett_env ∅) unit (ret tt) {| options := tt; state := example_fett_state |}
       (ret tt) {| options := tt; state := ["boot/"] |}
       _ _ _ _)))))))) sdk_self eq_refl);
    intros x; repeat split.
Defined.

(** [CrossCompileMixin.__init__] replaces two resolved option values. *)
Example init_replaces_target_and_install_directory :
  let self' :=
    final (CrossCompileInit.CrossCompileMixin_init init_env (ret tt)
             (Some CrossCompile.NATIVE) sdk_self) in
  CrossCompileInit.crossCompileTarget sdk_self = Some CrossCompile.MIPS
  /\ CrossCompileInit.crossCompileTarget self' = Some CrossCompile.NATIVE
  /\ CrossCompileInit.installDir sdk_self = Some "/opt/cheri/rootfs128/opt/example"
  /\ CrossCompileInit.installDir self' = Some "/opt/cheri/sdk".
Proof. vm_compute. done. Qed.

End OptionValuesWitnesses.
